(** * Student management dashboard: the record API and the client filter

    A shallow embedding of [backend/server.js] (validation, the five
    record endpoints over one MongoDB collection) and of the client's
    [filterStudents], with the properties of the specification stated
    and proved over it.

    Conventions.
    - A JavaScript string is a [string]; one [ascii] is one UTF-16 code
      unit, so the model covers the code units below 256 (Latin-1).
    - JSON numbers, [Date.parse], the ObjectId syntax, the store's regular
      expression engine and its sort are supplied by the platform: they
      are fields of the classes [JsEngine] and [MongoDriver].
    - An exception is a value [Throw e] of the handler monad, and the
      result [None] of a conversion or of the validator that throws; the
      [try { ... } catch] of each route turns it into the 500 response. *)

From Stdlib Require Import Bool Arith ZArith NArith List Ascii String Lia.
From Stdlib Require Import Permutation DecimalString.
Import ListNotations.

Set Implicit Arguments.
Set Warnings "-register-all".

Local Open Scope string_scope.
Local Open Scope bool_scope.

(* ------------------------------------------------------------------ *)
(** ** JavaScript strings *)

Module JsString.

(** Code units that [String.prototype.trim] strips and that [\s]
    matches: TAB, LF, VT, FF, CR, SPACE and NBSP (those below 256). *)
Definition is_ws (c : ascii) : bool :=
  let n := nat_of_ascii c in
  (((9 <=? n) && (n <=? 13)) || (n =? 32) || (n =? 160))%nat.

(** [toLowerCase] on one code unit: A-Z, and the Latin-1 capitals
    U+00C0..U+00DE except the multiplication sign U+00D7. *)
Definition lower_char (c : ascii) : ascii :=
  let n := nat_of_ascii c in
  if (((65 <=? n) && (n <=? 90))
      || ((192 <=? n) && (n <=? 222) && negb (n =? 215)))%nat
  then ascii_of_nat (n + 32) else c.

Fixpoint map (f : ascii -> ascii) (s : string) : string :=
  match s with
  | EmptyString => EmptyString
  | String c r => String (f c) (map f r)
  end.

Definition toLowerCase (s : string) : string := map lower_char s.

Fixpoint trimStart (s : string) : string :=
  match s with
  | EmptyString => EmptyString
  | String c r => if is_ws c then trimStart r else s
  end.

Fixpoint trimEnd (s : string) : string :=
  match s with
  | EmptyString => EmptyString
  | String c r =>
      match trimEnd r with
      | EmptyString => if is_ws c then EmptyString else String c EmptyString
      | r' => String c r'
      end
  end.

Definition trim (s : string) : string := trimEnd (trimStart s).

(** [s.includes(t)]: [t] occurs in [s] as a contiguous block. *)
Fixpoint includes (s t : string) : bool :=
  String.prefix t s ||
  match s with
  | EmptyString => false
  | String _ r => includes r t
  end.

End JsString.

(* ------------------------------------------------------------------ *)
(** ** Regular expressions

    The two patterns of [validateStudent] are anchored at both ends and
    use only classes, concatenation and bounded or unbounded repetition,
    so [test] is membership of the whole string in the language.  It is
    decided with derivatives. *)

Module RegExp.

Inductive re : Type :=
| Void                             (* matches nothing *)
| Eps                              (* the empty string *)
| Cls (p : ascii -> bool)          (* one code unit of a class *)
| Seq (r1 r2 : re)
| Alt (r1 r2 : re)
| Star (r : re).

Definition Chr (c : ascii) : re := Cls (Ascii.eqb c).
Definition Plus (r : re) : re := Seq r (Star r).          (* r+ *)
Definition Opt (r : re) : re := Alt Eps r.                (* r? *)
Fixpoint Rep (n : nat) (r : re) : re :=                   (* r{n} *)
  match n with O => Eps | S k => Seq r (Rep k r) end.
Fixpoint UpTo (n : nat) (r : re) : re :=                  (* r{0,n} *)
  match n with O => Eps | S k => Opt (Seq r (UpTo k r)) end.
Definition Range (lo hi : nat) (r : re) : re :=           (* r{lo,hi} *)
  Seq (Rep lo r) (UpTo (hi - lo) r).

Fixpoint nullable (r : re) : bool :=
  match r with
  | Void => false
  | Eps => true
  | Cls _ => false
  | Seq a b => nullable a && nullable b
  | Alt a b => nullable a || nullable b
  | Star _ => true
  end.

Fixpoint deriv (c : ascii) (r : re) : re :=
  match r with
  | Void => Void
  | Eps => Void
  | Cls p => if p c then Eps else Void
  | Seq a b =>
      if nullable a then Alt (Seq (deriv c a) b) (deriv c b)
      else Seq (deriv c a) b
  | Alt a b => Alt (deriv c a) (deriv c b)
  | Star a => Seq (deriv c a) (Star a)
  end.

(** [/^r$/.test(s)] *)
Fixpoint test (r : re) (s : string) : bool :=
  match s with
  | EmptyString => nullable r
  | String c s' => test (deriv c r) s'
  end.

(** Every class of [r] gives the same answer on [c] and on [f c]. *)
Fixpoint respects (f : ascii -> ascii) (r : re) : Prop :=
  match r with
  | Void | Eps => True
  | Cls p => forall c, p (f c) = p c
  | Seq a b | Alt a b => respects f a /\ respects f b
  | Star a => respects f a
  end.

End RegExp.

(* ------------------------------------------------------------------ *)
(** ** JSON values and the JavaScript engine *)

(** What the script takes from its engine and cannot be read off the
    repository: the doubles that [JSON.parse] produces and [Date.parse]. *)
Class JsEngine : Type := {
  Num : Type;
  (* [ToBoolean] on a number: false on [+0] and [-0] *)
  num_truthy : Num -> bool;
  (* [Number.prototype.toString] *)
  num_toString : Num -> string;
  (* the time value of [new Date(n)]; [None] is NaN *)
  num_time : Num -> option Z;
  (* [Date.parse], in milliseconds since the epoch; [None] is NaN *)
  Date_parse : string -> option Z
}.

Section Values.
Context {E : JsEngine}.

(** A property of [req.body]: a JSON value, or [undefined] when the
    key is absent. *)
Inductive JValue : Type :=
| JUndefined
| JNull
| JBool (b : bool)
| JNum (n : Num)
| JStr (s : string)
| JArr (items : list JValue)
| JObj (props : list (string * JValue)).

(** [ToBoolean] *)
Definition truthy (v : JValue) : bool :=
  match v with
  | JUndefined | JNull => false
  | JBool b => b
  | JNum n => num_truthy n
  | JStr s => negb (s =? "")
  | JArr _ | JObj _ => true
  end.

(** [typeof v === 'string'] *)
Definition typeof_string (v : JValue) : bool :=
  match v with JStr _ => true | _ => false end.

(** The object has an own property [key]; none of its properties is
    a function, since it was read from JSON. *)
Definition has_own (key : string) (props : list (string * JValue)) : bool :=
  existsb (fun p => fst p =? key) props.

(** [ToString]; [None] when it throws a [TypeError].  An object
    answers through [Object.prototype.toString] unless an own property
    [toString] hides it: the conversion then finds nothing to call that
    gives a primitive, and throws.  An array joins its elements with
    commas, printing [null] and [undefined] as nothing. *)
Fixpoint ToString (v : JValue) : option string :=
  match v with
  | JUndefined => Some "undefined"
  | JNull => Some "null"
  | JBool true => Some "true"
  | JBool false => Some "false"
  | JNum n => Some (num_toString n)
  | JStr s => Some s
  | JArr items =>
      let item x := match x with
                    | JUndefined | JNull => Some ""
                    | _ => ToString x
                    end in
      (fix join (l : list JValue) : option string :=
         match l with
         | [] => Some ""
         | [x] => item x
         | x :: rest =>
             match item x with
             | Some s => option_map (fun r => s ++ "," ++ r) (join rest)
             | None => None
             end
         end) items
  | JObj props =>
      if has_own "toString" props then None else Some "[object Object]"
  end.

(** A [Date] object is its time value; [None] is the Invalid Date. *)
Definition JsDate : Type := option Z.

(** [new Date(v)] for a value [v] of the request body; [None] when it
    throws a [TypeError]: an array or an object is first converted to a
    primitive, which is its [ToString] whether or not it has an own
    property [valueOf]. *)
Definition Date_new (v : JValue) : option JsDate :=
  match v with
  | JUndefined => Some None
  | JNull => Some (Some 0%Z)
  | JBool b => Some (Some (if b then 1%Z else 0%Z))
  | JNum n => Some (num_time n)
  | JStr s => Some (Date_parse s)
  | JArr _ | JObj _ => option_map Date_parse (ToString v)
  end.

(** [isNaN(date.getTime())] *)
Definition isNaN_getTime (d : JsDate) : bool :=
  match d with None => true | Some _ => false end.

(** The properties of [req.body] that the routes read. *)
Record Body : Type := mkBody {
  b_name : JValue;
  b_email : JValue;
  b_phone : JValue;
  b_course : JValue;
  b_feeStatus : JValue;
  b_joinDate : JValue;
  b_notes : JValue
}.

End Values.

(* ------------------------------------------------------------------ *)
(** ** Validation *)

Module Validation.
Import JsString RegExp.

(** [[^\s@]] *)
Definition not_space_at (c : ascii) : bool :=
  negb (is_ws c || Ascii.eqb c "@").

(** [/^[^\s@]+@[^\s@]+\.[^\s@]+$/] *)
Definition emailRegex : re :=
  Seq (Plus (Cls not_space_at))
 (Seq (Chr "@")
 (Seq (Plus (Cls not_space_at))
 (Seq (Chr ".")
      (Plus (Cls not_space_at))))).

Definition digit (c : ascii) : bool :=
  let n := nat_of_ascii c in ((48 <=? n) && (n <=? 57))%nat.

(** [[-\s\.]] *)
Definition separator (c : ascii) : bool :=
  Ascii.eqb c "-" || is_ws c || Ascii.eqb c ".".

(** [/^[\+]?[(]?[0-9]{3}[)]?[-\s\.]?[0-9]{3}[-\s\.]?[0-9]{4,6}$/] *)
Definition phoneRegex : re :=
  Seq (Opt (Chr "+"))
 (Seq (Opt (Chr "("))
 (Seq (Rep 3 (Cls digit))
 (Seq (Opt (Chr ")"))
 (Seq (Opt (Cls separator))
 (Seq (Rep 3 (Cls digit))
 (Seq (Opt (Cls separator))
      (Range 4 6 (Cls digit)))))))).

Definition validStatuses : list string :=
  ["Paid"; "Pending"; "Partial"; "Scholarship"].

(** [errors.push(e)] *)
Definition push (errors : list string) (e : string) : list string :=
  errors ++ [e].

(** A computation that returns a value or throws ([None]), and its
    sequencing. *)
Definition and_then {A B} (m : option A) (k : A -> option B) : option B :=
  match m with
  | Some a => k a
  | None => None
  end.

Declare Scope throws_scope.
Delimit Scope throws_scope with throws.
Notation "x <- m ;; k" := (and_then m (fun x => k))
  (at level 61, m at next level, right associativity) : throws_scope.
Local Open Scope throws_scope.

Section WithEngine.
Context {E : JsEngine}.

(** [validStatuses.includes(v)]: only a string can be the same value
    as one of the four strings. *)
Definition includes_status (v : JValue) : bool :=
  match v with
  | JStr s => existsb (String.eqb s) validStatuses
  | _ => false
  end.

(** [!v || typeof v !== 'string' || v.trim().length < 2] *)
Definition bad_text (v : JValue) : bool :=
  negb (truthy v) ||
  match v with
  | JStr s => (String.length (trim s) <? 2)%nat
  | _ => true
  end.

(** [regex.test(v)]: the pattern is tried on [ToString(v)]. *)
Definition regex_test (r : re) (v : JValue) : option bool :=
  option_map (test r) (ToString v).

(** [validateStudent(data)]: the list it returns, or [None] when a
    conversion of [data.phone] or [data.joinDate] throws. *)
Definition validateStudent (data : Body) : option (list string) :=
  let errors := [] in
  let errors :=
    if bad_text (b_name data)
    then push errors "Name is required and must be at least 2 characters"
    else errors in
  errors <-
    (if negb (truthy (b_email data)) || negb (typeof_string (b_email data))
     then Some (push errors "Email is required")
     else
       matched <- regex_test emailRegex (b_email data) ;;
       Some (if negb matched
             then push errors "Invalid email format"
             else errors)) ;;
  errors <-
    (if truthy (b_phone data)
     then
       matched <- regex_test phoneRegex (b_phone data) ;;
       Some (if negb matched
             then push errors "Invalid phone number format"
             else errors)
     else Some errors) ;;
  let errors :=
    if bad_text (b_course data)
    then push errors "Course/Service is required and must be at least 2 characters"
    else errors in
  let errors :=
    if negb (truthy (b_feeStatus data)) || negb (includes_status (b_feeStatus data))
    then push errors "Valid fee status is required"
    else errors in
  errors <-
    (if negb (truthy (b_joinDate data))
     then Some (push errors "Join date is required")
     else
       date <- Date_new (b_joinDate data) ;;
       Some (if isNaN_getTime date
             then push errors "Invalid join date format"
             else errors)) ;;
  let errors :=
    if truthy (b_notes data) && negb (typeof_string (b_notes data))
    then push errors "Notes must be text"
    else errors in
  Some errors.

End WithEngine.

End Validation.

(* ------------------------------------------------------------------ *)
(** ** The collection and the MongoDB driver *)

(** An [ObjectId] is its 96-bit value. *)
Definition ObjectId : Type := N.

Section Documents.
Context {E : JsEngine}.

(** A document of the [students] collection, as the routes write it. *)
Record Doc : Type := mkDoc {
  _id : ObjectId;
  name : string;
  email : string;
  phone : string;
  course : string;
  feeStatus : JValue;
  joinDate : JsDate;
  notes : string;
  createdAt : Z;
  updatedAt : Z
}.

(** The collection, in natural (insertion) order. *)
Definition Store : Type := list Doc.

(** The object literal [student] of the POST route. *)
Record Student : Type := mkStudent {
  s_name : string;
  s_email : string;
  s_phone : string;
  s_course : string;
  s_feeStatus : JValue;
  s_joinDate : JsDate;
  s_notes : string;
  s_createdAt : Z;
  s_updatedAt : Z
}.

(** The object literal [updateData] of the PUT route. *)
Record UpdateData : Type := mkUpdateData {
  u_name : string;
  u_email : string;
  u_phone : string;
  u_course : string;
  u_feeStatus : JValue;
  u_joinDate : JsDate;
  u_notes : string;
  u_updatedAt : Z
}.

(** [{ _id: insertedId, ...student }] *)
Definition with_id (i : ObjectId) (s : Student) : Doc :=
  mkDoc i (s_name s) (s_email s) (s_phone s) (s_course s) (s_feeStatus s)
        (s_joinDate s) (s_notes s) (s_createdAt s) (s_updatedAt s).

(** [{ $set: updateData }] applied to a document. *)
Definition apply_set (u : UpdateData) (d : Doc) : Doc :=
  mkDoc (_id d) (u_name u) (u_email u) (u_phone u) (u_course u)
        (u_feeStatus u) (u_joinDate u) (u_notes u) (createdAt d)
        (u_updatedAt u).

(** The text fields a query of the routes can name. *)
Inductive TextField : Type := F_name | F_email | F_course.

Definition text_field (f : TextField) (d : Doc) : string :=
  match f with
  | F_name => name d
  | F_email => email d
  | F_course => course d
  end.

(** The query documents the routes build.  The clauses of one query
    document must all hold; [$or] holds when one of its members does. *)
Inductive Clause : Type :=
| IdEq (i : ObjectId)                          (* { _id: i } *)
| IdNe (i : ObjectId)                          (* { _id: { $ne: i } } *)
| EmailEq (e : string)                         (* { email: e } *)
| FeeStatusEq (s : string)                     (* { feeStatus: s } *)
| RegexI (f : TextField) (pattern : string)    (* { f: { $regex, $options: 'i' } } *)
| Or (alternatives : list Clause).             (* { $or: [...] } *)

Definition Query : Type := list Clause.

End Documents.

(** What the routes take from the MongoDB driver and server. *)
Class MongoDriver {E : JsEngine} : Type := {
  (* [ObjectId.isValid(id)] on a route parameter *)
  ObjectId_isValid : string -> bool;
  (* [new ObjectId(id)]; [None] when the constructor throws *)
  ObjectId_new : string -> option ObjectId;
  (* [{ $regex: pattern, $options: 'i' }] as a test of a string field;
     [None] when the server rejects the pattern as not a regular
     expression *)
  regex_i : string -> option (string -> bool);
  (* [cursor.sort({ [sortBy]: direction })]; [None] when the server
     rejects the sort specification *)
  sort_docs : string -> Z -> list Doc -> option (list Doc)
}.

Inductive JsError : Type :=
| TypeError                      (* a call on something that has no such method,
                                    a conversion that finds no primitive *)
| BSONError                      (* [new ObjectId] on a malformed string *)
| MongoServerError.              (* duplicate key, bad pattern, bad sort *)

Inductive Completion (A : Type) : Type :=
| Normal (a : A)
| Throw (e : JsError).
Arguments Throw {A} e.

Section Gateway.
Context {E : JsEngine} {D : MongoDriver}.

(** The field [s] against [{ $regex: pattern, $options: 'i' }]. *)
Definition regex_matches (pattern s : string) : bool :=
  match regex_i pattern with
  | Some m => m s
  | None => false
  end.

(** Every pattern of the clause is a regular expression. *)
Fixpoint well_formed (c : Clause) : bool :=
  match c with
  | RegexI _ p => match regex_i p with Some _ => true | None => false end
  | Or cs => forallb well_formed cs
  | _ => true
  end.

Fixpoint matches_clause (c : Clause) (d : Doc) : bool :=
  match c with
  | IdEq i => N.eqb (_id d) i
  | IdNe i => negb (N.eqb (_id d) i)
  | EmailEq e => String.eqb (email d) e
  | FeeStatusEq s =>
      match feeStatus d with JStr x => String.eqb x s | _ => false end
  | RegexI f p => regex_matches p (text_field f d)
  | Or cs => existsb (fun c' => matches_clause c' d) cs
  end.

Definition matches_query (q : Query) (d : Doc) : bool :=
  forallb (fun c => matches_clause c d) q.

(** A computation of a route: it reads and writes the collection and
    may throw. *)
Definition M (A : Type) : Type := Store -> Completion A * Store.

Definition ret {A} (a : A) : M A := fun st => (Normal a, st).
Definition throw {A} (e : JsError) : M A := fun st => (Throw e, st).
Definition bind {A B} (m : M A) (k : A -> M B) : M B :=
  fun st =>
    match m st with
    | (Normal a, st') => k a st'
    | (Throw e, st') => (Throw e, st')
    end.
Definition lift {A} (c : Completion A) : M A := fun st => (c, st).

(** [collection.findOne(q)] *)
Definition findOne (q : Query) : M (option Doc) :=
  fun st =>
    if forallb well_formed q
    then (Normal (List.find (matches_query q) st), st)
    else (Throw MongoServerError, st).

(** [collection.find(q).sort({ [sortBy]: dir }).toArray()] *)
Definition find_sorted (q : Query) (sortBy : string) (dir : Z)
  : M (list Doc) :=
  fun st =>
    if forallb well_formed q
    then match sort_docs sortBy dir (List.filter (matches_query q) st) with
         | Some l => (Normal l, st)
         | None => (Throw MongoServerError, st)
         end
    else (Throw MongoServerError, st).

(** The unique indexes: [_id] always, [email] from [createIndexes]. *)
Definition duplicate_key (d : Doc) (others : list Doc) : bool :=
  existsb (fun x => N.eqb (_id x) (_id d) || String.eqb (email x) (email d))
          others.

(** [collection.insertOne(student)], the driver having drawn [i] as
    the new [_id]; the result is [insertedId]. *)
Definition insertOne (i : ObjectId) (s : Student) : M ObjectId :=
  fun st =>
    let d := with_id i s in
    if duplicate_key d st then (Throw MongoServerError, st)
    else (Normal i, (st ++ [d])%list).

(** The first document with [_id = i] replaced through [f]; [None]
    when there is none. *)
Fixpoint replace_first (i : ObjectId) (f : Doc -> Doc) (st : Store)
  : option Store :=
  match st with
  | [] => None
  | d :: rest =>
      if N.eqb (_id d) i then Some (f d :: rest)
      else option_map (cons d) (replace_first i f rest)
  end.

(** The documents other than the first one with [_id = i]. *)
Fixpoint remove_first (i : ObjectId) (st : Store) : Store :=
  match st with
  | [] => []
  | d :: rest => if N.eqb (_id d) i then rest else d :: remove_first i rest
  end.

(** [collection.updateOne({ _id: i }, { $set: u })]; the result is
    [matchedCount]. *)
Definition updateOne (i : ObjectId) (u : UpdateData) : M nat :=
  fun st =>
    match replace_first i (apply_set u) st with
    | None => (Normal 0, st)
    | Some st' =>
        if existsb (fun x => String.eqb (email x) (u_email u))
                   (remove_first i st)
        then (Throw MongoServerError, st)
        else (Normal 1, st')
    end.

(** [collection.deleteOne({ _id: i })]; the result is [deletedCount]. *)
Definition deleteOne (i : ObjectId) : M nat :=
  fun st =>
    if existsb (fun d => N.eqb (_id d) i) st
    then (Normal 1, remove_first i st)
    else (Normal 0, st).

(** [new ObjectId(id)] *)
Definition new_ObjectId (id : string) : M ObjectId :=
  match ObjectId_new id with
  | Some i => ret i
  | None => throw BSONError
  end.

End Gateway.

Declare Scope route_scope.
Delimit Scope route_scope with route.
Notation "x <- m ;; k" := (bind m (fun x => k))
  (at level 61, m at next level, right associativity) : route_scope.

(* ------------------------------------------------------------------ *)
(** ** The routes of [server.js] *)

Module Server.
Import JsString Validation.
Local Open Scope route_scope.

Section Routes.
Context {E : JsEngine} {D : MongoDriver}.

(** What a route answers: the status and the payload of the envelope. *)
Inductive Response : Type :=
| Created (data : Doc)                      (* 201 *)
| Listed (count : nat) (data : list Doc)    (* 200, GET /api/records *)
| Found (data : Doc)                        (* 200, GET /api/records/:id *)
| Updated (data : option Doc)               (* 200, PUT *)
| Deleted                                   (* 200, DELETE *)
| ValidationFailed (errors : list string)   (* 400 'Validation failed' *)
| InvalidId                                 (* 400 'Invalid student ID format' *)
| NotFound                                  (* 404 'Student not found' *)
| Conflict                                  (* 409 *)
| InternalError.                            (* 500 *)

Definition status (r : Response) : nat :=
  match r with
  | Created _ => 201
  | Listed _ _ | Found _ | Updated _ | Deleted => 200
  | ValidationFailed _ | InvalidId => 400
  | NotFound => 404
  | Conflict => 409
  | InternalError => 500
  end.

(** [try { ... } catch (error) { res.status(500)... }] *)
Definition try_catch (m : M Response) (st : Store) : Response * Store :=
  match m st with
  | (Normal r, st') => (r, st')
  | (Throw _, st') => (InternalError, st')
  end.

(** [v.trim()] *)
Definition call_trim (v : JValue) : Completion string :=
  match v with
  | JStr s => Normal (trim s)
  | _ => Throw TypeError
  end.

(** [v?.trim()]; [None] is [undefined] *)
Definition opt_call_trim (v : JValue) : Completion (option string) :=
  match v with
  | JUndefined | JNull => Normal None
  | JStr s => Normal (Some (trim s))
  | _ => Throw TypeError
  end.

(** A call of a function that returns a value or throws a
    [TypeError]. *)
Definition called {A} (result : option A) : Completion A :=
  match result with
  | Some a => Normal a
  | None => Throw TypeError
  end.

(** [x || ''] for [x] a string or [undefined] *)
Definition or_empty (x : option string) : string :=
  match x with
  | Some s => if s =? "" then "" else s
  | None => ""
  end.

(** The object literal [student], its properties evaluated in order. *)
Definition prepare_document (t_created t_updated : Z) (body : Body)
  : M Student :=
  n <- lift (call_trim (b_name body)) ;;
  e <- lift (call_trim (b_email body)) ;;
  p <- lift (opt_call_trim (b_phone body)) ;;
  c <- lift (call_trim (b_course body)) ;;
  j <- lift (called (Date_new (b_joinDate body))) ;;
  o <- lift (opt_call_trim (b_notes body)) ;;
  ret (mkStudent n (toLowerCase e) (or_empty p) c (b_feeStatus body)
                 j (or_empty o) t_created t_updated).

(** The object literal [updateData]. *)
Definition prepare_update (t_updated : Z) (body : Body) : M UpdateData :=
  n <- lift (call_trim (b_name body)) ;;
  e <- lift (call_trim (b_email body)) ;;
  p <- lift (opt_call_trim (b_phone body)) ;;
  c <- lift (call_trim (b_course body)) ;;
  j <- lift (called (Date_new (b_joinDate body))) ;;
  o <- lift (opt_call_trim (b_notes body)) ;;
  ret (mkUpdateData n (toLowerCase e) (or_empty p) c (b_feeStatus body)
                    j (or_empty o) t_updated).

(** [app.post('/api/records')].  [t_created] and [t_updated] are the
    two readings of the clock, [fresh] the [_id] the driver draws. *)
Definition post_records (t_created t_updated : Z) (fresh : ObjectId)
           (body : Body) : Store -> Response * Store :=
  try_catch (
    errors <- lift (called (validateStudent body)) ;;
    if (0 <? List.length errors)%nat then ret (ValidationFailed errors)
    else
      student <- prepare_document t_created t_updated body ;;
      existingStudent <- findOne [EmailEq (s_email student)] ;;
      match existingStudent with
      | Some _ => ret Conflict
      | None =>
          insertedId <- insertOne fresh student ;;
          ret (Created (with_id insertedId student))
      end).

(** A property of [req.query] that is a string or absent: truthy
    when present and not empty. *)
Definition supplied (x : option string) : option string :=
  match x with
  | Some s => if s =? "" then None else Some s
  | None => None
  end.

(** The [filter] object of the list route. *)
Definition build_filter (search status : option string) : Query :=
  let filter : Query := [] in
  let filter :=
    match supplied status with
    | Some s => (filter ++ [FeeStatusEq s])%list
    | None => filter
    end in
  let filter :=
    match supplied search with
    | Some s => (filter ++ [Or [RegexI F_name s; RegexI F_email s;
                                RegexI F_course s]])%list
    | None => filter
    end in
  filter.

(** [app.get('/api/records')], the four query parameters being
    strings or absent. *)
Definition get_records (search status sortBy sortOrder : option string)
  : Store -> Response * Store :=
  try_catch (
    let sortBy := match sortBy with Some s => s | None => "joinDate" end in
    let sortOrder := match sortOrder with Some s => s | None => "desc" end in
    let filter := build_filter search status in
    let direction := if sortOrder =? "desc" then (-1)%Z else 1%Z in
    students <- find_sorted filter sortBy direction ;;
    ret (Listed (List.length students) students)).

(** [app.get('/api/records/:id')] *)
Definition get_record (id : string) : Store -> Response * Store :=
  try_catch (
    if negb (ObjectId_isValid id) then ret InvalidId
    else
      i <- new_ObjectId id ;;
      student <- findOne [IdEq i] ;;
      match student with
      | None => ret NotFound
      | Some d => ret (Found d)
      end).

(** [app.put('/api/records/:id')]; [t_updated] is the reading of the
    clock. *)
Definition put_record (t_updated : Z) (id : string) (body : Body)
  : Store -> Response * Store :=
  try_catch (
    if negb (ObjectId_isValid id) then ret InvalidId
    else
      errors <- lift (called (validateStudent body)) ;;
      if (0 <? List.length errors)%nat then ret (ValidationFailed errors)
      else
        updateData <- prepare_update t_updated body ;;
        i <- new_ObjectId id ;;
        existingStudent <- findOne [EmailEq (u_email updateData); IdNe i] ;;
        match existingStudent with
        | Some _ => ret Conflict
        | None =>
            i' <- new_ObjectId id ;;
            matchedCount <- updateOne i' updateData ;;
            if (matchedCount =? 0)%nat then ret NotFound
            else
              i'' <- new_ObjectId id ;;
              updatedStudent <- findOne [IdEq i''] ;;
              ret (Updated updatedStudent)
        end).

(** [app.delete('/api/records/:id')] *)
Definition delete_record (id : string) : Store -> Response * Store :=
  try_catch (
    if negb (ObjectId_isValid id) then ret InvalidId
    else
      i <- new_ObjectId id ;;
      deletedCount <- deleteOne i ;;
      if (deletedCount =? 0)%nat then ret NotFound
      else ret Deleted).

End Routes.
End Server.

(* ------------------------------------------------------------------ *)
(** ** The client's search box and status filter *)

Module Client.
Import JsString.

(** A record of [currentStudents], as the list route serialises it. *)
Record Student : Type := mkStudent {
  _id : string;
  name : string;
  email : string;
  phone : string;
  course : string;
  feeStatus : string;
  joinDate : string;
  notes : string;
  createdAt : string;
  updatedAt : string
}.

(** What [renderTable] leaves in [tableBody]. *)
Inductive Table : Type :=
| Loading
| NoResults                       (* the 'No students found' row *)
| Rows (students : list Student). (* one row per student, in order *)

(** The global state and the two inputs that [filterStudents] reads,
    and the table it writes. *)
Record Page : Type := mkPage {
  currentStudents : list Student;
  searchInput : string;            (* searchInput.value *)
  filterStatus : string;           (* filterStatus.value *)
  tableBody : Table
}.

Definition renderTable (students : list Student) (p : Page) : Page :=
  match students with
  | [] => mkPage (currentStudents p) (searchInput p) (filterStatus p) NoResults
  | _ => mkPage (currentStudents p) (searchInput p) (filterStatus p)
                (Rows students)
  end.

(** The callback of [currentStudents.filter]. *)
Definition keeps (searchTerm statusFilter : string) (student : Student)
  : bool :=
  let matchesSearch :=
    (searchTerm =? "")
    || includes (toLowerCase (name student)) searchTerm
    || includes (toLowerCase (email student)) searchTerm
    || includes (toLowerCase (course student)) searchTerm in
  let matchesStatus :=
    (statusFilter =? "") || (feeStatus student =? statusFilter) in
  matchesSearch && matchesStatus.

Definition filterStudents (p : Page) : Page :=
  let searchTerm := trim (toLowerCase (searchInput p)) in
  let statusFilter := filterStatus p in
  let filtered := List.filter (keeps searchTerm statusFilter)
                              (currentStudents p) in
  renderTable filtered p.

(** The students shown by the table. *)
Definition shown (t : Table) : list Student :=
  match t with
  | Rows l => l
  | Loading | NoResults => []
  end.

End Client.

(* ------------------------------------------------------------------ *)
(** ** A reference platform

    One engine and one driver on which the routes can be run: integers
    for the JSON numbers, date-only ISO strings for [Date.parse], the
    24 hexadecimal digits of an ObjectId, patterns without
    metacharacters for [$regex] (it refuses the others), and a sort on
    [joinDate] (it refuses the other keys). *)

Module Reference.
Import JsString.
Local Open Scope Z_scope.

Definition digit_value (c : ascii) : option Z :=
  let n := Z.of_nat (nat_of_ascii c) in
  if (48 <=? n) && (n <=? 57) then Some (n - 48) else None.

Definition hex_value (c : ascii) : option Z :=
  let n := Z.of_nat (nat_of_ascii c) in
  if (48 <=? n) && (n <=? 57) then Some (n - 48)
  else if (65 <=? n) && (n <=? 70) then Some (n - 55)
  else if (97 <=? n) && (n <=? 102) then Some (n - 87)
  else None.

(** The number written by the digits of [s] in base [base], after
    [acc]. *)
Fixpoint digits (value : ascii -> option Z) (base : Z) (s : string)
         (acc : Z) : option Z :=
  match s with
  | EmptyString => Some acc
  | String c r =>
      match value c with
      | Some v => digits value base r (base * acc + v)
      | None => None
      end
  end.

Definition is_leap (y : Z) : bool :=
  ((y mod 4 =? 0) && negb (y mod 100 =? 0)) || (y mod 400 =? 0).

Definition days_in_month (y m : Z) : Z :=
  if m =? 2 then (if is_leap y then 29 else 28)
  else if (m =? 4) || (m =? 6) || (m =? 9) || (m =? 11) then 30
  else 31.

(** Days from 1970-01-01 to the civil date [y-m-d]. *)
Definition days_from_civil (y m d : Z) : Z :=
  let y' := if m <=? 2 then y - 1 else y in
  let era := y' / 400 in
  let yoe := y' - era * 400 in
  let mp := (m + 9) mod 12 in
  let doy := (153 * mp + 2) / 5 + d - 1 in
  let doe := yoe * 365 + yoe / 4 - yoe / 100 + doy in
  era * 146097 + doe - 719468.

(** [Date.parse] on [YYYY-MM-DD]: midnight UTC of that day. *)
Definition parse_iso_date (s : string) : option Z :=
  if negb (String.length s =? 10)%nat then None
  else
    match digits digit_value 10 (substring 0 4 s) 0,
          digits digit_value 10 (substring 5 2 s) 0,
          digits digit_value 10 (substring 8 2 s) 0 with
    | Some y, Some m, Some d =>
        if (substring 4 1 s =? "-")%string && (substring 7 1 s =? "-")%string
           && (1 <=? m) && (m <=? 12) && (1 <=? d) && (d <=? days_in_month y m)
        then Some (days_from_civil y m d * 86400000)
        else None
    | _, _, _ => None
    end.

Definition print_integer (z : Z) : string :=
  DecimalString.NilZero.string_of_int (Z.to_int z).

#[export] Instance engine : JsEngine := {|
  Num := Z;
  num_truthy z := negb (z =? 0);
  num_toString := print_integer;
  num_time z := if Z.abs z <=? 8640000000000000 then Some z else None;
  Date_parse := parse_iso_date
|}.

(** The characters with a meaning of their own in a pattern. *)
Definition metacharacter (c : ascii) : bool :=
  existsb (Ascii.eqb c)
          ["\"; "^"; "$"; "."; "|"; "?"; "*"; "+"; "("; ")"; "["; "]"; "{";
           "}"]%char.

(** A pattern that stands for itself. *)
Fixpoint literal (pattern : string) : bool :=
  match pattern with
  | EmptyString => true
  | String c r => negb (metacharacter c) && literal r
  end.

Definition parse_hex24 (s : string) : option ObjectId :=
  if (String.length s =? 24)%nat
  then option_map Z.to_N (digits hex_value 16 s 0)
  else None.

(** Insertion into a list sorted on [joinDate]. *)
Definition date_key (d : Doc) : Z :=
  match joinDate d with Some t => t | None => 0 end.

Fixpoint insert_by_date (dir : Z) (d : Doc) (l : list Doc) : list Doc :=
  match l with
  | [] => [d]
  | x :: r =>
      if dir * date_key d <=? dir * date_key x then d :: l
      else x :: insert_by_date dir d r
  end.

Definition sort_by_date (dir : Z) (l : list Doc) : list Doc :=
  List.fold_right (insert_by_date dir) [] l.

#[export] Instance driver : MongoDriver := {|
  ObjectId_isValid s :=
    match parse_hex24 s with Some _ => true | None => false end;
  ObjectId_new := parse_hex24;
  regex_i pattern :=
    if literal pattern
    then Some (fun s => includes (toLowerCase s) (toLowerCase pattern))
    else None;
  sort_docs sortBy dir l :=
    if (sortBy =? "joinDate")%string then Some (sort_by_date dir l) else None
|}.

End Reference.

(* ------------------------------------------------------------------ *)
(** ** The rules of the specification, and sample data *)

(** The seven rules of the validation contract, as the specification
    words them; an optional field is provided when it is truthy. *)
Module Rules.
Import JsString RegExp Validation.

Section WithEngine.
Context {E : JsEngine}.

(** required, a string, trimmed length at least 2 *)
Definition text_rule (v : JValue) : bool :=
  match v with
  | JStr s => (2 <=? String.length (trim s))%nat
  | _ => false
  end.

(** required, a string, of the shape local@domain.tld *)
Definition email_rule (v : JValue) : bool :=
  match v with
  | JStr s => test emailRegex s
  | _ => false
  end.

(** optional; if provided, its text matches the phone pattern (a
    value that has no text matches nothing) *)
Definition phone_rule (v : JValue) : bool :=
  if truthy v
  then match ToString v with
       | Some s => test phoneRegex s
       | None => false
       end
  else true.

(** required, exactly one of the four enumerated values *)
Definition feeStatus_rule (v : JValue) : bool :=
  match v with
  | JStr s => (s =? "Paid") || (s =? "Pending") || (s =? "Partial")
              || (s =? "Scholarship")
  | _ => false
  end.

(** required, and a valid date *)
Definition joinDate_rule (v : JValue) : bool :=
  truthy v && match Date_new v with Some (Some _) => true | _ => false end.

(** optional; if provided, text *)
Definition notes_rule (v : JValue) : bool :=
  if truthy v then typeof_string v else true.

Definition rules (data : Body) : list bool :=
  [ text_rule (b_name data); email_rule (b_email data);
    phone_rule (b_phone data); text_rule (b_course data);
    feeStatus_rule (b_feeStatus data); joinDate_rule (b_joinDate data);
    notes_rule (b_notes data) ].

Definition satisfies_every_rule (data : Body) : Prop :=
  forall r, In r (rules data) -> r = true.

Definition violated (data : Body) : nat :=
  List.length (List.filter negb (rules data)).

(** What one rule contributes to the report. *)
Definition report (rule : bool) (message : string) : list string :=
  if rule then [] else [message].

(** The report, rule by rule, in the order name, email, phone,
    course, feeStatus, joinDate, notes. *)
Definition violations (data : Body) : list string :=
  (report (text_rule (b_name data))
          "Name is required and must be at least 2 characters"
   ++ report (email_rule (b_email data))
          (if truthy (b_email data) && typeof_string (b_email data)
           then "Invalid email format" else "Email is required")
   ++ report (phone_rule (b_phone data)) "Invalid phone number format"
   ++ report (text_rule (b_course data))
          "Course/Service is required and must be at least 2 characters"
   ++ report (feeStatus_rule (b_feeStatus data))
          "Valid fee status is required"
   ++ report (joinDate_rule (b_joinDate data))
          (if truthy (b_joinDate data)
           then "Invalid join date format" else "Join date is required")
   ++ report (notes_rule (b_notes data)) "Notes must be text")%list.

(** The conversions that validation makes return: of the phone to a
    string and of the join date to a date, each when the field is
    provided. *)
Definition converts (data : Body) : bool :=
  (negb (truthy (b_phone data))
   || match ToString (b_phone data) with Some _ => true | None => false end)
  && (negb (truthy (b_joinDate data))
      || match Date_new (b_joinDate data) with
         | Some _ => true
         | None => false
         end).

(** [data] with its email replaced by the string [e]. *)
Definition with_email (data : Body) (e : string) : Body :=
  mkBody (b_name data) (JStr e) (b_phone data) (b_course data)
         (b_feeStatus data) (b_joinDate data) (b_notes data).

(** [null], [undefined] or a string: what [v?.trim()] accepts. *)
Definition text_or_absent (v : JValue) : bool :=
  match v with
  | JUndefined | JNull | JStr _ => true
  | _ => false
  end.

(** A text field after normalisation: trimmed, and the empty string
    when it is absent. *)
Definition normal_text (v : JValue) : string :=
  match v with
  | JStr s => trim s
  | _ => ""
  end.

(** The join date after normalisation: the date it denotes, the
    Invalid Date when it denotes none. *)
Definition normal_date (v : JValue) : JsDate :=
  match Date_new v with
  | Some date => date
  | None => None
  end.

(** The email after normalisation: trimmed and lower-cased. *)
Definition normal_email (v : JValue) : string :=
  match v with
  | JStr s => toLowerCase (trim s)
  | _ => ""
  end.

(** The payloads whose text fields the routes can trim: [name],
    [email] and [course] are strings, [phone] and [notes] are strings
    or absent. *)
Definition trimmable (data : Body) : bool :=
  typeof_string (b_name data) && typeof_string (b_email data)
  && text_or_absent (b_phone data) && typeof_string (b_course data)
  && text_or_absent (b_notes data).

(** The record that a payload describes, with the identifier and the
    two timestamps the server assigns. *)
Definition normalized (i : ObjectId) (t_created t_updated : Z)
           (data : Body) : Doc :=
  mkDoc i (normal_text (b_name data)) (normal_email (b_email data))
        (normal_text (b_phone data)) (normal_text (b_course data))
        (b_feeStatus data) (normal_date (b_joinDate data))
        (normal_text (b_notes data)) t_created t_updated.

(** The record [old] after an update with [data] at time [t]: the
    editable fields come from [data], [_id] and [createdAt] from
    [old]. *)
Definition updated (t : Z) (data : Body) (old : Doc) : Doc :=
  normalized (_id old) (createdAt old) t data.

Definition student_of (t_created t_updated : Z) (data : Body) : Student :=
  mkStudent (normal_text (b_name data)) (normal_email (b_email data))
            (normal_text (b_phone data)) (normal_text (b_course data))
            (b_feeStatus data) (normal_date (b_joinDate data))
            (normal_text (b_notes data)) t_created t_updated.

Definition update_of (t_updated : Z) (data : Body) : UpdateData :=
  mkUpdateData (normal_text (b_name data)) (normal_email (b_email data))
               (normal_text (b_phone data)) (normal_text (b_course data))
               (b_feeStatus data) (normal_date (b_joinDate data))
               (normal_text (b_notes data)) t_updated.

(** What the two unique indexes maintain: no two documents of the
    collection share an [_id], and no two share an email. *)
Definition consistent (st : Store) : Prop :=
  NoDup (List.map _id st) /\ NoDup (List.map email st).

End WithEngine.

(** [t] occurs in [s]. *)
Definition contains (s t : string) : Prop :=
  exists before after, s = before ++ t ++ after.

(** The documents a response of the list route carries. *)
Definition listed {E : JsEngine} {D : MongoDriver}
           (r : Server.Response) : list Doc :=
  match r with
  | Server.Listed _ l => l
  | _ => []
  end.

End Rules.

(** The scenario of the specification, on the reference platform. *)
Module Scenario.
Import Reference Rules.

(** [{name:"Jo Lee", email:"jo@x.com", course:"CS101",
      feeStatus:"Pending", joinDate:"2024-01-10"}] *)
Definition jo : Body :=
  mkBody (JStr "Jo Lee") (JStr "jo@x.com") JUndefined (JStr "CS101")
         (JStr "Pending") (JStr "2024-01-10") JUndefined.

(** The same with [feeStatus:"Paid"]. *)
Definition jo_paid : Body :=
  mkBody (JStr "Jo Lee") (JStr "jo@x.com") JUndefined (JStr "CS101")
         (JStr "Paid") (JStr "2024-01-10") JUndefined.

(** The same as [jo] with [notes: false]. *)
Definition jo_notes_false : Body :=
  mkBody (JStr "Jo Lee") (JStr "jo@x.com") JUndefined (JStr "CS101")
         (JStr "Pending") (JStr "2024-01-10") (JBool false).

(** The same as [jo] with [phone: 1234567890], a number. *)
Definition jo_phone_number : Body :=
  mkBody (JStr "Jo Lee") (JStr "jo@x.com") (JNum 1234567890%Z) (JStr "CS101")
         (JStr "Pending") (JStr "2024-01-10") JUndefined.

(** The same as [jo] with [phone: {"toString": 1}], an object whose
    own property hides [Object.prototype.toString]. *)
Definition jo_phone_object : Body :=
  mkBody (JStr "Jo Lee") (JStr "jo@x.com") (JObj [("toString", JNum 1%Z)])
         (JStr "CS101") (JStr "Pending") (JStr "2024-01-10") JUndefined.

(** The same as [jo] with [joinDate: [{"toString": 1}]], an array
    that holds such an object. *)
Definition jo_date_object : Body :=
  mkBody (JStr "Jo Lee") (JStr "jo@x.com") JUndefined (JStr "CS101")
         (JStr "Pending") (JArr [JObj [("toString", JNum 1%Z)]]) JUndefined.

(** Nothing but a one-letter name. *)
Definition incomplete : Body :=
  mkBody (JStr "J") JUndefined JUndefined JUndefined JUndefined JUndefined
         JUndefined.

Definition jo_id : string := "507f1f77bcf86cd799439011".
Definition jo_oid : ObjectId := 24912482966938930280208240657%N.
Definition other_id : string := "507f1f77bcf86cd799439012".

(** The document that creating [jo] at times 100 and 101 stores. *)
Definition jo_doc : Doc :=
  mkDoc jo_oid "Jo Lee" "jo@x.com" "" "CS101" (JStr "Pending")
        (Some 1704844800000%Z) "" 100 101.

(** The document that creating [jo] under the email a@b.com at times
    100 and 101 stores. *)
Definition jo_ab_doc : Doc :=
  mkDoc jo_oid "Jo Lee" "a@b.com" "" "CS101" (JStr "Pending")
        (Some 1704844800000%Z) "" 100 101.

Definition jo_row : Client.Student :=
  Client.mkStudent jo_id "Jo Lee" "jo@x.com" "" "CS101" "Pending"
                   "2024-01-10T00:00:00.000Z" ""
                   "2024-01-05T09:00:00.000Z" "2024-01-05T09:00:00.000Z".

Definition ann_row : Client.Student :=
  Client.mkStudent other_id "Ann Roe" "ann@acme.org" "" "Math" "Paid"
                   "2024-02-01T00:00:00.000Z" ""
                   "2024-01-20T09:00:00.000Z" "2024-01-20T09:00:00.000Z".

(** The page with both students loaded, " JO " in the search box and
    no status chosen; [t] is what the table shows before the filter
    runs. *)
Definition page (t : Client.Table) : Client.Page :=
  Client.mkPage [jo_row; ann_row] " JO " "" t.

End Scenario.

(* ------------------------------------------------------------------ *)
(** ** The language of a pattern *)

Module Language.
Import RegExp.

(** The strings a pattern denotes. *)
Inductive matches : re -> string -> Prop :=
| MEps : matches Eps ""
| MCls (p : ascii -> bool) (c : ascii) :
    p c = true -> matches (Cls p) (String c "")
| MSeq (a b : re) (s t : string) :
    matches a s -> matches b t -> matches (Seq a b) (s ++ t)
| MAltL (a b : re) (s : string) : matches a s -> matches (Alt a b) s
| MAltR (a b : re) (s : string) : matches b s -> matches (Alt a b) s
| MStar0 (a : re) : matches (Star a) ""
| MStarApp (a : re) (s t : string) :
    matches a s -> matches (Star a) t -> matches (Star a) (s ++ t).

(** Every code unit of [s] is in the class [p]. *)
Fixpoint every (p : ascii -> bool) (s : string) : bool :=
  match s with
  | EmptyString => true
  | String c r => p c && every p r
  end.

(** A pattern that matches nothing, by its shape. *)
Fixpoint dead (r : re) : bool :=
  match r with
  | Void => true
  | Eps | Cls _ | Star _ => false
  | Seq a b => dead a || dead b
  | Alt a b => dead a && dead b
  end.

Fixpoint star_free (r : re) : bool :=
  match r with
  | Void | Eps | Cls _ => true
  | Seq a b | Alt a b => star_free a && star_free b
  | Star _ => false
  end.

(** The least and the greatest length of a string of a pattern without
    a star. *)
Fixpoint min_len (r : re) : nat :=
  match r with
  | Void | Eps | Star _ => 0
  | Cls _ => 1
  | Seq a b => min_len a + min_len b
  | Alt a b => Nat.min (min_len a) (min_len b)
  end.

Fixpoint max_len (r : re) : nat :=
  match r with
  | Void | Eps | Star _ => 0
  | Cls _ => 1
  | Seq a b => max_len a + max_len b
  | Alt a b => Nat.max (max_len a) (max_len b)
  end.

(** Every class of [r] lies within the class [q]. *)
Fixpoint within (q : ascii -> bool) (r : re) : Prop :=
  match r with
  | Void | Eps => True
  | Cls p => forall c, p c = true -> q c = true
  | Seq a b | Alt a b => within q a /\ within q b
  | Star a => within q a
  end.

(** local@domain.tld: three parts, none empty, none with white space
    or an at sign, joined by one at sign and a dot. *)
Definition email_shape (s : string) : Prop :=
  exists l d t,
    s = l ++ "@" ++ d ++ "." ++ t
    /\ l <> "" /\ d <> "" /\ t <> ""
    /\ every Validation.not_space_at l = true
    /\ every Validation.not_space_at d = true
    /\ every Validation.not_space_at t = true.

(** What a phone number may be written with. *)
Definition phone_char (c : ascii) : bool :=
  Validation.digit c || Validation.separator c
  || Ascii.eqb c "+" || Ascii.eqb c "(" || Ascii.eqb c ")".

(** A character that [trim] keeps wherever it stands. *)
Definition not_ws (c : ascii) : bool := negb (JsString.is_ws c).

(** A string that is not empty and that [trimEnd] leaves alone. *)
Definition ends_well (t : string) : Prop :=
  t <> "" /\ JsString.trimEnd t = t.

End Language.

(* ------------------------------------------------------------------ *)
(** ** Records as the routes write them *)

Module Records.
Import JsString RegExp Validation.

Section WithEngine.
Context {E : JsEngine}.

(** What Create and Update put into a document: trimmed name and
    course of two code units or more, a lower-case email of the shape
    the validation asks for, a phone that is empty or a phone number, one
    of the four fee statuses, a valid join date, trimmed notes. *)
Definition well_formed_record (d : Doc) : Prop :=
  trim (name d) = name d /\ 2 <= String.length (name d)
  /\ test emailRegex (email d) = true /\ toLowerCase (email d) = email d
  /\ (phone d = "" \/ test phoneRegex (phone d) = true)
  /\ trim (course d) = course d /\ 2 <= String.length (course d)
  /\ (exists s, feeStatus d = JStr s /\ In s validStatuses)
  /\ joinDate d <> None
  /\ trim (notes d) = notes d.

End WithEngine.
End Records.

(* ------------------------------------------------------------------ *)
(** ** The client's form *)

Module Form.
Import JsString RegExp.

(** The values of the form controls, by the id of the control.  The
    page gives each control its id as its name, so [formData.get] reads
    the same values; the elements that [showError] looks up exist. *)
Record Inputs : Type := mkInputs {
  studentId : string;
  name : string;
  email : string;
  phone : string;
  course : string;
  feeStatus : string;
  joinDate : string;
  notes : string
}.

(** [isValidEmail]; the literal is the one of the server. *)
Definition isValidEmail (email : string) : bool :=
  test Validation.emailRegex email.

(** [isValidPhone]; the literal is the one of the server. *)
Definition isValidPhone (phone : string) : bool :=
  test Validation.phoneRegex phone.

(** [showError(fieldId, message)]: the messages shown, in the order
    they are set. *)
Definition showError (shown : list (string * string))
           (fieldId message : string) : list (string * string) :=
  (shown ++ [(fieldId, message)])%list.

(** [validateForm]: the flag it returns and the messages it shows. *)
Definition validateForm (f : Inputs) : bool * list (string * string) :=
  let isValid := true in
  let shown : list (string * string) := [] in
  let name := trim (name f) in
  let email := trim (email f) in
  let course := trim (course f) in
  let feeStatus := feeStatus f in
  let joinDate := joinDate f in
  let '(isValid, shown) :=
    if name =? "" then (false, showError shown "name" "Name is required")
    else if (String.length name <? 2)%nat
         then (false, showError shown "name"
                                "Name must be at least 2 characters")
         else (isValid, shown) in
  let '(isValid, shown) :=
    if email =? "" then (false, showError shown "email" "Email is required")
    else if negb (isValidEmail email)
         then (false, showError shown "email"
                                "Please enter a valid email address")
         else (isValid, shown) in
  let phone := trim (phone f) in
  let '(isValid, shown) :=
    if negb (phone =? "") && negb (isValidPhone phone)
    then (false, showError shown "phone" "Please enter a valid phone number")
    else (isValid, shown) in
  let '(isValid, shown) :=
    if course =? ""
    then (false, showError shown "course" "Course/Service is required")
    else (isValid, shown) in
  let '(isValid, shown) :=
    if feeStatus =? ""
    then (false, showError shown "feeStatus" "Please select fee status")
    else (isValid, shown) in
  let '(isValid, shown) :=
    if joinDate =? ""
    then (false, showError shown "joinDate" "Join date is required")
    else (isValid, shown) in
  (isValid, shown).

(** [studentData] of [handleFormSubmit], as the server reads it from
    the JSON body: seven strings. *)
Definition studentData {E : JsEngine} (f : Inputs) : Body :=
  mkBody (JStr (trim (name f)))
         (JStr (trim (email f)))
         (JStr (Server.or_empty (Some (trim (phone f)))))
         (JStr (trim (course f)))
         (JStr (feeStatus f))
         (JStr (joinDate f))
         (JStr (Server.or_empty (Some (trim (notes f))))).

(** [getStatusClass(status)], [None] being [null] or [undefined]. *)
Definition getStatusClass (status : option string) : string :=
  match option_map toLowerCase status with
  | Some s =>
      if s =? "paid" then "paid"
      else if s =? "pending" then "pending"
      else if s =? "partial" then "partial"
      else if s =? "scholarship" then "scholarship"
      else "pending"
  | None => "pending"
  end.

End Form.

(* ------------------------------------------------------------------ *)
(** ** The client's list and its delete confirmation *)

Module Session.
Import Client.

(** What [tableBody] holds. *)
Inductive Table : Type :=
| Loading                          (* the row of [showLoading] *)
| NoResults                        (* 'No students found' *)
| Rows (students : list Student)   (* one row per student *)
| LoadError.                       (* 'Error loading records...' *)

(** The envelope of a response body. *)
Record Envelope (A : Type) : Type := mkEnvelope {
  success : bool;
  data : option A
}.

(** How a [fetch] ends: rejected, or answered with [response.ok] and a
    body that [response.json()] reads ([None] when it does not). *)
Inductive Fetched (A : Type) : Type :=
| Rejected
| Answered (ok : bool) (json : option (Envelope A)).
Arguments Rejected {A}.

(** The global state of the script, the delete dialog, the table, and
    what the script has shown and sent. *)
Record UI : Type := mkUI {
  currentStudents : list Student;
  deleteId : option string;             (* [None] is [null] *)
  modalShown : bool;                    (* class 'show' of [deleteModal] *)
  deleteStudentName : string;
  tableBody : Table;
  toasts : list (string * string);      (* message and type, oldest first *)
  requests : list (string * string)     (* method and URL, oldest first *)
}.

Definition API_BASE_URL : string := "http://localhost:3000/api".

Definition showToast (message type : string) (ui : UI) : UI :=
  mkUI (currentStudents ui) (deleteId ui) (modalShown ui)
       (deleteStudentName ui) (tableBody ui)
       (toasts ui ++ [(message, type)]) (requests ui).

Definition fetch (method url : string) (ui : UI) : UI :=
  mkUI (currentStudents ui) (deleteId ui) (modalShown ui)
       (deleteStudentName ui) (tableBody ui) (toasts ui)
       (requests ui ++ [(method, url)]).

Definition setTable (t : Table) (ui : UI) : UI :=
  mkUI (currentStudents ui) (deleteId ui) (modalShown ui)
       (deleteStudentName ui) t (toasts ui) (requests ui).

Definition renderTable (students : list Student) (ui : UI) : UI :=
  match students with
  | [] => setTable NoResults ui
  | _ => setTable (Rows students) ui
  end.

Definition showDeleteModal (id name : string) (ui : UI) : UI :=
  mkUI (currentStudents ui) (Some id) true name (tableBody ui) (toasts ui)
       (requests ui).

Definition closeDeleteModal (ui : UI) : UI :=
  mkUI (currentStudents ui) None false "" (tableBody ui) (toasts ui)
       (requests ui).

(** [loadStudents], given how its [fetch] ends. *)
Definition loadStudents (answer : Fetched (list Student)) (ui : UI) : UI :=
  let ui := setTable Loading ui in
  let ui := fetch "GET" (API_BASE_URL ++ "/records") ui in
  let failed (ui : UI) :=
    setTable LoadError
             (showToast "Failed to load records. Please try again." "error" ui) in
  match answer with
  | Answered true (Some body) =>
      if success body
      then
        let students := match data body with Some l => l | None => [] end in
        let ui := mkUI students (deleteId ui) (modalShown ui)
                       (deleteStudentName ui) (tableBody ui) (toasts ui)
                       (requests ui) in
        let ui := renderTable students ui in
        showToast "Records loaded successfully" "success" ui
      else failed ui
  | _ => failed ui
  end.

(** The request was answered, with [response.ok], a body that reads as
    JSON and [success] in it. *)
Definition succeeded {A} (answer : Fetched A) : bool :=
  match answer with
  | Answered true (Some body) => success body
  | _ => false
  end.

(** [data.data || []] of an answer that succeeded. *)
Definition loaded (answer : Fetched (list Student)) : list Student :=
  match answer with
  | Answered _ (Some body) => match data body with Some l => l | None => [] end
  | _ => []
  end.

(** [!deleteId] *)
Definition nothing_pending (ui : UI) : bool :=
  match deleteId ui with
  | None => true
  | Some id => id =? ""
  end.

(** [handleDelete], given how its [fetch] ends and how the [fetch] of
    the reload ends. *)
Definition handleDelete (answer : Fetched unit)
           (reload : Fetched (list Student)) (ui : UI) : UI :=
  match deleteId ui with
  | None => ui
  | Some id =>
      if id =? "" then ui
      else
        let ui := fetch "DELETE" (API_BASE_URL ++ "/records/" ++ id) ui in
        let failed (ui : UI) :=
          closeDeleteModal (showToast "Failed to delete student" "error" ui) in
        match answer with
        | Answered true (Some result) =>
            if success result
            then
              let ui := showToast "Student deleted successfully" "success" ui in
              let ui := closeDeleteModal ui in
              loadStudents reload ui
            else failed ui
        | _ => failed ui
        end
  end.

End Session.

(* ------------------------------------------------------------------ *)
(** ** More of the scenario *)

Module Samples.
Import Reference Scenario.

(** A second student. *)
Definition ann : Body :=
  mkBody (JStr " Ann Roe ") (JStr "Ann@Acme.org") (JStr "(555) 123-4567")
         (JStr "Math") (JStr "Paid") (JStr "2024-02-01")
         (JStr " evening class ").

Definition ann_oid : ObjectId := (jo_oid + 1)%N.

(** The document that creating [ann] at times 110 and 111 stores. *)
Definition ann_doc : Doc :=
  mkDoc ann_oid "Ann Roe" "ann@acme.org" "(555) 123-4567" "Math" (JStr "Paid")
        (Some 1706745600000%Z) "evening class" 110 111.

(** The form as a user fills it for Jo Lee, in create mode. *)
Definition jo_form : Form.Inputs :=
  Form.mkInputs "" " Jo Lee" "jo@x.com " "" "CS101" "Pending" "2024-01-10" "".

(** The same with a course of one letter. *)
Definition short_course_form : Form.Inputs :=
  Form.mkInputs "" " Jo Lee" "jo@x.com " "" "C" "Pending" "2024-01-10" "".

(** The page with both students loaded, only white space in the search
    box and no status chosen. *)
Definition blank_page : Client.Page :=
  Client.mkPage [jo_row; ann_row] "  " "" Client.Loading.

(** [jo_doc] after an update to [jo_paid] at time 300. *)
Definition jo_paid_doc : Doc :=
  mkDoc jo_oid "Jo Lee" "jo@x.com" "" "CS101" (JStr "Paid")
        (Some 1704844800000%Z) "" 100 300.

(** The script's state with Jo Lee loaded and her deletion pending. *)
Definition pending_ui : Session.UI :=
  Session.mkUI [jo_row] (Some jo_id) true "Jo Lee" (Session.Rows [jo_row])
               [] [].

End Samples.

(* ------------------------------------------------------------------ *)
(** ** Facts about strings and patterns *)

Module JsStringFacts.
Import JsString.

Lemma is_ws_lower_char (c : ascii) : is_ws (lower_char c) = is_ws c.
Proof. destruct c as [[] [] [] [] [] [] [] []]; reflexivity. Qed.

Section Mapped.
Variable f : ascii -> ascii.
Hypothesis f_keeps_space : forall c, is_ws (f c) = is_ws c.

Lemma trimStart_map (s : string) :
  trimStart (map f s) = map f (trimStart s).
Proof.
  induction s as [|c r IH]; simpl; [reflexivity|].
  rewrite f_keeps_space. destruct (is_ws c); [exact IH | reflexivity].
Qed.

Lemma trimEnd_map (s : string) : trimEnd (map f s) = map f (trimEnd s).
Proof.
  induction s as [|c r IH]; simpl; [reflexivity|].
  rewrite IH, f_keeps_space.
  destruct (trimEnd r); simpl; [destruct (is_ws c)|]; reflexivity.
Qed.

Lemma trim_map (s : string) : trim (map f s) = map f (trim s).
Proof. unfold trim. now rewrite trimStart_map, trimEnd_map. Qed.
End Mapped.

Lemma trim_toLowerCase (s : string) :
  trim (toLowerCase s) = toLowerCase (trim s).
Proof. apply trim_map, is_ws_lower_char. Qed.

Lemma map_empty (f : ascii -> ascii) (s : string) :
  (map f s =? "") = (s =? "").
Proof. destruct s; reflexivity. Qed.

Lemma prefix_true (t s : string) :
  String.prefix t s = true <-> exists after, s = t ++ after.
Proof.
  revert s; induction t as [|c t IH]; intros s.
  - split; [intros _; now exists s | intros _; destruct s; reflexivity].
  - destruct s as [|c' s]; simpl;
      [split; [discriminate | intros [a H]; discriminate]|].
    destruct (ascii_dec c c') as [->|Hne].
    + rewrite IH. split; intros [a H]; exists a.
      * now rewrite H.
      * now injection H.
    + split; [discriminate|]. intros [a H]. injection H as H1 _. congruence.
Qed.

Lemma includes_true (s t : string) :
  includes s t = true <-> Rules.contains s t.
Proof.
  unfold Rules.contains.
  induction s as [|c s IH].
  - cbn [includes]. rewrite orb_false_r, prefix_true. split.
    + intros [a H]. now exists "", a.
    + intros [b [a H]]. destruct b; [now exists a | discriminate].
  - cbn [includes]. rewrite orb_true_iff, prefix_true, IH. split.
    + intros [[a H] | [b [a H]]].
      * now exists "", a.
      * exists (String c b), a. simpl. now rewrite H.
    + intros [b [a H]]. destruct b as [|c' b].
      * left. now exists a.
      * right. exists b, a. simpl in H. now injection H.
Qed.

Lemma contains_empty (s : string) : Rules.contains s "".
Proof. now exists "", s. Qed.

Lemma trim_empty : trim "" = "".
Proof. reflexivity. Qed.

End JsStringFacts.

Module RegExpFacts.
Import JsString RegExp.

Section Mapped.
Variable f : ascii -> ascii.

Lemma deriv_map (r : re) (c : ascii) :
  respects f r -> deriv (f c) r = deriv c r.
Proof.
  induction r as [| |p|a IHa b IHb|a IHa b IHb|a IHa]; simpl; intros H;
    try reflexivity.
  - now rewrite H.
  - destruct H as [Ha Hb]. now rewrite IHa, IHb.
  - destruct H as [Ha Hb]. now rewrite IHa, IHb.
  - now rewrite IHa.
Qed.

Lemma respects_deriv (r : re) (c : ascii) :
  respects f r -> respects f (deriv c r).
Proof.
  induction r as [| |p|a IHa b IHb|a IHa b IHb|a IHa]; simpl; intros H;
    try exact I.
  - destruct (p c); exact I.
  - destruct H as [Ha Hb]. destruct (nullable a); simpl; auto.
  - destruct H as [Ha Hb]. auto.
  - auto.
Qed.

Lemma test_map (s : string) :
  forall r, respects f r -> test r (map f s) = test r s.
Proof.
  induction s as [|c s IH]; intros r H; simpl; [reflexivity|].
  rewrite deriv_map by assumption. apply IH, respects_deriv, H.
Qed.
End Mapped.

Lemma emailRegex_respects_lower :
  respects lower_char Validation.emailRegex.
Proof.
  assert (Hc : forall c, Validation.not_space_at (lower_char c)
                         = Validation.not_space_at c)
    by (intros c; destruct c as [[] [] [] [] [] [] [] []]; reflexivity).
  assert (Hat : forall c, Ascii.eqb "@" (lower_char c) = Ascii.eqb "@" c)
    by (intros c; destruct c as [[] [] [] [] [] [] [] []]; reflexivity).
  assert (Hdot : forall c, Ascii.eqb "." (lower_char c) = Ascii.eqb "." c)
    by (intros c; destruct c as [[] [] [] [] [] [] [] []]; reflexivity).
  unfold Validation.emailRegex, Plus, Chr; simpl; repeat split; assumption.
Qed.

Lemma emailRegex_toLowerCase (s : string) :
  test Validation.emailRegex (toLowerCase s) = test Validation.emailRegex s.
Proof. apply test_map, emailRegex_respects_lower. Qed.

End RegExpFacts.

(* ------------------------------------------------------------------ *)
(** ** Validation collects every violation *)

Module ValidationFacts.
Import JsString RegExp Validation Rules Server.

Section WithEngine.
Context {E : JsEngine}.

Lemma bad_text_rule (v : JValue) : bad_text v = negb (text_rule v).
Proof.
  destruct v as [| |b|n|s|l|o]; try reflexivity;
    try (unfold bad_text; simpl; now rewrite orb_true_r).
  unfold bad_text, text_rule; simpl.
  destruct (String.eqb_spec s "") as [->|Hs]; simpl; [reflexivity|].
  apply Nat.ltb_antisym.
Qed.

Lemma text_step (errors : list string) (v : JValue) (m : string) :
  (if bad_text v then push errors m else errors)
  = (errors ++ report (text_rule v) m)%list.
Proof.
  rewrite bad_text_rule. unfold report, push.
  destruct (text_rule v); simpl; [now rewrite app_nil_r | reflexivity].
Qed.

Lemma email_step (errors : list string) (v : JValue) :
  (if negb (truthy v) || negb (typeof_string v)
   then Some (push errors "Email is required")
   else and_then (regex_test emailRegex v)
          (fun matched =>
             Some (if negb matched
                   then push errors "Invalid email format"
                   else errors)))
  = Some (errors ++ report (email_rule v)
                      (if truthy v && typeof_string v
                       then "Invalid email format"
                       else "Email is required"))%list.
Proof.
  unfold report, push.
  destruct v as [| |b|n|s|l|o]; simpl;
    try reflexivity; try (now rewrite orb_true_r, andb_false_r).
  destruct (String.eqb_spec s "") as [->|Hs]; simpl; [reflexivity|].
  destruct (test emailRegex s); simpl;
    [now rewrite app_nil_r | reflexivity].
Qed.

Lemma phone_step (errors : list string) (v : JValue) :
  (if truthy v
   then and_then (regex_test phoneRegex v)
          (fun matched =>
             Some (if negb matched
                   then push errors "Invalid phone number format"
                   else errors))
   else Some errors)
  = if negb (truthy v)
       || match ToString v with Some _ => true | None => false end
    then Some (errors ++ report (phone_rule v)
                           "Invalid phone number format")%list
    else None.
Proof.
  unfold report, push, phone_rule, regex_test.
  destruct (truthy v); cbn [negb orb]; [|now rewrite app_nil_r].
  destruct (ToString v) as [s|]; cbn [option_map and_then]; [|reflexivity].
  destruct (test phoneRegex s); simpl;
    [now rewrite app_nil_r | reflexivity].
Qed.

Lemma includes_status_rule (v : JValue) :
  includes_status v = feeStatus_rule v.
Proof.
  destruct v; try reflexivity. simpl. now rewrite orb_false_r, !orb_assoc.
Qed.

Lemma feeStatus_truthy (v : JValue) :
  feeStatus_rule v = true -> truthy v = true.
Proof.
  destruct v as [| |b|n|s|l|o]; simpl; try discriminate.
  destruct s; [discriminate | reflexivity].
Qed.

Lemma feeStatus_step (errors : list string) (v : JValue) :
  (if negb (truthy v) || negb (includes_status v)
   then push errors "Valid fee status is required"
   else errors)
  = (errors ++ report (feeStatus_rule v) "Valid fee status is required")%list.
Proof.
  rewrite includes_status_rule. unfold report, push.
  destruct (feeStatus_rule v) eqn:Hr.
  - rewrite (feeStatus_truthy _ Hr). simpl. now rewrite app_nil_r.
  - now rewrite orb_true_r.
Qed.

Lemma joinDate_step (errors : list string) (v : JValue) :
  (if negb (truthy v)
   then Some (push errors "Join date is required")
   else and_then (Date_new v)
          (fun date =>
             Some (if isNaN_getTime date
                   then push errors "Invalid join date format"
                   else errors)))
  = if negb (truthy v)
       || match Date_new v with Some _ => true | None => false end
    then Some (errors ++ report (joinDate_rule v)
                           (if truthy v then "Invalid join date format"
                            else "Join date is required"))%list
    else None.
Proof.
  unfold report, push, joinDate_rule, isNaN_getTime.
  destruct (truthy v); cbn [negb orb andb]; [|reflexivity].
  destruct (Date_new v) as [[t|]|]; cbn [and_then];
    [now rewrite app_nil_r | reflexivity | reflexivity].
Qed.

Lemma notes_step (errors : list string) (v : JValue) :
  (if truthy v && negb (typeof_string v)
   then push errors "Notes must be text"
   else errors)
  = (errors ++ report (notes_rule v) "Notes must be text")%list.
Proof.
  unfold report, push, notes_rule.
  destruct (truthy v); simpl; [|now rewrite app_nil_r].
  destruct (typeof_string v); simpl; [now rewrite app_nil_r | reflexivity].
Qed.

(** Validation returns the report of the seven rules, unless one of
    its two conversions throws. *)
Lemma validateStudent_violations (data : Body) :
  validateStudent data
  = if converts data then Some (violations data) else None.
Proof.
  unfold validateStudent, violations, converts. cbv zeta.
  rewrite email_step. cbn [and_then]. rewrite phone_step.
  destruct (negb (truthy (b_phone data)) || _); cbn [and_then andb];
    [|reflexivity].
  rewrite joinDate_step.
  destruct (negb (truthy (b_joinDate data)) || _); cbn [and_then];
    [|reflexivity].
  rewrite notes_step, feeStatus_step, !text_step.
  simpl. now rewrite <- !app_assoc.
Qed.

(** A payload that satisfies the phone and join date rules makes no
    conversion throw. *)
Lemma rules_convert (data : Body) :
  phone_rule (b_phone data) = true -> joinDate_rule (b_joinDate data) = true ->
  converts data = true.
Proof.
  unfold phone_rule, joinDate_rule, converts. intros Hp Hj.
  apply andb_true_iff in Hj. destruct Hj as [Ht Hj]. rewrite Ht.
  destruct (Date_new (b_joinDate data)); [|discriminate].
  destruct (truthy (b_phone data)); [|reflexivity].
  now destruct (ToString (b_phone data)).
Qed.

Lemma violations_count (data : Body) :
  List.length (violations data) = violated data.
Proof.
  unfold violations, violated, rules, report.
  destruct (text_rule (b_name data)), (email_rule (b_email data)),
    (phone_rule (b_phone data)), (text_rule (b_course data)),
    (feeStatus_rule (b_feeStatus data)),
    (joinDate_rule (b_joinDate data)), (notes_rule (b_notes data));
    reflexivity.
Qed.

Lemma violated_zero (data : Body) :
  violated data = 0 <-> satisfies_every_rule data.
Proof.
  unfold violated, satisfies_every_rule. split.
  - intros H r Hr. destruct r; [reflexivity|].
    assert (Hin : In false (List.filter negb (rules data)))
      by (apply filter_In; split; [exact Hr | reflexivity]).
    destruct (List.filter negb (rules data)); [destruct Hin | discriminate].
  - intros H. destruct (List.filter negb (rules data)) as [|b l] eqn:Hf;
      [reflexivity|].
    assert (Hin : In b (List.filter negb (rules data)))
      by (rewrite Hf; now left).
    apply filter_In in Hin. destruct Hin as [Hin Hb].
    rewrite (H b Hin) in Hb. discriminate.
Qed.

Lemma validateStudent_empty (data : Body) :
  validateStudent data = Some [] <-> satisfies_every_rule data.
Proof.
  rewrite validateStudent_violations. split.
  - destruct (converts data); [|discriminate]. intros H.
    apply violated_zero. rewrite <- violations_count.
    injection H as ->. reflexivity.
  - intros H. rewrite rules_convert.
    + f_equal. apply length_zero_iff_nil. rewrite violations_count.
      now apply violated_zero.
    + apply H. unfold rules. simpl. tauto.
    + apply H. unfold rules. simpl. tauto.
Qed.

End WithEngine.

Section WithDriver.
Context {E : JsEngine} {D : MongoDriver}.

Lemma post_records_invalid t_created t_updated fresh (data : Body) st
      (errors : list string) :
  validateStudent data = Some errors -> errors <> [] ->
  post_records t_created t_updated fresh data st
  = (ValidationFailed errors, st).
Proof.
  intros Hv H. unfold post_records, try_catch, bind, lift, called.
  rewrite Hv. destruct errors; [contradiction | reflexivity].
Qed.

Lemma put_record_invalid t_updated id (data : Body) st
      (errors : list string) :
  ObjectId_isValid id = true ->
  validateStudent data = Some errors -> errors <> [] ->
  put_record t_updated id data st = (ValidationFailed errors, st).
Proof.
  intros Hid Hv H. unfold put_record, try_catch, bind, lift, called.
  rewrite Hid, Hv. destruct errors; [contradiction | reflexivity].
Qed.

Lemma post_records_throws t_created t_updated fresh (data : Body) st :
  validateStudent data = None ->
  post_records t_created t_updated fresh data st = (InternalError, st).
Proof.
  intros Hv. unfold post_records, try_catch, bind, lift, called.
  now rewrite Hv.
Qed.

Lemma put_record_throws t_updated id (data : Body) st :
  ObjectId_isValid id = true ->
  validateStudent data = None ->
  put_record t_updated id data st = (InternalError, st).
Proof.
  intros Hid Hv. unfold put_record, try_catch, bind, lift, called.
  now rewrite Hid, Hv.
Qed.

End WithDriver.
End ValidationFacts.

(* ------------------------------------------------------------------ *)
(** ** The gateway *)

Module GatewayFacts.
Import Rules.

Lemma NoDup_map_inj {A B} (f : A -> B) (l : list A) (x y : A) :
  NoDup (List.map f l) -> In x l -> In y l -> f x = f y -> x = y.
Proof.
  induction l as [|a l IH]; simpl; intros Hnd Hx Hy Hf; [destruct Hx|].
  inversion Hnd as [|? ? Hnot Hnd']; subst.
  destruct Hx as [->|Hx], Hy as [->|Hy]; auto.
  - exfalso. apply Hnot. rewrite Hf. now apply in_map.
  - exfalso. apply Hnot. rewrite <- Hf. now apply in_map.
Qed.

Lemma find_app_last {A} (f : A -> bool) (l : list A) (d : A) :
  (forall x, In x l -> f x = false) -> f d = true ->
  List.find f (l ++ [d]) = Some d.
Proof.
  induction l as [|a l IH]; simpl; intros Hl Hd.
  - now rewrite Hd.
  - rewrite (Hl a) by now left. apply IH; auto.
Qed.

Section WithDriver.
Context {E : JsEngine} {D : MongoDriver}.

Lemma matches_IdEq (i : ObjectId) (d : Doc) :
  matches_query [IdEq i] d = true <-> _id d = i.
Proof.
  unfold matches_query; simpl. rewrite andb_true_r. apply N.eqb_eq.
Qed.

Lemma matches_EmailEq (e : string) (d : Doc) :
  matches_query [EmailEq e] d = true <-> email d = e.
Proof.
  unfold matches_query; simpl. rewrite andb_true_r. apply String.eqb_eq.
Qed.

Lemma matches_other_email (e : string) (i : ObjectId) (d : Doc) :
  matches_query [EmailEq e; IdNe i] d = true <-> email d = e /\ _id d <> i.
Proof.
  unfold matches_query; simpl.
  rewrite andb_true_r, andb_true_iff, negb_true_iff, String.eqb_eq,
    N.eqb_neq.
  reflexivity.
Qed.

(** [replace_first] finds the first document with the identifier
    and changes nothing else. *)
Lemma replace_first_some (i : ObjectId) (f : Doc -> Doc) (st st' : Store) :
  replace_first i f st = Some st' ->
  exists before old after,
    st = (before ++ old :: after)%list /\ _id old = i /\
    (forall x, In x before -> _id x <> i) /\
    st' = (before ++ f old :: after)%list /\
    remove_first i st = (before ++ after)%list.
Proof.
  revert st'; induction st as [|d rest IH]; simpl; intros st' H;
    [discriminate|].
  destruct (N.eqb_spec (_id d) i) as [Heq|Hne].
  - injection H as <-. exists [], d, rest. simpl. repeat split; tauto.
  - destruct (replace_first i f rest) as [rest'|]; [|discriminate].
    injection H as <-.
    destruct (IH rest' eq_refl) as (b & old & a & -> & Hid & Hb & -> & Hr).
    exists (d :: b), old, a. simpl. rewrite Hr. repeat split; auto.
    intros x [<-|Hx]; auto.
Qed.

Lemma replace_first_none (i : ObjectId) (f : Doc -> Doc) (st : Store) :
  replace_first i f st = None <-> forall x, In x st -> _id x <> i.
Proof.
  induction st as [|d rest IH]; simpl.
  - split; [intros _ x [] | reflexivity].
  - destruct (N.eqb_spec (_id d) i) as [Heq|Hne].
    + split; [discriminate|]. intros H. exfalso. apply (H d); auto.
    + destruct (replace_first i f rest).
      * split; [discriminate|]. intros H.
        destruct IH as [_ IH]. discriminate IH.
        intros x Hx. apply H. now right.
      * split; [|reflexivity]. intros _ x [<-|Hx]; [assumption|].
        now apply IH.
Qed.

Lemma find_first_id (i : ObjectId) (before after : list Doc) (d : Doc) :
  (forall x, In x before -> _id x <> i) -> _id d = i ->
  List.find (matches_query [IdEq i]) (before ++ d :: after) = Some d.
Proof.
  intros Hb Hd. induction before as [|a l IH]; cbn [app List.find].
  - replace (matches_query [IdEq i] d) with true; [reflexivity|].
    symmetry. now apply matches_IdEq.
  - destruct (matches_query [IdEq i] a) eqn:Ha.
    + apply matches_IdEq in Ha. exfalso. apply (Hb a); auto. now left.
    + apply IH. intros x Hx. apply Hb. now right.
Qed.

Lemma existsb_email_false (e : string) (l : list Doc) :
  (forall x, In x l -> email x <> e) ->
  existsb (fun x => String.eqb (email x) e) l = false.
Proof.
  intros H. induction l as [|a l IH]; simpl; [reflexivity|].
  rewrite IH by (intros x Hx; apply H; now right).
  rewrite orb_false_r. apply String.eqb_neq, H. now left.
Qed.

End WithDriver.
End GatewayFacts.

(* ------------------------------------------------------------------ *)
(** ** The routes, case by case *)

Module RouteFacts.
Import JsString Validation Rules Server GatewayFacts ValidationFacts.

Section WithDriver.
Context {E : JsEngine} {D : MongoDriver}.

Lemma or_empty_some (s : string) : or_empty (Some s) = s.
Proof.
  unfold or_empty. now destruct (String.eqb_spec s "") as [->|].
Qed.

Ltac by_cases v :=
  destruct v; cbn -[or_empty trim toLowerCase]; rewrite ?or_empty_some;
  try reflexivity.

(** The join date of a payload that passed validation converts. *)
Lemma valid_date (data : Body) :
  validateStudent data = Some [] ->
  Date_new (b_joinDate data) = Some (normal_date (b_joinDate data)).
Proof.
  intros H. apply validateStudent_empty in H.
  assert (Hj : joinDate_rule (b_joinDate data) = true)
    by (apply H; unfold rules; simpl; tauto).
  unfold joinDate_rule in Hj. apply andb_true_iff in Hj.
  destruct Hj as [_ Hj]. unfold normal_date.
  now destruct (Date_new (b_joinDate data)).
Qed.

Lemma prepare_document_eq t_created t_updated (data : Body) (st : Store) :
  validateStudent data = Some [] ->
  prepare_document t_created t_updated data st
  = if trimmable data
    then (Normal (student_of t_created t_updated data), st)
    else (Throw TypeError, st).
Proof.
  intros Hv. pose proof (valid_date data Hv) as Hj.
  destruct data as [n e p c f j o]. cbn [b_joinDate] in Hj.
  unfold prepare_document, trimmable, student_of, bind, lift, ret.
  cbn [b_name b_email b_phone b_course b_feeStatus b_joinDate b_notes].
  rewrite Hj.
  by_cases n. by_cases e. by_cases p; by_cases c; by_cases o.
Qed.

Lemma prepare_update_eq t_updated (data : Body) (st : Store) :
  validateStudent data = Some [] ->
  prepare_update t_updated data st
  = if trimmable data
    then (Normal (update_of t_updated data), st)
    else (Throw TypeError, st).
Proof.
  intros Hv. pose proof (valid_date data Hv) as Hj.
  destruct data as [n e p c f j o]. cbn [b_joinDate] in Hj.
  unfold prepare_update, trimmable, update_of, bind, lift, ret.
  cbn [b_name b_email b_phone b_course b_feeStatus b_joinDate b_notes].
  rewrite Hj.
  by_cases n. by_cases e. by_cases p; by_cases c; by_cases o.
Qed.

(** The POST route, outcome by outcome. *)
Lemma post_records_eq t_created t_updated fresh (data : Body) (st : Store) :
  post_records t_created t_updated fresh data st
  = match validateStudent data with
    | None => (InternalError, st)
    | Some ((_ :: _) as errors) => (ValidationFailed errors, st)
    | Some [] =>
        if trimmable data then
          match List.find (matches_query
                             [EmailEq (normal_email (b_email data))]) st with
          | Some _ => (Conflict, st)
          | None =>
              let d := normalized fresh t_created t_updated data in
              if duplicate_key d st then (InternalError, st)
              else (Created d, (st ++ [d])%list)
          end
        else (InternalError, st)
    end.
Proof.
  unfold post_records, try_catch.
  destruct (validateStudent data) as [[|e l]|] eqn:Hv;
    [|reflexivity|reflexivity].
  unfold bind at 1. cbn [lift called Nat.ltb Nat.leb List.length].
  unfold bind. rewrite (prepare_document_eq _ _ _ _ Hv).
  destruct (trimmable data); [|reflexivity].
  unfold findOne, insertOne, ret. cbn.
  destruct (List.find _ st); [reflexivity|].
  fold (normalized fresh t_created t_updated data).
  destruct (duplicate_key _ st); reflexivity.
Qed.

(** The PUT route, outcome by outcome. *)
Lemma put_record_eq t_updated id (data : Body) (st : Store) :
  put_record t_updated id data st
  = if negb (ObjectId_isValid id) then (InvalidId, st)
    else match validateStudent data with
    | None => (InternalError, st)
    | Some ((_ :: _) as errors) => (ValidationFailed errors, st)
    | Some [] =>
        if trimmable data then
          match ObjectId_new id with
          | None => (InternalError, st)
          | Some i =>
              match List.find (matches_query
                      [EmailEq (normal_email (b_email data)); IdNe i]) st with
              | Some _ => (Conflict, st)
              | None =>
                  match replace_first i (apply_set (update_of t_updated data)) st with
                  | None => (NotFound, st)
                  | Some st' =>
                      if existsb (fun x => String.eqb (email x)
                                     (normal_email (b_email data)))
                                 (remove_first i st)
                      then (InternalError, st)
                      else (Updated (List.find (matches_query [IdEq i]) st'),
                            st')
                  end
              end
          end
        else (InternalError, st)
    end.
Proof.
  unfold put_record, try_catch.
  destruct (ObjectId_isValid id); [|reflexivity]. cbn [negb].
  destruct (validateStudent data) as [[|e l]|] eqn:Hv;
    [|reflexivity|reflexivity].
  unfold bind at 1. cbn [lift called Nat.ltb Nat.leb List.length].
  unfold bind. rewrite (prepare_update_eq _ _ _ Hv).
  destruct (trimmable data); [|reflexivity].
  unfold new_ObjectId.
  destruct (ObjectId_new id) as [i|]; [|reflexivity].
  unfold findOne, updateOne, ret. cbn.
  destruct (List.find _ st); [reflexivity|].
  destruct (replace_first i _ st); [|reflexivity].
  destruct (existsb _ (remove_first i st)); reflexivity.
Qed.

Lemma get_record_eq id (st : Store) :
  get_record id st
  = if negb (ObjectId_isValid id) then (InvalidId, st)
    else match ObjectId_new id with
         | None => (InternalError, st)
         | Some i =>
             match List.find (matches_query [IdEq i]) st with
             | None => (NotFound, st)
             | Some d => (Found d, st)
             end
         end.
Proof.
  unfold get_record, try_catch.
  destruct (ObjectId_isValid id); [|reflexivity]. cbn [negb].
  unfold bind, new_ObjectId.
  destruct (ObjectId_new id) as [i|]; [|reflexivity].
  unfold findOne, ret. destruct (List.find _ st); reflexivity.
Qed.

Lemma delete_record_eq id (st : Store) :
  delete_record id st
  = if negb (ObjectId_isValid id) then (InvalidId, st)
    else match ObjectId_new id with
         | None => (InternalError, st)
         | Some i =>
             if existsb (fun d => N.eqb (_id d) i) st
             then (Deleted, remove_first i st)
             else (NotFound, st)
         end.
Proof.
  unfold delete_record, try_catch.
  destruct (ObjectId_isValid id); [|reflexivity]. cbn [negb].
  unfold bind, new_ObjectId.
  destruct (ObjectId_new id) as [i|]; [|reflexivity].
  unfold deleteOne, ret. destruct (existsb _ st); reflexivity.
Qed.

(** A payload that passes validation has strings for its three
    required text fields. *)
Lemma valid_required_text (data : Body) :
  validateStudent data = Some [] ->
  typeof_string (b_name data) = true
  /\ typeof_string (b_email data) = true
  /\ typeof_string (b_course data) = true.
Proof.
  intros H. apply validateStudent_empty in H.
  assert (Hn : text_rule (b_name data) = true)
    by (apply H; unfold rules; simpl; tauto).
  assert (He : email_rule (b_email data) = true)
    by (apply H; unfold rules; simpl; tauto).
  assert (Hc : text_rule (b_course data) = true)
    by (apply H; unfold rules; simpl; tauto).
  destruct (b_name data), (b_email data), (b_course data);
    try discriminate; auto.
Qed.

Lemma valid_trimmable (data : Body) :
  validateStudent data = Some [] ->
  text_or_absent (b_phone data) = true ->
  text_or_absent (b_notes data) = true ->
  trimmable data = true.
Proof.
  intros H Hp Ho. destruct (valid_required_text data H) as (Hn & He & Hc).
  unfold trimmable. now rewrite Hn, He, Hc, Hp, Ho.
Qed.

(** On a payload that passes validation, only the phone and the notes
    decide whether the text fields can be trimmed. *)
Lemma valid_trimmable_eq (data : Body) :
  validateStudent data = Some [] ->
  trimmable data
  = text_or_absent (b_phone data) && text_or_absent (b_notes data).
Proof.
  intros H. destruct (valid_required_text data H) as (Hn & He & Hc).
  unfold trimmable. rewrite Hn, He, Hc. cbn [andb].
  now rewrite andb_true_r.
Qed.

End WithDriver.
End RouteFacts.

(* ------------------------------------------------------------------ *)
(** ** The reference platform obeys the laws assumed of a driver *)

Module ReferenceFacts.
Import Reference.
Local Open Scope Z_scope.

Lemma insert_by_date_perm (dir : Z) (d : Doc) (l : list Doc) :
  Permutation (insert_by_date dir d l) (d :: l).
Proof.
  induction l as [|x r IH]; simpl; [reflexivity|].
  destruct (dir * date_key d <=? dir * date_key x); [reflexivity|].
  rewrite IH. apply perm_swap.
Qed.

Lemma sort_by_date_perm (dir : Z) (l : list Doc) :
  Permutation (sort_by_date dir l) l.
Proof.
  induction l as [|x r IH]; simpl; [reflexivity|].
  rewrite insert_by_date_perm. now constructor.
Qed.

Lemma sort_docs_perm (sortBy : string) (dir : Z) (l l' : list Doc) :
  sort_docs sortBy dir l = Some l' -> Permutation l' l.
Proof.
  simpl. destruct (String.eqb sortBy "joinDate"); [|discriminate].
  intros H. injection H as <-. apply sort_by_date_perm.
Qed.

End ReferenceFacts.

(* ------------------------------------------------------------------ *)
(** ** The properties of the specification *)

Module Properties.
Import JsString RegExp Validation Rules Server.
Import JsStringFacts RegExpFacts ValidationFacts GatewayFacts RouteFacts.

Section List_route.
Context {E : JsEngine} {D : MongoDriver}.

Lemma build_filter_both (search fee : string) :
  search <> "" -> fee <> "" ->
  build_filter (Some search) (Some fee)
  = [FeeStatusEq fee;
     Or [RegexI F_name search; RegexI F_email search;
         RegexI F_course search]].
Proof.
  intros Hs Ht. unfold build_filter, supplied.
  apply String.eqb_neq in Hs, Ht. now rewrite Hs, Ht.
Qed.

Lemma matches_both (search fee : string) (d : Doc) :
  matches_query [FeeStatusEq fee;
                 Or [RegexI F_name search; RegexI F_email search;
                     RegexI F_course search]] d = true
  <-> feeStatus d = JStr fee
      /\ (regex_matches search (name d) = true
          \/ regex_matches search (email d) = true
          \/ regex_matches search (course d) = true).
Proof.
  unfold matches_query; simpl.
  rewrite !andb_true_r, andb_true_iff, orb_false_r, !orb_true_iff.
  apply and_iff_compat_r.
  destruct (feeStatus d) as [| |b|n|s|l|o];
    try (split; [discriminate | intros H; discriminate H]).
  rewrite String.eqb_eq. split; [now intros -> | intros H; now injection H].
Qed.

(** The list route, outcome by outcome. *)
Lemma get_records_eq (search fee sortBy sortOrder : option string) (st : Store) :
  get_records search fee sortBy sortOrder st
  = let q := build_filter search fee in
    let key := match sortBy with Some k => k | None => "joinDate" end in
    let order := match sortOrder with Some o => o | None => "desc" end in
    if forallb well_formed q
    then match sort_docs key (if order =? "desc" then (-1)%Z else 1%Z)
                         (List.filter (matches_query q) st) with
         | Some l => (Listed (List.length l) l, st)
         | None => (InternalError, st)
         end
    else (InternalError, st).
Proof.
  unfold get_records, try_catch, bind, find_sorted, ret. cbv zeta.
  destruct (forallb well_formed _); [|reflexivity].
  destruct (sort_docs _ _ _); reflexivity.
Qed.

(** C1, amended.  When the list route is given both a search term and
    a status and answers 200, a record is returned exactly when its
    feeStatus is the status AND its name, email or course matches the
    search term under the store's case-insensitive [$regex]: the status
    clause and the [$or] of the three field matches are two members of
    one query document, which must both hold. *)
Theorem list_filter_is_conjunction
        (search fee : string) (sortBy sortOrder : option string)
        (st st' : Store) (r : Response) :
  search <> "" -> fee <> "" ->
  (forall k dir l l', sort_docs k dir l = Some l' -> Permutation l' l) ->
  get_records (Some search) (Some fee) sortBy sortOrder st = (r, st') ->
  status r = 200 ->
  st' = st
  /\ exists l,
      r = Listed (List.length l) l
      /\ forall d,
          In d l <->
          In d st /\ feeStatus d = JStr fee
          /\ (regex_matches search (name d) = true
              \/ regex_matches search (email d) = true
              \/ regex_matches search (course d) = true).
Proof.
  intros Hs Ht Hsort. rewrite get_records_eq. cbv zeta.
  rewrite build_filter_both by assumption.
  destruct (forallb well_formed _);
    [|intros H; injection H as <- <-; discriminate].
  destruct (sort_docs _ _ _) as [l|] eqn:Hl;
    [|intros H; injection H as <- <-; discriminate].
  intros H _. injection H as <- <-. split; [reflexivity|].
  exists l. split; [reflexivity|]. intros d.
  rewrite <- matches_both, <- filter_In. apply Hsort in Hl. split; intros H.
  - eapply Permutation_in; [exact Hl | exact H].
  - eapply Permutation_in; [symmetry; exact Hl | exact H].
Qed.

End List_route.

Section Validation_report.
Context {E : JsEngine} {D : MongoDriver}.

(** Validation reports every violation unless it throws.  When the
    conversions of the phone and of the join date return, the validator
    returns the violations of all seven rules, each rule judged on its
    own field, in the order name, email, phone, course, feeStatus,
    joinDate, notes; as many messages as there are violated rules; the
    empty list exactly when every rule is satisfied; and when the list
    is not empty Create answers it whole as the validation failure, and
    so does Update on a well-formed id.  When a conversion throws, the
    validator returns nothing and both routes answer 500. *)
Lemma validation_report_unless_conversion_throws (data : Body) :
  (converts data = true ->
   validateStudent data = Some (violations data)
   /\ List.length (violations data) = violated data
   /\ (violations data = [] <-> satisfies_every_rule data)
   /\ (violations data <> [] ->
       (forall t_created t_updated fresh st,
           post_records t_created t_updated fresh data st
           = (ValidationFailed (violations data), st))
       /\ (forall t_updated id st,
              ObjectId_isValid id = true ->
              put_record t_updated id data st
              = (ValidationFailed (violations data), st))))
  /\ (converts data = false ->
      validateStudent data = None
      /\ (forall t_created t_updated fresh st,
             post_records t_created t_updated fresh data st
             = (InternalError, st))
      /\ (forall t_updated id st,
             ObjectId_isValid id = true ->
             put_record t_updated id data st = (InternalError, st))).
Proof.
  pose proof (validateStudent_violations data) as Hv.
  split; intros Hc; rewrite Hc in Hv.
  - split; [exact Hv|]. split; [apply violations_count|].
    split.
    + rewrite <- validateStudent_empty, Hv.
      split; [now intros -> | now intros [= ->]].
    + intros H. split; intros.
      * now apply post_records_invalid.
      * now apply put_record_invalid.
  - split; [exact Hv|]. split; intros.
    + now apply post_records_throws.
    + now apply put_record_throws.
Qed.

End Validation_report.

Section Email_case.
Context {E : JsEngine} {D : MongoDriver}.

Lemma normal_email_case (e1 e2 : string) :
  toLowerCase e1 = toLowerCase e2 ->
  normal_email (JStr e1) = normal_email (JStr e2).
Proof.
  intros H. simpl. now rewrite <- !trim_toLowerCase, H.
Qed.

Lemma validateStudent_case (data : Body) (e1 e2 : string) :
  toLowerCase e1 = toLowerCase e2 ->
  validateStudent (with_email data e1) = validateStudent (with_email data e2).
Proof.
  intros H. rewrite !validateStudent_violations.
  unfold violations, converts, with_email; simpl.
  assert (Ht : test emailRegex e1 = test emailRegex e2)
    by (rewrite <- (emailRegex_toLowerCase e1), H;
        apply emailRegex_toLowerCase).
  assert (Hn : (e1 =? "") = (e2 =? ""))
    by (rewrite <- (map_empty lower_char e1), <- (map_empty lower_char e2);
        unfold toLowerCase in H; now rewrite H).
  now rewrite Ht, Hn.
Qed.

End Email_case.

Section Malformed_id.
Context {E : JsEngine} {D : MongoDriver}.

(** C6.  On an id that the driver does not accept as an ObjectId,
    Get-by-id, Update and Delete all answer 400 'Invalid student ID
    format' and leave the collection alone, whatever the collection
    and the payload; none of them answers 404. *)
Theorem malformed_id_is_bad_request (id : string) :
  ObjectId_isValid id = false ->
  forall (st : Store) (t_updated : Z) (data : Body),
    get_record id st = (InvalidId, st)
    /\ put_record t_updated id data st = (InvalidId, st)
    /\ delete_record id st = (InvalidId, st)
    /\ status InvalidId = 400 /\ InvalidId <> NotFound.
Proof.
  intros H st t data.
  rewrite get_record_eq, put_record_eq, delete_record_eq, H.
  repeat split. discriminate.
Qed.

End Malformed_id.

Section Client_filter.
Import Client.

Lemma shown_renderTable (l : list Student) (p : Page) :
  shown (tableBody (renderTable l p)) = l.
Proof. destruct l; reflexivity. Qed.

(** C9.  [filterStudents] is a function of the loaded list, the
    search box and the status filter alone, and it changes nothing
    but the table.  A record is shown exactly when it is loaded and
    (the search box is empty, or its lower-cased name, email or
    course contains the lower-cased, trimmed search term) and (the
    status filter is empty, or its feeStatus is the status filter). *)
Theorem client_filter_is_pure_conjunction (p : Page) :
  let term := trim (toLowerCase (searchInput p)) in
  (forall s,
      In s (shown (tableBody (filterStudents p))) <->
      In s (currentStudents p)
      /\ (searchInput p = ""
          \/ contains (toLowerCase (name s)) term
          \/ contains (toLowerCase (email s)) term
          \/ contains (toLowerCase (course s)) term)
      /\ (filterStatus p = "" \/ feeStatus s = filterStatus p))
  /\ currentStudents (filterStudents p) = currentStudents p
  /\ searchInput (filterStudents p) = searchInput p
  /\ filterStatus (filterStudents p) = filterStatus p
  /\ (forall q,
         currentStudents q = currentStudents p ->
         searchInput q = searchInput p ->
         filterStatus q = filterStatus p ->
         tableBody (filterStudents q) = tableBody (filterStudents p)).
Proof.
  intros term. split; [|split; [|split; [|split]]].
  - intros s. unfold filterStudents. rewrite shown_renderTable, filter_In.
    apply and_iff_compat_l. unfold keeps. fold term.
    rewrite andb_true_iff, !orb_true_iff, !includes_true, !String.eqb_eq.
    apply and_iff_compat_r. split.
    + intros [[[H|H]|H]|H]; auto.
      right; left. rewrite H. apply contains_empty.
    + intros [H|[H|[H|H]]]; auto.
      left; left; left. subst term. now rewrite H.
  - unfold filterStudents, renderTable. now destruct (List.filter _ _).
  - unfold filterStudents, renderTable. now destruct (List.filter _ _).
  - unfold filterStudents, renderTable. now destruct (List.filter _ _).
  - intros q Hc Hs Hf. unfold filterStudents, renderTable.
    rewrite Hc, Hs, Hf. now destruct (List.filter _ _).
Qed.

End Client_filter.

Section Create_and_update.
Context {E : JsEngine} {D : MongoDriver}.

Lemma duplicate_key_false (d : Doc) (st : Store) :
  duplicate_key d st = false ->
  forall x, In x st -> _id x <> _id d /\ email x <> email d.
Proof.
  unfold duplicate_key. intros H x Hx.
  destruct (N.eqb_spec (_id x) (_id d)) as [Hi|Hi];
    destruct (String.eqb_spec (email x) (email d)) as [He|He];
    try (split; assumption);
    exfalso;
    assert (Ht : existsb (fun y => N.eqb (_id y) (_id d)
                                   || String.eqb (email y) (email d)) st
                 = true)
      by (apply existsb_exists; exists x; split; [exact Hx|];
          apply orb_true_iff;
          first [left; now apply N.eqb_eq | right; now apply String.eqb_eq]);
    congruence.
Qed.

(** C8.  Whenever Create answers 201 with a record, that record is
    the payload normalised (name, phone, course and notes trimmed,
    email trimmed and lower-cased, an absent phone or notes the empty
    string, joinDate the parsed date) under the assigned id and the
    two clock readings, and Get with the assigned id answers 200
    with that very record. *)
Theorem create_then_get_round_trip
        t_created t_updated fresh (data : Body) (st st' : Store) (d : Doc) :
  post_records t_created t_updated fresh data st = (Created d, st') ->
  d = normalized fresh t_created t_updated data
  /\ validateStudent data = Some [] /\ trimmable data = true
  /\ forall id,
      ObjectId_isValid id = true -> ObjectId_new id = Some (_id d) ->
      get_record id st' = (Found d, st').
Proof.
  rewrite post_records_eq.
  destruct (validateStudent data) as [[|]|] eqn:Hv;
    [|discriminate|discriminate].
  destruct (trimmable data) eqn:Ht; [|discriminate].
  destruct (List.find _ st) eqn:Hf; [discriminate|]. cbv zeta.
  destruct (duplicate_key _ st) eqn:Hd; [discriminate|].
  intros H. injection H as <- <-. repeat split.
  intros id Hid Hnew. rewrite get_record_eq, Hid, Hnew. cbn [negb].
  rewrite find_app_last; [reflexivity| |now apply matches_IdEq].
  intros x Hx. destruct (matches_query _ x) eqn:Hm; [|reflexivity].
  apply matches_IdEq in Hm.
  destruct (duplicate_key_false _ _ Hd x Hx) as [Hne _]. contradiction.
Qed.

(** C7.  Whenever Update answers 200, the collection held a record
    with the given id; that record now has the editable fields of
    the payload, normalised, and [updatedAt] set to the clock
    reading, with its [_id] and [createdAt] as before; every other
    record is as it was; and the answer carries the record as it now
    is. *)
Theorem update_replaces_editable_fields
        t_updated id (data : Body) (st st' : Store) (r : Response) :
  put_record t_updated id data st = (r, st') ->
  status r = 200 ->
  exists before old after,
    st = (before ++ old :: after)%list
    /\ ObjectId_new id = Some (_id old)
    /\ (forall x, In x before -> _id x <> _id old)
    /\ st' = (before ++ updated t_updated data old :: after)%list
    /\ r = Updated (Some (updated t_updated data old))
    /\ _id (updated t_updated data old) = _id old
    /\ createdAt (updated t_updated data old) = createdAt old
    /\ updatedAt (updated t_updated data old) = t_updated
    /\ validateStudent data = Some [] /\ trimmable data = true.
Proof.
  rewrite put_record_eq.
  destruct (ObjectId_isValid id); cbn [negb];
    [|intros H; injection H as <- <-; discriminate].
  destruct (validateStudent data) as [[|]|] eqn:Hv;
    [|intros H; injection H as <- <-; discriminate|intros H; injection H as <- <-; discriminate].
  destruct (trimmable data) eqn:Ht;
    [|intros H; injection H as <- <-; discriminate].
  destruct (ObjectId_new id) as [i|] eqn:Hnew;
    [|intros H; injection H as <- <-; discriminate].
  destruct (List.find _ st) eqn:Hf;
    [intros H; injection H as <- <-; discriminate|].
  destruct (replace_first i _ st) as [st1|] eqn:Hr;
    [|intros H; injection H as <- <-; discriminate].
  destruct (existsb _ (remove_first i st)) eqn:He;
    [intros H; injection H as <- <-; discriminate|].
  intros H _. injection H as <- <-.
  destruct (replace_first_some _ _ _ Hr)
    as (before & old & after & -> & Hid & Hb & -> & _).
  subst i. exists before, old, after.
  rewrite find_first_id by (auto; reflexivity).
  repeat split; auto.
Qed.

(** Create on a payload whose optional fields are text or absent:
    an email already in the collection is answered 409 and the
    collection is left as it was. *)
Lemma create_conflict_on_text_payload
      t_created t_updated fresh (data : Body) (st : Store) (d : Doc) :
  validateStudent data = Some [] ->
  text_or_absent (b_phone data) = true ->
  text_or_absent (b_notes data) = true ->
  In d st -> email d = normal_email (b_email data) ->
  post_records t_created t_updated fresh data st = (Conflict, st).
Proof.
  intros Hv Hp Ho Hd He.
  rewrite post_records_eq, Hv, (valid_trimmable data Hv Hp Ho).
  destruct (List.find _ st) eqn:Hf; [reflexivity|].
  apply (find_none _ _ Hf) in Hd.
  apply matches_EmailEq in He. congruence.
Qed.

(** Update of a record with its own email, on a payload whose
    optional fields are text or absent, in a collection that respects
    the unique indexes: the update succeeds. *)
Lemma update_own_email_on_text_payload
      t_updated id (data : Body) (st : Store) (r : Doc) :
  consistent st -> In r st ->
  ObjectId_isValid id = true -> ObjectId_new id = Some (_id r) ->
  validateStudent data = Some [] ->
  text_or_absent (b_phone data) = true ->
  text_or_absent (b_notes data) = true ->
  normal_email (b_email data) = email r ->
  exists before after,
    st = (before ++ r :: after)%list
    /\ put_record t_updated id data st
       = (Updated (Some (updated t_updated data r)),
          (before ++ updated t_updated data r :: after)%list).
Proof.
  intros [Hids Hemails] Hr Hid Hnew Hv Hp Ho He.
  rewrite put_record_eq, Hid, Hv, (valid_trimmable data Hv Hp Ho), Hnew.
  cbn [negb].
  destruct (List.find _ st) as [x|] eqn:Hf.
  { apply find_some in Hf. destruct Hf as [Hx Hm].
    apply matches_other_email in Hm. destruct Hm as [Hxe Hxi].
    exfalso. apply Hxi. f_equal.
    apply (NoDup_map_inj email st); auto. congruence. }
  destruct (replace_first _ _ st) as [st1|] eqn:Hrep.
  2:{ exfalso. apply (proj1 (replace_first_none _ _ _) Hrep r Hr).
      reflexivity. }
  destruct (replace_first_some _ _ _ Hrep)
    as (before & old & after & Hst & Hoid & Hb & -> & Hrem).
  assert (old = r).
  { apply (NoDup_map_inj _id st); auto.
    rewrite Hst. apply in_or_app. right. now left. }
  subst old. exists before, after. split; [exact Hst|].
  rewrite Hrem, existsb_email_false.
  - now rewrite find_first_id.
  - intros x Hx Hxe. rewrite Hst, map_app in Hemails. simpl in Hemails.
    apply NoDup_remove_2 in Hemails. apply Hemails.
    rewrite <- map_app, <- He, <- Hxe. now apply in_map.
Qed.

(** Update on an id that matches no record, with a payload whose
    optional fields are text or absent: an email held by some record
    is answered 409, not 404. *)
Lemma update_conflict_before_not_found
      t_updated id (data : Body) (st : Store) (i : ObjectId) (d : Doc) :
  ObjectId_isValid id = true -> ObjectId_new id = Some i ->
  (forall x, In x st -> _id x <> i) ->
  validateStudent data = Some [] ->
  text_or_absent (b_phone data) = true ->
  text_or_absent (b_notes data) = true ->
  In d st -> email d = normal_email (b_email data) ->
  put_record t_updated id data st = (Conflict, st).
Proof.
  intros Hid Hnew Hnone Hv Hp Ho Hd He.
  rewrite put_record_eq, Hid, Hv, (valid_trimmable data Hv Hp Ho), Hnew.
  cbn [negb].
  destruct (List.find _ st) eqn:Hf; [reflexivity|].
  pose proof (find_none _ _ Hf d Hd) as Hm.
  assert (matches_query [EmailEq (normal_email (b_email data)); IdNe i] d
          = true) by (apply matches_other_email; auto).
  congruence.
Qed.

(** Update answers 404 only when no record holds the email of the
    payload. *)
Lemma update_not_found_email_free
      t_updated id (data : Body) (st st' : Store) :
  put_record t_updated id data st = (NotFound, st') ->
  forall d, In d st -> email d <> normal_email (b_email data).
Proof.
  rewrite put_record_eq.
  destruct (ObjectId_isValid id); cbn [negb]; [|discriminate].
  destruct (validateStudent data) as [[|]|];
    [|discriminate|discriminate].
  destruct (trimmable data); [|discriminate].
  destruct (ObjectId_new id) as [i|]; [|discriminate].
  destruct (List.find _ st) eqn:Hf; [discriminate|].
  destruct (replace_first i _ st) eqn:Hr.
  { destruct (existsb _ (remove_first i st)); discriminate. }
  intros _ d Hd He.
  apply (find_none _ _ Hf) in Hd as Hm.
  assert (matches_query [EmailEq (normal_email (b_email data)); IdNe i] d
          = true)
    by (apply matches_other_email; split;
        [exact He | now apply (proj1 (replace_first_none _ _ _) Hr)]).
  congruence.
Qed.

(** Create answers 409 exactly when the payload passes validation,
    its text fields can be trimmed and some record holds its trimmed,
    lower-cased email. *)
Lemma create_conflict_iff
      t_created t_updated fresh (data : Body) (st : Store) :
  post_records t_created t_updated fresh data st = (Conflict, st)
  <-> validateStudent data = Some [] /\ trimmable data = true
      /\ exists x, In x st /\ email x = normal_email (b_email data).
Proof.
  rewrite post_records_eq. split.
  - destruct (validateStudent data) as [[|]|]; [|discriminate|discriminate].
    destruct (trimmable data); [|discriminate].
    destruct (List.find _ st) as [x|] eqn:Hf.
    + intros _. apply find_some in Hf. destruct Hf as [Hx Hm].
      apply matches_EmailEq in Hm. repeat split. now exists x.
    + cbv zeta. destruct (duplicate_key _ st); discriminate.
  - intros (Hv & Ht & x & Hx & He). rewrite Hv, Ht.
    destruct (List.find _ st) eqn:Hf; [reflexivity|].
    apply (find_none _ _ Hf) in Hx. apply matches_EmailEq in He. congruence.
Qed.

(** Update answers 409 exactly when the payload passes validation, its
    text fields can be trimmed and a record other than the one addressed
    holds its trimmed, lower-cased email. *)
Lemma update_conflict_iff
      t_updated id (i : ObjectId) (data : Body) (st : Store) :
  ObjectId_isValid id = true -> ObjectId_new id = Some i ->
  put_record t_updated id data st = (Conflict, st)
  <-> validateStudent data = Some [] /\ trimmable data = true
      /\ exists x, In x st /\ email x = normal_email (b_email data)
                   /\ _id x <> i.
Proof.
  intros Hid Hnew. rewrite put_record_eq, Hid, Hnew. cbn [negb]. split.
  - destruct (validateStudent data) as [[|]|]; [|discriminate|discriminate].
    destruct (trimmable data); [|discriminate].
    destruct (List.find _ st) as [x|] eqn:Hf.
    + intros _. apply find_some in Hf. destruct Hf as [Hx Hm].
      apply matches_other_email in Hm. repeat split. now exists x.
    + destruct (replace_first i _ st); [|discriminate].
      destruct (existsb _ (remove_first i st)); discriminate.
  - intros (Hv & Ht & x & Hx & He & Hne). rewrite Hv, Ht.
    destruct (List.find _ st) eqn:Hf; [reflexivity|].
    apply (find_none _ _ Hf) in Hx.
    assert (matches_query [EmailEq (normal_email (b_email data)); IdNe i] x
            = true) by (apply matches_other_email; auto).
    congruence.
Qed.

(** What a Create answered 201 has stored. *)
Lemma created_record
      t_created t_updated fresh (data : Body) (st st' : Store) (d : Doc) :
  post_records t_created t_updated fresh data st = (Created d, st') ->
  validateStudent data = Some [] /\ trimmable data = true
  /\ d = normalized fresh t_created t_updated data
  /\ st' = (st ++ [d])%list
  /\ forall x, In x st -> _id x <> _id d /\ email x <> email d.
Proof.
  rewrite post_records_eq.
  destruct (validateStudent data) as [[|]|]; [|discriminate|discriminate].
  destruct (trimmable data); [|discriminate].
  destruct (List.find _ st); [discriminate|]. cbv zeta.
  destruct (duplicate_key _ st) eqn:Hd; [discriminate|].
  intros H. injection H as <- <-. repeat split;
    now apply (duplicate_key_false _ _ Hd).
Qed.

(** What an Update answered 200 with a record has stored. *)
Lemma updated_record
      t_updated id (data : Body) (st st' : Store) (d : Doc) :
  put_record t_updated id data st = (Updated (Some d), st') ->
  email d = normal_email (b_email data) /\ In d st'.
Proof.
  rewrite put_record_eq.
  destruct (ObjectId_isValid id); cbn [negb]; [|discriminate].
  destruct (validateStudent data) as [[|]|]; [|discriminate|discriminate].
  destruct (trimmable data); [|discriminate].
  destruct (ObjectId_new id) as [i|]; [|discriminate].
  destruct (List.find _ st); [discriminate|].
  destruct (replace_first i _ st) as [st1|] eqn:Hr; [|discriminate].
  destruct (existsb _ (remove_first i st)); [discriminate|].
  destruct (replace_first_some _ _ _ Hr)
    as (before & old & after & -> & Hid & Hb & -> & _).
  rewrite find_first_id by (auto; reflexivity).
  intros H. injection H as <- <-. split; [reflexivity|].
  apply in_or_app. right. now left.
Qed.

(** C3.  Two emails that differ only in letter case are one identity
    for Create and for Update.  Both normalise to the same trimmed,
    lower-cased email, and on every collection the two requests get the
    same answer and leave the same collection.  That email is the key
    of the uniqueness lookup: Create answers 409 exactly when the
    payload passes validation, can be trimmed and some record holds it,
    and Update exactly when such a record is not the one addressed.  It
    is also what is stored: a record that Create or Update answers with
    has it as its email, and once Create has stored one spelling, a
    Create with the other spelling, and an Update of any other id to
    the other spelling, is answered 409 and changes nothing. *)
Theorem email_identity_ignores_case (data : Body) (e1 e2 : string) :
  toLowerCase e1 = toLowerCase e2 ->
  toLowerCase (trim e1) = toLowerCase (trim e2)
  /\ (forall t_created t_updated fresh st,
         post_records t_created t_updated fresh (with_email data e1) st
         = post_records t_created t_updated fresh (with_email data e2) st)
  /\ (forall t_updated id st,
         put_record t_updated id (with_email data e1) st
         = put_record t_updated id (with_email data e2) st)
  /\ (forall t_created t_updated fresh st,
         post_records t_created t_updated fresh (with_email data e1) st
         = (Conflict, st)
         <-> validateStudent (with_email data e1) = Some []
             /\ trimmable (with_email data e1) = true
             /\ exists x, In x st /\ email x = toLowerCase (trim e1))
  /\ (forall t_updated id i st,
         ObjectId_isValid id = true -> ObjectId_new id = Some i ->
         put_record t_updated id (with_email data e1) st = (Conflict, st)
         <-> validateStudent (with_email data e1) = Some []
             /\ trimmable (with_email data e1) = true
             /\ exists x, In x st /\ email x = toLowerCase (trim e1)
                          /\ _id x <> i)
  /\ (forall t_created t_updated fresh st d st',
         post_records t_created t_updated fresh (with_email data e1) st
         = (Created d, st') ->
         email d = toLowerCase (trim e1)
         /\ st' = (st ++ [d])%list
         /\ (forall t_created' t_updated' fresh',
                post_records t_created' t_updated' fresh'
                             (with_email data e2) st'
                = (Conflict, st'))
         /\ (forall t_updated' id i,
                ObjectId_isValid id = true -> ObjectId_new id = Some i ->
                i <> _id d ->
                put_record t_updated' id (with_email data e2) st'
                = (Conflict, st')))
  /\ (forall t_updated id st d st',
         put_record t_updated id (with_email data e1) st
         = (Updated (Some d), st') ->
         email d = toLowerCase (trim e1) /\ In d st').
Proof.
  intros H.
  pose proof (normal_email_case e1 e2 H) as Hn.
  pose proof (validateStudent_case data e1 e2 H) as Hv.
  assert (Hpost : forall t_created t_updated fresh st,
             post_records t_created t_updated fresh (with_email data e1) st
             = post_records t_created t_updated fresh (with_email data e2) st).
  { intros. rewrite !post_records_eq, Hv.
    unfold normalized, trimmable, with_email; cbn [b_name b_email b_phone
      b_course b_feeStatus b_joinDate b_notes typeof_string].
    now rewrite Hn. }
  assert (Hput : forall t_updated id st,
             put_record t_updated id (with_email data e1) st
             = put_record t_updated id (with_email data e2) st).
  { intros. rewrite !put_record_eq, Hv.
    unfold update_of, trimmable, with_email; cbn [b_name b_email b_phone
      b_course b_feeStatus b_joinDate b_notes typeof_string].
    now rewrite Hn. }
  split; [exact Hn|]. split; [exact Hpost|]. split; [exact Hput|].
  split; [intros; apply create_conflict_iff|].
  split; [intros t id i st Hid Hnew;
         exact (@update_conflict_iff t id i (with_email data e1) st Hid Hnew)|].
  split.
  - intros t_created t_updated fresh st d st' Hc.
    destruct (created_record _ _ _ _ _ Hc) as (Hval & Htr & Hd & Hst & _).
    assert (He : email d = toLowerCase (trim e1)) by (rewrite Hd; reflexivity).
    assert (Hin : In d st')
      by (rewrite Hst; apply in_or_app; right; now left).
    split; [exact He|]. split; [exact Hst|]. split.
    + intros. rewrite <- Hpost. apply create_conflict_iff.
      split; [exact Hval|]. split; [exact Htr|]. now exists d.
    + intros t id i Hid Hnew Hne. rewrite <- Hput.
      apply (@update_conflict_iff t id i (with_email data e1) st' Hid Hnew).
      split; [exact Hval|]. split; [exact Htr|]. exists d.
      split; [exact Hin|]. split; [exact He|]. congruence.
  - intros t_updated id st d st' Hu.
    exact (updated_record _ _ _ _ Hu).
Qed.

(** C5.  In a collection that respects the unique indexes, an Update
    of a record with a payload that passes validation and keeps the
    email of the record is never answered 409.  The uniqueness lookup
    asks for the email on a record of another id and finds none, while
    the same lookup without that exclusion finds the record itself.
    The update is answered 200 with the record as updated whenever the
    phone and the notes of the payload are strings or missing (it is
    answered 500, not 409, when they are not). *)
Theorem update_to_own_email_is_no_conflict
        t_updated id (data : Body) (st : Store) (r : Doc) :
  consistent st -> In r st ->
  ObjectId_isValid id = true -> ObjectId_new id = Some (_id r) ->
  validateStudent data = Some [] ->
  normal_email (b_email data) = email r ->
  status (fst (put_record t_updated id data st)) <> 409
  /\ findOne [EmailEq (email r); IdNe (_id r)] st = (Normal None, st)
  /\ findOne [EmailEq (email r)] st = (Normal (Some r), st)
  /\ (text_or_absent (b_phone data) = true ->
      text_or_absent (b_notes data) = true ->
      exists before after,
        st = (before ++ r :: after)%list
        /\ put_record t_updated id data st
           = (Updated (Some (updated t_updated data r)),
              (before ++ updated t_updated data r :: after)%list))
  /\ (text_or_absent (b_phone data) && text_or_absent (b_notes data) = false ->
      put_record t_updated id data st = (InternalError, st)).
Proof.
  intros Hc Hr Hid Hnew Hv He.
  assert (Hnone : List.find (matches_query [EmailEq (email r); IdNe (_id r)])
                            st = None).
  { destruct (List.find _ st) as [x|] eqn:Hf; [|reflexivity].
    apply find_some in Hf. destruct Hf as [Hx Hm].
    apply matches_other_email in Hm. destruct Hm as [Hxe Hxi].
    exfalso. apply Hxi. f_equal.
    apply (NoDup_map_inj email st); auto. exact (proj2 Hc). }
  assert (Hself : List.find (matches_query [EmailEq (email r)]) st = Some r).
  { destruct (List.find (matches_query [EmailEq (email r)]) st)
      as [x|] eqn:Hf.
    - apply find_some in Hf. destruct Hf as [Hx Hm].
      apply matches_EmailEq in Hm. f_equal.
      apply (NoDup_map_inj email st); auto. exact (proj2 Hc).
    - apply (find_none _ _ Hf) in Hr.
      assert (matches_query [EmailEq (email r)] r = true)
        by now apply matches_EmailEq.
      congruence. }
  split.
  { rewrite put_record_eq, Hid, Hv, Hnew, He, Hnone. cbn [negb].
    destruct (trimmable data); [|discriminate].
    destruct (replace_first _ _ st); [|discriminate].
    destruct (existsb _ _); discriminate. }
  split; [unfold findOne; cbn; now rewrite Hnone|].
  split; [unfold findOne; cbn; now rewrite Hself|].
  split.
  - intros Hp Ho.
    now apply update_own_email_on_text_payload.
  - intros Ht.
    assert (Hnt : trimmable data = false).
    { unfold trimmable. apply andb_false_iff in Ht.
      destruct Ht as [Ht|Ht]; rewrite Ht;
        now rewrite ?andb_false_r, ?andb_false_l. }
    now rewrite put_record_eq, Hid, Hv, Hnt.
Qed.

End Create_and_update.

Section Indexes.
Context {E : JsEngine} {D : MongoDriver}.

Lemma NoDup_snoc {A} (l : list A) (a : A) :
  NoDup l -> ~ In a l -> NoDup (l ++ [a]).
Proof.
  intros Hl Ha. apply (Permutation_NoDup (l := a :: l)).
  - apply Permutation_cons_append.
  - now constructor.
Qed.

Lemma remove_first_incl (i : ObjectId) (st : Store) :
  forall x, In x (remove_first i st) -> In x st.
Proof.
  induction st as [|d rest IH]; simpl; intros x Hx; [exact Hx|].
  destruct (N.eqb (_id d) i); [now right|].
  destruct Hx as [<-|Hx]; [now left | right; now apply IH].
Qed.

Lemma remove_first_NoDup {A} (f : Doc -> A) (i : ObjectId) (st : Store) :
  NoDup (List.map f st) -> NoDup (List.map f (remove_first i st)).
Proof.
  induction st as [|d rest IH]; simpl; intros H; [exact H|].
  inversion H as [|? ? Hnot Hrest]; subst.
  destruct (N.eqb (_id d) i); [exact Hrest|].
  simpl. constructor; [|now apply IH].
  intros Hin. apply Hnot. apply in_map_iff in Hin.
  destruct Hin as (x & Hx & Hin). apply in_map_iff. exists x.
  split; [exact Hx | now apply remove_first_incl in Hin].
Qed.

(** The collection respects the two unique indexes after every
    request that found it respecting them. *)
Lemma routes_keep_consistent (st : Store) :
  consistent st ->
  (forall t_created t_updated fresh data,
      consistent (snd (post_records t_created t_updated fresh data st)))
  /\ (forall t_updated id data,
         consistent (snd (put_record t_updated id data st)))
  /\ (forall id, consistent (snd (delete_record id st)))
  /\ (forall id, snd (get_record id st) = st)
  /\ (forall search status sortBy sortOrder,
         snd (get_records search status sortBy sortOrder st) = st).
Proof.
  intros Hc. split; [|split; [|split; [|split]]].
  - intros. rewrite post_records_eq.
    destruct (validateStudent data) as [[|]|];
    [|exact Hc|exact Hc].
    destruct (trimmable data); [|exact Hc].
    destruct (List.find _ st); [exact Hc|]. cbv zeta.
    destruct (duplicate_key _ st) eqn:Hd; [exact Hc|]. simpl.
    destruct Hc as [Hi He]. split; rewrite map_app; simpl;
      (apply NoDup_snoc; [assumption|]); intros Hin;
      apply in_map_iff in Hin; destruct Hin as (x & Hx & Hin);
      destruct (duplicate_key_false _ _ Hd x Hin) as [H1 H2]; auto.
  - intros. rewrite put_record_eq.
    destruct (ObjectId_isValid id); cbn [negb]; [|exact Hc].
    destruct (validateStudent data) as [[|]|];
    [|exact Hc|exact Hc].
    destruct (trimmable data); [|exact Hc].
    destruct (ObjectId_new id) as [i|]; [|exact Hc].
    destruct (List.find _ st); [exact Hc|].
    destruct (replace_first i _ st) as [st1|] eqn:Hr; [|exact Hc].
    destruct (existsb _ (remove_first i st)) eqn:Hx; [exact Hc|]. simpl.
    destruct (replace_first_some _ _ _ Hr)
      as (b & old & a & -> & Hid & Hb & -> & Hrem).
    destruct Hc as [Hi He]. split.
    + rewrite map_app in *. exact Hi.
    + rewrite map_app in *. simpl in *.
      apply (Permutation_NoDup
               (l := normal_email (b_email data)
                     :: (List.map email b ++ List.map email a)));
        [apply Permutation_middle|].
      constructor; [|now apply NoDup_remove_1 in He].
      rewrite <- map_app, <- Hrem. intros Hin.
      apply in_map_iff in Hin. destruct Hin as (x & Hxe & Hin).
      assert (Ht : existsb (fun y => String.eqb (email y)
                              (normal_email (b_email data)))
                           (remove_first i (b ++ old :: a)%list) = true)
        by (apply existsb_exists; exists x; split;
            [exact Hin | now apply String.eqb_eq]).
      congruence.
  - intros. rewrite delete_record_eq.
    destruct (ObjectId_isValid id); cbn [negb]; [|exact Hc].
    destruct (ObjectId_new id) as [i|]; [|exact Hc].
    destruct (existsb _ st); [|exact Hc]. simpl.
    destruct Hc as [Hi He]. split; now apply remove_first_NoDup.
  - intros. rewrite get_record_eq.
    destruct (ObjectId_isValid id); cbn [negb]; [|reflexivity].
    destruct (ObjectId_new id) as [i|]; [|reflexivity].
    destruct (List.find _ st); reflexivity.
  - intros. rewrite get_records_eq. cbv zeta.
    destruct (forallb well_formed _); [|reflexivity].
    destruct (sort_docs _ _ _); reflexivity.
Qed.

End Indexes.

End Properties.

(* ------------------------------------------------------------------ *)
(** ** The scenario of the specification, run on the reference platform *)

Module Runs.
Import JsString Validation Rules Server Reference Scenario.
Import ReferenceFacts Properties.

(** C1, as stated, fails.  The collection holds Jo Lee, whose
    feeStatus is Pending.  Listing with search "jo" and status "Paid":
    her name contains the search term, so a disjunction would return
    her; the route returns nothing. *)
Lemma list_filter_is_not_disjunction :
  ~ (forall d,
        In d [jo_doc] ->
        feeStatus d = JStr "Paid"
        \/ regex_matches "jo" (name d) = true
        \/ regex_matches "jo" (email d) = true
        \/ regex_matches "jo" (course d) = true ->
        In d (listed (fst (get_records (Some "jo") (Some "Paid") None None
                                       [jo_doc])))).
Proof.
  intros H.
  assert (Hm : regex_matches "jo" (name jo_doc) = true) by reflexivity.
  specialize (H jo_doc (or_introl eq_refl) (or_intror (or_introl Hm))).
  change (In jo_doc []) in H. exact H.
Qed.

(** A run of the list route with both parameters: search "jo", status
    "Pending", on the collection that holds Jo Lee. *)
Lemma list_filter_is_conjunction_witness :
  "jo" <> "" /\ "Pending" <> ""
  /\ (forall k dir l l', sort_docs k dir l = Some l' -> Permutation l' l)
  /\ get_records (Some "jo") (Some "Pending") None None [jo_doc]
     = (Listed 1 [jo_doc], [jo_doc])
  /\ status (Listed 1 [jo_doc]) = 200
  /\ exists l,
      Listed 1 [jo_doc] = Listed (List.length l) l
      /\ forall d,
          In d l <->
          In d [jo_doc] /\ feeStatus d = JStr "Pending"
          /\ (regex_matches "jo" (name d) = true
              \/ regex_matches "jo" (email d) = true
              \/ regex_matches "jo" (course d) = true).
Proof.
  assert (H : get_records (Some "jo") (Some "Pending") None None [jo_doc]
              = (Listed 1 [jo_doc], [jo_doc])) by reflexivity.
  split; [discriminate|]. split; [discriminate|].
  split; [exact sort_docs_perm|]. split; [exact H|]. split; [reflexivity|].
  refine (proj2 (@list_filter_is_conjunction _ _ "jo" "Pending" None None
                   [jo_doc] _ _ _ _ sort_docs_perm H eq_refl));
    discriminate.
Defined.

(** A payload with five violated rules: Create reports the five. *)
Lemma incomplete_payload_report :
  converts incomplete = true
  /\ post_records 0 0 jo_oid incomplete []
     = (ValidationFailed
          ["Name is required and must be at least 2 characters";
           "Email is required";
           "Course/Service is required and must be at least 2 characters";
           "Valid fee status is required";
           "Join date is required"], []).
Proof.
  assert (Hc : converts incomplete = true) by reflexivity.
  split; [exact Hc|].
  destruct (proj1 (validation_report_unless_conversion_throws incomplete) Hc)
    as (_ & _ & _ & H).
  assert (Hne : violations incomplete <> []) by discriminate.
  exact (proj1 (H Hne) 0%Z 0%Z jo_oid []).
Qed.

(** The two spellings of the specification, a@b.com and A@B.COM, in
    a collection that holds Ann Roe: a Create stores the first, and
    then a Create with the second, and an Update of Ann Roe to the
    second, are refused. *)
Lemma email_identity_ignores_case_witness :
  toLowerCase "a@b.com" = toLowerCase "A@B.COM"
  /\ post_records 100 101 jo_oid (with_email jo "a@b.com") [Samples.ann_doc]
     = (Created jo_ab_doc, [Samples.ann_doc; jo_ab_doc])
  /\ email jo_ab_doc = toLowerCase (trim "a@b.com")
  /\ post_records 200 201 9%N (with_email jo "A@B.COM")
                  [Samples.ann_doc; jo_ab_doc]
     = (Conflict, [Samples.ann_doc; jo_ab_doc])
  /\ put_record 300 other_id (with_email jo "A@B.COM")
                [Samples.ann_doc; jo_ab_doc]
     = (Conflict, [Samples.ann_doc; jo_ab_doc])
  /\ put_record 300 jo_id (with_email jo "a@b.com") [jo_doc]
     = put_record 300 jo_id (with_email jo "A@B.COM") [jo_doc].
Proof.
  assert (H : toLowerCase "a@b.com" = toLowerCase "A@B.COM") by reflexivity.
  assert (Hc : post_records 100 101 jo_oid (with_email jo "a@b.com")
                            [Samples.ann_doc]
               = (Created jo_ab_doc, [Samples.ann_doc; jo_ab_doc])) by reflexivity.
  destruct (email_identity_ignores_case jo "a@b.com" "A@B.COM" H)
    as (_ & _ & Hput & _ & _ & Hstored & _).
  destruct (Hstored 100%Z 101%Z jo_oid [Samples.ann_doc] jo_ab_doc
                    [Samples.ann_doc; jo_ab_doc] Hc)
    as (He & _ & Hpost' & Hput').
  split; [exact H|]. split; [exact Hc|]. split; [exact He|].
  split; [exact (Hpost' 200%Z 201%Z 9%N)|].
  split; [|exact (Hput 300%Z jo_id [jo_doc])].
  apply (Hput' 300%Z other_id Samples.ann_oid); [reflexivity|reflexivity|].
  discriminate.
Defined.

(** The id of the specification, not-an-id. *)
Lemma malformed_id_is_bad_request_witness :
  ObjectId_isValid "not-an-id" = false
  /\ get_record "not-an-id" [jo_doc] = (InvalidId, [jo_doc])
  /\ put_record 300 "not-an-id" jo_paid [jo_doc] = (InvalidId, [jo_doc])
  /\ delete_record "not-an-id" [jo_doc] = (InvalidId, [jo_doc]).
Proof.
  assert (H : ObjectId_isValid "not-an-id" = false)
    by (vm_compute; reflexivity).
  split; [exact H|].
  destruct (malformed_id_is_bad_request "not-an-id" H [jo_doc] 300%Z jo_paid)
    as (Hget & Hput & Hdel & _).
  split; [exact Hget|]. split; [exact Hput | exact Hdel].
Defined.

(** The update of the scenario: Jo Lee's feeStatus becomes Paid. *)
Lemma update_replaces_editable_fields_witness :
  put_record 300 jo_id jo_paid [jo_doc]
  = (Updated (Some (updated 300 jo_paid jo_doc)),
     [updated 300 jo_paid jo_doc])
  /\ status (Updated (Some (updated 300 jo_paid jo_doc))) = 200
  /\ exists before old after,
      [jo_doc] = (before ++ old :: after)%list
      /\ ObjectId_new jo_id = Some (_id old)
      /\ (forall x, In x before -> _id x <> _id old)
      /\ [updated 300 jo_paid jo_doc]
         = (before ++ updated 300 jo_paid old :: after)%list
      /\ Updated (Some (updated 300 jo_paid jo_doc))
         = Updated (Some (updated 300 jo_paid old))
      /\ _id (updated 300 jo_paid old) = _id old
      /\ createdAt (updated 300 jo_paid old) = createdAt old
      /\ updatedAt (updated 300 jo_paid old) = 300%Z
      /\ validateStudent jo_paid = Some [] /\ trimmable jo_paid = true.
Proof.
  assert (H : put_record 300 jo_id jo_paid [jo_doc]
              = (Updated (Some (updated 300 jo_paid jo_doc)),
                 [updated 300 jo_paid jo_doc]))
    by reflexivity.
  split; [exact H|]. split; [reflexivity|].
  exact (update_replaces_editable_fields 300 jo_id jo_paid [jo_doc] H eq_refl).
Defined.

(** The first Create of the scenario, then Get with the assigned id. *)
Lemma create_then_get_round_trip_witness :
  post_records 100 101 jo_oid jo [] = (Created jo_doc, [jo_doc])
  /\ jo_doc = normalized jo_oid 100 101 jo
  /\ ObjectId_isValid jo_id = true
  /\ ObjectId_new jo_id = Some (_id jo_doc)
  /\ get_record jo_id [jo_doc] = (Found jo_doc, [jo_doc]).
Proof.
  assert (H : post_records 100 101 jo_oid jo [] = (Created jo_doc, [jo_doc]))
    by reflexivity.
  assert (Hv : ObjectId_isValid jo_id = true) by (vm_compute; reflexivity).
  assert (Hn : ObjectId_new jo_id = Some (_id jo_doc))
    by (vm_compute; reflexivity).
  destruct (create_then_get_round_trip 100 101 jo_oid jo [] H)
    as (Hd & _ & _ & Hget).
  split; [exact H|]. split; [exact Hd|]. split; [exact Hv|].
  split; [exact Hn|]. exact (Hget jo_id Hv Hn).
Defined.

(** Two pages that differ only in what the table showed: the filter
    shows Jo Lee alone on both. *)
Lemma client_filter_is_pure_conjunction_witness :
  Client.currentStudents (page Client.Loading)
  = Client.currentStudents (page Client.NoResults)
  /\ Client.searchInput (page Client.Loading)
     = Client.searchInput (page Client.NoResults)
  /\ Client.filterStatus (page Client.Loading)
     = Client.filterStatus (page Client.NoResults)
  /\ Client.tableBody (Client.filterStudents (page Client.Loading))
     = Client.tableBody (Client.filterStudents (page Client.NoResults))
  /\ Client.tableBody (Client.filterStudents (page Client.NoResults))
     = Client.Rows [jo_row].
Proof.
  destruct (client_filter_is_pure_conjunction (page Client.NoResults))
    as (_ & _ & _ & _ & H).
  split; [reflexivity|]. split; [reflexivity|]. split; [reflexivity|].
  split; [|reflexivity].
  exact (H (page Client.Loading) eq_refl eq_refl eq_refl).
Defined.

(** Jo Lee's fee status is updated, her email kept, in a collection
    that holds Ann Roe too. *)
Lemma update_to_own_email_is_no_conflict_witness :
  consistent [Samples.ann_doc; jo_doc]
  /\ normal_email (b_email jo_paid) = email jo_doc
  /\ status (fst (put_record 300 jo_id jo_paid [Samples.ann_doc; jo_doc]))
     <> 409
  /\ put_record 300 jo_id jo_paid [Samples.ann_doc; jo_doc]
     = (Updated (Some (updated 300 jo_paid jo_doc)),
        [Samples.ann_doc; updated 300 jo_paid jo_doc]).
Proof.
  assert (Hc : consistent [Samples.ann_doc; jo_doc]).
  { split; simpl;
      (constructor; [intros [H|[]]; discriminate|]);
      (constructor; [intros [] | constructor]). }
  assert (Hin : In jo_doc [Samples.ann_doc; jo_doc])
    by (right; left; reflexivity).
  assert (Hv : validateStudent jo_paid = Some []) by reflexivity.
  assert (He : normal_email (b_email jo_paid) = email jo_doc) by reflexivity.
  assert (Hid : ObjectId_isValid jo_id = true) by reflexivity.
  assert (Hnew : ObjectId_new jo_id = Some (_id jo_doc)) by reflexivity.
  destruct (@update_to_own_email_is_no_conflict _ _ 300%Z jo_id jo_paid
              [Samples.ann_doc; jo_doc] jo_doc Hc Hin Hid Hnew Hv He)
    as (Hs & _ & _ & _ & _).
  split; [exact Hc|]. split; [exact He|]. split; [exact Hs|].
  reflexivity.
Defined.

(** The scenario of the specification: Create, a second Create with the
    same email, Update with feeStatus Paid, Delete, Get. *)
Example specification_scenario :
  let '(r1, st1) := post_records 100 101 jo_oid jo [] in
  let '(r2, st2) := post_records 110 111 (jo_oid + 1)%N jo st1 in
  let '(r3, st3) := put_record 120 jo_id jo_paid st2 in
  let '(r4, st4) := delete_record jo_id st3 in
  let '(r5, st5) := get_record jo_id st4 in
  List.map status [r1; r2; r3; r4; r5] = [201; 409; 200; 200; 404]
  /\ r1 = Created jo_doc
  /\ r3 = Updated (Some (mkDoc jo_oid "Jo Lee" "jo@x.com" "" "CS101"
                               (JStr "Paid") (Some 1704844800000%Z) ""
                               100 120))
  /\ st5 = [].
Proof. repeat split. Qed.

(** C2, failing input.  A payload like that of Jo Lee whose phone is
    the object [{"toString": 1}] violates the phone rule and no other,
    so the report would be the one message of that rule.  Instead
    [phoneRegex.test(data.phone)] throws while it converts the object
    to a string: the validator returns nothing, and Create and Update
    answer 500, not the validation failure.  The same happens in
    [new Date(data.joinDate)] with a join date that holds such an
    object.  The collection is unchanged. *)
Theorem validation_throws_on_object_field :
  violations jo_phone_object = ["Invalid phone number format"]
  /\ validateStudent jo_phone_object = None
  /\ post_records 200 201 jo_oid jo_phone_object [] = (InternalError, [])
  /\ put_record 300 jo_id jo_phone_object [jo_doc]
     = (InternalError, [jo_doc])
  /\ violations jo_date_object = ["Invalid join date format"]
  /\ validateStudent jo_date_object = None
  /\ post_records 200 201 jo_oid jo_date_object [] = (InternalError, [])
  /\ put_record 300 jo_id jo_date_object [jo_doc]
     = (InternalError, [jo_doc])
  /\ status InternalError = 500.
Proof. repeat split. Qed.

(** C4, failing input.  The collection holds Jo Lee under jo@x.com.
    A Create with the same email and [phone: 1234567890] (a number, whose
    digits match the phone pattern) passes validation and then fails in
    [req.body.phone?.trim()], before the uniqueness lookup: the answer
    is 500, not 409.  The same happens with [notes: false], which the
    notes rule does not look at.  The collection is unchanged. *)
Theorem create_duplicate_email_non_text_optional :
  In jo_doc [jo_doc]
  /\ email jo_doc = normal_email (b_email jo_phone_number)
  /\ validateStudent jo_phone_number = Some []
  /\ post_records 200 201 (jo_oid + 1)%N jo_phone_number [jo_doc]
     = (InternalError, [jo_doc])
  /\ validateStudent jo_notes_false = Some []
  /\ post_records 200 201 (jo_oid + 1)%N jo_notes_false [jo_doc]
     = (InternalError, [jo_doc])
  /\ status InternalError = 500.
Proof. repeat split. now left. Qed.

(** The same defect on an Update that keeps the email of the record.
    The collection holds Jo Lee alone.  An Update of her record that
    keeps her email and sends [phone: 1234567890] (a number) passes
    validation and then fails in [req.body.phone?.trim()]: the answer
    is 500, not 409.  The same happens with [notes: false]. *)
Lemma update_own_email_non_text_optional :
  consistent [jo_doc]
  /\ ObjectId_isValid jo_id = true
  /\ ObjectId_new jo_id = Some (_id jo_doc)
  /\ normal_email (b_email jo_phone_number) = email jo_doc
  /\ validateStudent jo_phone_number = Some []
  /\ put_record 300 jo_id jo_phone_number [jo_doc]
     = (InternalError, [jo_doc])
  /\ validateStudent jo_notes_false = Some []
  /\ put_record 300 jo_id jo_notes_false [jo_doc]
     = (InternalError, [jo_doc]).
Proof.
  split; [|repeat split].
  split; simpl; (constructor; [intros [] | constructor]).
Qed.

(** C10, failing input.  The collection holds Jo Lee alone.  An Update
    on a well-formed id that matches no record, with her email and
    [phone: 1234567890] (a number), passes validation and then fails in
    [req.body.phone?.trim()], before the uniqueness lookup: the answer
    is 500, neither 409 nor 404.  The same happens with [notes: false]. *)
Theorem update_unknown_id_taken_email_non_text_optional :
  ObjectId_isValid other_id = true
  /\ (exists i, ObjectId_new other_id = Some i
                /\ forall x, In x [jo_doc] -> _id x <> i)
  /\ email jo_doc = normal_email (b_email jo_phone_number)
  /\ validateStudent jo_phone_number = Some []
  /\ put_record 300 other_id jo_phone_number [jo_doc]
     = (InternalError, [jo_doc])
  /\ validateStudent jo_notes_false = Some []
  /\ put_record 300 other_id jo_notes_false [jo_doc]
     = (InternalError, [jo_doc]).
Proof.
  split; [reflexivity|].
  split; [|repeat split].
  exists (jo_oid + 1)%N. split; [reflexivity|].
  intros x [<-|[]]. discriminate.
Qed.

End Runs.

(* ------------------------------------------------------------------ *)
(** ** Patterns and their languages *)

Module LanguageFacts.
Import JsString RegExp Language.

Lemma append_empty_r (s : string) : s ++ "" = s.
Proof. induction s as [|c s IH]; simpl; [reflexivity | now rewrite IH]. Qed.

Lemma append_assoc (s t u : string) : (s ++ t) ++ u = s ++ t ++ u.
Proof. induction s as [|c s IH]; simpl; [reflexivity | now rewrite IH]. Qed.

Lemma length_append (s t : string) :
  String.length (s ++ t) = String.length s + String.length t.
Proof. induction s as [|c s IH]; simpl; [reflexivity | now rewrite IH]. Qed.

Lemma append_empty (s t : string) : s ++ t = "" -> s = "" /\ t = "".
Proof. destruct s; simpl; [auto | discriminate]. Qed.

Lemma every_append (p : ascii -> bool) (s t : string) :
  every p (s ++ t) = every p s && every p t.
Proof.
  induction s as [|c s IH]; simpl; [reflexivity|].
  now rewrite IH, andb_assoc.
Qed.

Lemma nullable_matches (r : re) : nullable r = true <-> matches r "".
Proof.
  split.
  - induction r as [| |p|a IHa b IHb|a IHa b IHb|a IHa]; simpl; intros H;
      try discriminate.
    + constructor.
    + apply andb_true_iff in H. destruct H as [Ha Hb].
      change "" with ("" ++ ""). constructor; auto.
    + apply orb_true_iff in H. destruct H as [H|H];
        [apply MAltL | apply MAltR]; auto.
    + constructor.
  - intros H. remember "" as e eqn:He.
    induction H as [|p c Hp|a b s t Ha IHa Hb IHb|a b s Ha IHa|a b s Hb IHb
                    | a | a s t Ha IHa Hs IHs]; simpl; try reflexivity.
    + discriminate.
    + apply append_empty in He. destruct He as [-> ->].
      now rewrite IHa, IHb.
    + now rewrite IHa.
    + rewrite IHb by assumption. apply orb_true_r.
Qed.

Lemma deriv_sound (r : re) (c : ascii) :
  forall s, matches (deriv c r) s -> matches r (String c s).
Proof.
  induction r as [| |p|a IHa b IHb|a IHa b IHb|a IHa]; simpl; intros s H.
  - inversion H.
  - inversion H.
  - destruct (p c) eqn:Hp; inversion H; subst. now constructor.
  - destruct (nullable a) eqn:Hn.
    + inversion H as [| |? ? ? ? | ? ? ? H1 | ? ? ? H1 | |]; subst.
      * inversion H1; subst.
        change (String c (s0 ++ t)) with (String c s0 ++ t).
        constructor; auto.
      * change (String c s) with ("" ++ String c s).
        constructor; [now apply nullable_matches | auto].
    + inversion H; subst.
      change (String c (s0 ++ t)) with (String c s0 ++ t).
      constructor; auto.
  - inversion H; subst; [apply MAltL | apply MAltR]; auto.
  - inversion H; subst.
    change (String c (s0 ++ t)) with (String c s0 ++ t).
    constructor; auto.
Qed.

Lemma deriv_complete (r : re) (w : string) :
  matches r w -> forall c s, w = String c s -> matches (deriv c r) s.
Proof.
  induction 1 as [|p c0 Hp|a b s1 t Ha IHa Hb IHb|a b s1 Ha IHa|a b s1 Hb IHb
                  | a | a s1 t Ha IHa Hs IHs]; intros c s E; simpl.
  - discriminate.
  - injection E as -> <-. rewrite Hp. constructor.
  - destruct s1 as [|c1 s1]; simpl in E.
    + apply nullable_matches in Ha. rewrite Ha. apply MAltR. now apply IHb.
    + injection E as -> <-.
      assert (M : matches (Seq (deriv c a) b) (s1 ++ t))
        by (constructor; [now apply IHa | assumption]).
      destruct (nullable a); [now apply MAltL | exact M].
  - apply MAltL. now apply IHa.
  - apply MAltR. now apply IHb.
  - discriminate.
  - destruct s1 as [|c1 s1]; simpl in E.
    + now apply IHs.
    + injection E as -> <-. constructor; [now apply IHa | assumption].
Qed.

(** [test] decides the language of the pattern. *)
Lemma test_matches (s : string) :
  forall r, test r s = true <-> matches r s.
Proof.
  induction s as [|c s IH]; intros r; simpl.
  - apply nullable_matches.
  - rewrite IH. split; [apply deriv_sound|].
    intros H. now apply (deriv_complete H).
Qed.

Lemma matches_Seq (a b : re) (w : string) :
  matches (Seq a b) w <->
  exists s t, w = s ++ t /\ matches a s /\ matches b t.
Proof.
  split.
  - intros H. inversion H; subst. eauto.
  - intros (s & t & -> & Ha & Hb). now constructor.
Qed.

Lemma matches_Cls (p : ascii -> bool) (w : string) :
  matches (Cls p) w <-> exists c, w = String c "" /\ p c = true.
Proof.
  split.
  - intros H. inversion H; subst. eauto.
  - intros (c & -> & Hp). now constructor.
Qed.

Lemma matches_Chr (c : ascii) (w : string) :
  matches (Chr c) w <-> w = String c "".
Proof.
  unfold Chr. rewrite matches_Cls. split.
  - intros (c' & -> & H). apply Ascii.eqb_eq in H. now subst.
  - intros ->. exists c. split; [reflexivity | apply Ascii.eqb_refl].
Qed.

Lemma matches_Opt (r : re) (w : string) :
  matches (Opt r) w <-> w = "" \/ matches r w.
Proof.
  unfold Opt. split.
  - intros H. inversion H as [| | | ? ? ? H1 | | |]; subst;
      [inversion H1; now left | now right].
  - intros [->|H]; [apply MAltL; constructor | now apply MAltR].
Qed.

Lemma matches_Star_Cls (p : ascii -> bool) (w : string) :
  matches (Star (Cls p)) w <-> every p w = true.
Proof.
  split.
  - intros H. remember (Star (Cls p)) as r eqn:Hr.
    induction H as [| | | | | a | a s t Ha _ Hs IHs]; try discriminate.
    + reflexivity.
    + injection Hr as ->. inversion Ha as [|? ? Hc| | | | |]; subst. simpl.
      rewrite IHs by reflexivity. now rewrite Hc.
  - induction w as [|c w IH]; simpl; intros H; [constructor|].
    apply andb_true_iff in H. destruct H as [Hc Hw].
    change (String c w) with (String c "" ++ w).
    constructor; [now constructor | auto].
Qed.

Lemma matches_Plus_Cls (p : ascii -> bool) (w : string) :
  matches (Plus (Cls p)) w <-> w <> "" /\ every p w = true.
Proof.
  unfold Plus. rewrite matches_Seq. split.
  - intros (s & t & -> & Hs & Ht). apply matches_Cls in Hs.
    destruct Hs as (c & -> & Hc). apply matches_Star_Cls in Ht.
    split; [discriminate|]. simpl. now rewrite Hc, Ht.
  - intros [Hne H]. destruct w as [|c w]; [contradiction|]. simpl in H.
    apply andb_true_iff in H. destruct H as [Hc Hw].
    exists (String c ""), w. split; [reflexivity|].
    split; [now constructor | now apply matches_Star_Cls].
Qed.

Lemma matches_Rep_Cls (p : ascii -> bool) (n : nat) (w : string) :
  matches (Rep n (Cls p)) w <-> String.length w = n /\ every p w = true.
Proof.
  revert w; induction n as [|n IH]; intros w; simpl.
  - split.
    + intros H. inversion H. now split.
    + intros [H _]. destruct w; [constructor | discriminate].
  - rewrite matches_Seq. split.
    + intros (s & t & -> & Hs & Ht). apply matches_Cls in Hs.
      destruct Hs as (c & -> & Hc). apply IH in Ht. destruct Ht as [Hl He].
      simpl. now rewrite Hl, Hc, He.
    + intros [Hl He]. destruct w as [|c w]; [discriminate|]. simpl in *.
      apply andb_true_iff in He. destruct He as [Hc Hw].
      exists (String c ""), w. split; [reflexivity|].
      split; [now constructor | apply IH; split; [lia | assumption]].
Qed.

Lemma matches_UpTo_Cls (p : ascii -> bool) (n : nat) (w : string) :
  matches (UpTo n (Cls p)) w <-> String.length w <= n /\ every p w = true.
Proof.
  revert w; induction n as [|n IH]; intros w; simpl.
  - split.
    + intros H. inversion H. now split.
    + intros [H _]. destruct w; [constructor | simpl in H; lia].
  - rewrite matches_Opt, matches_Seq. split.
    + intros [->|(s & t & -> & Hs & Ht)]; [simpl; split; [lia | reflexivity]|].
      apply matches_Cls in Hs. destruct Hs as (c & -> & Hc).
      apply IH in Ht. destruct Ht as [Hl He].
      simpl. rewrite Hc, He. split; [lia | reflexivity].
    + intros [Hl He]. destruct w as [|c w]; [now left | right]. simpl in *.
      apply andb_true_iff in He. destruct He as [Hc Hw].
      exists (String c ""), w. split; [reflexivity|].
      split; [now constructor | apply IH; split; [lia | assumption]].
Qed.

(** A string as its first [n] code units and the rest. *)
Lemma split_at (n : nat) (w : string) :
  n <= String.length w ->
  exists s t, w = s ++ t /\ String.length s = n.
Proof.
  revert w; induction n as [|n IH]; intros w H.
  - now exists "", w.
  - destruct w as [|c w]; simpl in H; [lia|].
    destruct (IH w) as (s & t & -> & Hl); [lia|].
    exists (String c s), t. simpl. now rewrite Hl.
Qed.

Lemma matches_Range_Cls (p : ascii -> bool) (lo hi : nat) (w : string) :
  lo <= hi ->
  matches (Range lo hi (Cls p)) w
  <-> lo <= String.length w <= hi /\ every p w = true.
Proof.
  intros Hlh. unfold Range. rewrite matches_Seq. split.
  - intros (s & t & -> & Hs & Ht). apply matches_Rep_Cls in Hs.
    apply matches_UpTo_Cls in Ht. destruct Hs as [Hl He], Ht as [Hl' He'].
    rewrite length_append, every_append, He, He'. split; [lia | reflexivity].
  - intros [Hl He]. destruct (@split_at lo w) as (s & t & -> & Hs); [lia|].
    rewrite every_append in He. apply andb_true_iff in He.
    rewrite length_append in Hl.
    exists s, t. split; [reflexivity|]. split.
    + apply matches_Rep_Cls. tauto.
    + apply matches_UpTo_Cls. split; [lia | tauto].
Qed.

Lemma matches_length (r : re) (w : string) :
  matches r w -> star_free r = true ->
  min_len r <= String.length w <= max_len r.
Proof.
  induction 1 as [|p c Hp|a b s t Ha IHa Hb IHb|a b s Ha IHa|a b s Hb IHb
                  | a | a s t Ha IHa Hs IHs]; simpl; intros Hf;
    try discriminate; try lia.
  - apply andb_true_iff in Hf. destruct Hf as [Hfa Hfb].
    rewrite length_append. specialize (IHa Hfa). specialize (IHb Hfb). lia.
  - apply andb_true_iff in Hf. destruct Hf as [Hfa Hfb].
    specialize (IHa Hfa). lia.
  - apply andb_true_iff in Hf. destruct Hf as [Hfa Hfb].
    specialize (IHb Hfb). lia.
Qed.

Lemma matches_within (q : ascii -> bool) (r : re) (w : string) :
  matches r w -> within q r -> every q w = true.
Proof.
  induction 1 as [|p c Hp|a b s t Ha IHa Hb IHb|a b s Ha IHa|a b s Hb IHb
                  | a | a s t Ha IHa Hs IHs]; simpl; intros Hq;
    try reflexivity.
  - now rewrite (Hq c Hp).
  - destruct Hq as [Hqa Hqb]. now rewrite every_append, IHa, IHb.
  - destruct Hq. auto.
  - destruct Hq. auto.
  - now rewrite every_append, IHa, IHs.
Qed.

Lemma dead_no_match (r : re) (w : string) :
  matches r w -> dead r = false.
Proof.
  induction 1; simpl; try reflexivity.
  - now rewrite IHmatches1, IHmatches2.
  - now rewrite IHmatches.
  - rewrite IHmatches. apply andb_false_r.
Qed.

End LanguageFacts.

(* ------------------------------------------------------------------ *)
(** ** What the two validation patterns accept *)

Module TrimFacts.
Import JsString Language LanguageFacts.

Lemma trimEnd_not_ws (s : string) : every not_ws s = true -> trimEnd s = s.
Proof.
  induction s as [|c s IH]; simpl; intros H; [reflexivity|].
  apply andb_true_iff in H. destruct H as [Hc Hs]. rewrite (IH Hs).
  unfold not_ws in Hc. apply negb_true_iff in Hc. rewrite Hc.
  now destruct s.
Qed.

Lemma trimStart_not_ws (s : string) : every not_ws s = true -> trimStart s = s.
Proof.
  destruct s as [|c s]; simpl; intros H; [reflexivity|].
  apply andb_true_iff in H. destruct H as [Hc _].
  unfold not_ws in Hc. apply negb_true_iff in Hc. now rewrite Hc.
Qed.

Lemma trim_not_ws (s : string) : every not_ws s = true -> trim s = s.
Proof.
  intros H. unfold trim. rewrite (trimStart_not_ws s H).
  now apply trimEnd_not_ws.
Qed.

Lemma ends_well_append (s t : string) : ends_well t -> ends_well (s ++ t).
Proof.
  intros [Hne Ht]. induction s as [|c s [IHne IH]]; [now split|].
  split; [discriminate|].
  change (String c s ++ t) with (String c (s ++ t)).
  cbn [trimEnd]. rewrite IH.
  destruct (s ++ t); [contradiction | reflexivity].
Qed.

Lemma trimEnd_idem (s : string) : trimEnd (trimEnd s) = trimEnd s.
Proof.
  induction s as [|c s IH]; simpl; [reflexivity|].
  destruct (trimEnd s) as [|c' s'] eqn:E.
  - destruct (is_ws c) eqn:Hc; simpl; [reflexivity | now rewrite Hc].
  - change (trimEnd (String c (String c' s')))
      with (match trimEnd (String c' s') with
            | EmptyString => if is_ws c then EmptyString else String c EmptyString
            | String x y => String c (String x y)
            end).
    now rewrite IH.
Qed.

Lemma trimStart_trimEnd (s : string) :
  trimStart s = s -> trimStart (trimEnd s) = trimEnd s.
Proof.
  destruct s as [|c s]; [reflexivity|]. intros H.
  assert (Hc : is_ws c = false).
  { simpl in H. destruct (is_ws c) eqn:Hc; [|reflexivity]. exfalso.
    assert (L : String.length (trimStart s) <= String.length s).
    { clear. induction s as [|a s IH]; simpl; [lia|].
      destruct (is_ws a); simpl; lia. }
    rewrite H in L. simpl in L. lia. }
  simpl. destruct (trimEnd s); simpl; rewrite ?Hc; simpl; rewrite ?Hc;
    reflexivity.
Qed.

Lemma trimStart_idem (s : string) : trimStart (trimStart s) = trimStart s.
Proof.
  induction s as [|c s IH]; simpl; [reflexivity|].
  destruct (is_ws c) eqn:Hc; [exact IH | simpl; now rewrite Hc].
Qed.

Lemma trim_idem (s : string) : trim (trim s) = trim s.
Proof.
  unfold trim.
  rewrite (trimStart_trimEnd (trimStart_idem s)).
  apply trimEnd_idem.
Qed.

Lemma lower_char_idem (c : ascii) : lower_char (lower_char c) = lower_char c.
Proof. destruct c as [[] [] [] [] [] [] [] []]; reflexivity. Qed.

Lemma toLowerCase_idem (s : string) :
  toLowerCase (toLowerCase s) = toLowerCase s.
Proof.
  unfold toLowerCase. induction s as [|c s IH]; simpl; [reflexivity|].
  now rewrite lower_char_idem, IH.
Qed.

Lemma trim_empty_length (s : string) :
  2 <= String.length (trim s) -> trim s <> "".
Proof. intros H E. rewrite E in H. simpl in H. lia. Qed.

End TrimFacts.

Module PatternFacts.
Import JsString RegExp Validation Language LanguageFacts TrimFacts.

Lemma not_space_at_not_ws (c : ascii) :
  not_space_at c = true -> not_ws c = true.
Proof.
  unfold not_space_at, not_ws. intros H. apply negb_true_iff in H.
  apply orb_false_iff in H. destruct H as [H _]. now rewrite H.
Qed.

Lemma emailRegex_within_not_ws : within not_ws emailRegex.
Proof.
  unfold emailRegex, Plus, Chr; cbn [within].
  repeat split; try exact not_space_at_not_ws;
    intros c H; apply Ascii.eqb_eq in H; now subst.
Qed.

(** An accepted email has no white space: trimming leaves it alone. *)
Lemma emailRegex_trim (s : string) :
  test emailRegex s = true -> trim s = s.
Proof.
  intros H. apply test_matches in H. apply trim_not_ws.
  exact (@matches_within not_ws _ _ H emailRegex_within_not_ws).
Qed.

Lemma emailRegex_shape (s : string) :
  test emailRegex s = true <-> email_shape s.
Proof.
  rewrite test_matches. unfold emailRegex, email_shape. split.
  - intros H.
    apply matches_Seq in H. destruct H as (l & r1 & -> & Hl & H).
    apply matches_Seq in H. destruct H as (a & r2 & -> & Ha & H).
    apply matches_Seq in H. destruct H as (d & r3 & -> & Hd & H).
    apply matches_Seq in H. destruct H as (o & t & -> & Ho & Ht).
    apply matches_Chr in Ha, Ho. subst a o.
    apply matches_Plus_Cls in Hl, Hd, Ht.
    exists l, d, t. tauto.
  - intros (l & d & t & -> & Hl & Hd & Ht & El & Ed & Et).
    apply matches_Seq. exists l, ("@" ++ d ++ "." ++ t).
    split; [reflexivity|]. split; [now apply matches_Plus_Cls|].
    apply matches_Seq. exists "@", (d ++ "." ++ t).
    split; [reflexivity|]. split; [now apply matches_Chr|].
    apply matches_Seq. exists d, ("." ++ t).
    split; [reflexivity|]. split; [now apply matches_Plus_Cls|].
    apply matches_Seq. exists ".", t.
    split; [reflexivity|]. split; [now apply matches_Chr|].
    now apply matches_Plus_Cls.
Qed.

Lemma digit_not_ws (c : ascii) : digit c = true -> not_ws c = true.
Proof.
  destruct c as [[] [] [] [] [] [] [] []]; intros H;
    try reflexivity; discriminate H.
Qed.

Lemma phoneRegex_first (c : ascii) :
  is_ws c = true -> dead (deriv c phoneRegex) = true.
Proof.
  destruct c as [[] [] [] [] [] [] [] []]; intros H;
    try reflexivity; discriminate H.
Qed.

Lemma phoneRegex_within : within phone_char phoneRegex.
Proof.
  unfold phoneRegex, Range, Opt, Chr; cbn [within Rep UpTo Nat.sub].
  repeat split; intros c H; unfold phone_char;
    try (apply Ascii.eqb_eq in H; subst c; reflexivity);
    rewrite H; rewrite ?orb_true_r; reflexivity.
Qed.

(** The last part of an accepted phone number: four to six digits. *)
Lemma phoneRegex_tail (s : string) :
  matches phoneRegex s ->
  exists front tail,
    s = front ++ tail /\ 4 <= String.length tail /\ every digit tail = true.
Proof.
  unfold phoneRegex. intros H.
  apply matches_Seq in H. destruct H as (s1 & r1 & -> & _ & H).
  apply matches_Seq in H. destruct H as (s2 & r2 & -> & _ & H).
  apply matches_Seq in H. destruct H as (s3 & r3 & -> & _ & H).
  apply matches_Seq in H. destruct H as (s4 & r4 & -> & _ & H).
  apply matches_Seq in H. destruct H as (s5 & r5 & -> & _ & H).
  apply matches_Seq in H. destruct H as (s6 & r6 & -> & _ & H).
  apply matches_Seq in H. destruct H as (s7 & tail & -> & _ & H).
  apply matches_Range_Cls in H; [|lia].
  exists (s1 ++ s2 ++ s3 ++ s4 ++ s5 ++ s6 ++ s7), tail.
  rewrite !append_assoc. split; [reflexivity|]. split; [lia | tauto].
Qed.

(** An accepted phone number neither starts nor ends with white space:
    trimming leaves it alone. *)
Lemma phoneRegex_trim (s : string) : test phoneRegex s = true -> trim s = s.
Proof.
  intros H. unfold trim.
  assert (Hs : trimStart s = s).
  { destruct s as [|c s]; [reflexivity|]. simpl.
    destruct (is_ws c) eqn:Hc; [|reflexivity].
    change (test (deriv c phoneRegex) s = true) in H.
    apply test_matches, dead_no_match in H.
    rewrite (phoneRegex_first c Hc) in H. discriminate. }
  rewrite Hs. apply test_matches in H.
  destruct (phoneRegex_tail H) as (front & tail & -> & Hl & Hd).
  apply ends_well_append. split.
  - intros E. rewrite E in Hl. simpl in Hl. lia.
  - apply trimEnd_not_ws.
    clear -Hd. induction tail as [|c t IH]; simpl in *; [reflexivity|].
    apply andb_true_iff in Hd. destruct Hd as [Hc Ht].
    now rewrite (digit_not_ws c Hc), IH.
Qed.

(** The phone pattern.  A phone number that the validation accepts has
    10 to 17 code units, all of them digits, separators, a plus sign or
    parentheses, and neither starts nor ends with white space; a string
    of 10 to 12 digits and nothing else is accepted. *)
Theorem phone_pattern_bounds (s : string) :
  (test phoneRegex s = true ->
   10 <= String.length s <= 17
   /\ every phone_char s = true
   /\ trim s = s)
  /\ (every digit s = true -> 10 <= String.length s <= 12 ->
      test phoneRegex s = true).
Proof.
  split.
  - intros H. pose proof (phoneRegex_trim s H) as Ht.
    apply test_matches in H. split; [|split; [|exact Ht]].
    + exact (matches_length H eq_refl).
    + exact (@matches_within phone_char _ _ H phoneRegex_within).
  - intros Hd Hl. apply test_matches.
    destruct (@split_at 3 s) as (a & r & -> & Ha); [lia|].
    rewrite length_append in Hl. rewrite every_append in Hd.
    apply andb_true_iff in Hd. destruct Hd as [Hda Hdr].
    destruct (@split_at 3 r) as (b & c & -> & Hb); [lia|].
    rewrite length_append in Hl. rewrite every_append in Hdr.
    apply andb_true_iff in Hdr. destruct Hdr as [Hdb Hdc].
    unfold phoneRegex.
    apply matches_Seq. exists "", (a ++ b ++ c). split; [reflexivity|].
    split; [apply matches_Opt; now left|].
    apply matches_Seq. exists "", (a ++ b ++ c). split; [reflexivity|].
    split; [apply matches_Opt; now left|].
    apply matches_Seq. exists a, (b ++ c). split; [reflexivity|].
    split; [now apply matches_Rep_Cls|].
    apply matches_Seq. exists "", (b ++ c). split; [reflexivity|].
    split; [apply matches_Opt; now left|].
    apply matches_Seq. exists "", (b ++ c). split; [reflexivity|].
    split; [apply matches_Opt; now left|].
    apply matches_Seq. exists b, c. split; [reflexivity|].
    split; [now apply matches_Rep_Cls|].
    apply matches_Seq. exists "", c. split; [reflexivity|].
    split; [apply matches_Opt; now left|].
    apply matches_Range_Cls; [lia|]. split; [lia | exact Hdc].
Qed.

(** The email pattern.  The validation accepts an email exactly when it
    is three parts, none empty and none with white space or an at sign,
    joined by one at sign and one dot: so it has exactly one at sign, a
    dot after it, and no white space. *)
Theorem email_pattern_shape (s : string) :
  test emailRegex s = true
  <-> exists l d t,
      s = l ++ "@" ++ d ++ "." ++ t
      /\ l <> "" /\ d <> "" /\ t <> ""
      /\ every not_space_at l = true
      /\ every not_space_at d = true
      /\ every not_space_at t = true.
Proof. exact (emailRegex_shape s). Qed.

End PatternFacts.

(* ------------------------------------------------------------------ *)
(** ** The routes beyond the claims *)

Module Coverage.
Import JsString RegExp Validation Rules Server Records.
Import JsStringFacts RegExpFacts ValidationFacts GatewayFacts RouteFacts.
Import Language LanguageFacts TrimFacts PatternFacts.

Section Routes.
Context {E : JsEngine} {D : MongoDriver}.

Lemma find_none_all {A} (f : A -> bool) (l : list A) :
  (forall x, In x l -> f x = false) -> List.find f l = None.
Proof.
  induction l as [|a l IH]; simpl; intros H; [reflexivity|].
  rewrite (H a) by now left. apply IH. intros x Hx. apply H. now right.
Qed.

Lemma existsb_id_true (i : ObjectId) (st : Store) :
  existsb (fun d => N.eqb (_id d) i) st = true ->
  exists before old after,
    st = (before ++ old :: after)%list /\ _id old = i
    /\ (forall x, In x before -> _id x <> i)
    /\ remove_first i st = (before ++ after)%list.
Proof.
  intros H.
  destruct (replace_first i (fun d => d) st) as [st1|] eqn:Hr.
  - destruct (replace_first_some _ _ _ Hr)
      as (b & old & a & Hst & Hid & Hb & _ & Hrem).
    exists b, old, a. auto.
  - apply existsb_exists in H. destruct H as (x & Hx & Hi).
    apply N.eqb_eq in Hi.
    exfalso. exact (proj1 (replace_first_none _ _ _) Hr x Hx Hi).
Qed.

Lemma existsb_id_false (i : ObjectId) (st : Store) :
  existsb (fun d => N.eqb (_id d) i) st = false <->
  forall x, In x st -> _id x <> i.
Proof.
  split.
  - intros H x Hx Hi.
    assert (Ht : existsb (fun d => N.eqb (_id d) i) st = true)
      by (apply existsb_exists; exists x; split;
          [exact Hx | now apply N.eqb_eq]).
    congruence.
  - intros H. destruct (existsb _ st) eqn:Ht; [|reflexivity].
    apply existsb_exists in Ht. destruct Ht as (x & Hx & Hi).
    apply N.eqb_eq in Hi. exfalso. exact (H x Hx Hi).
Qed.

Lemma find_id_none (i : ObjectId) (st : Store) :
  List.find (matches_query [IdEq i]) st = None <->
  forall x, In x st -> _id x <> i.
Proof.
  split.
  - intros H x Hx Hi. apply (find_none _ _ H) in Hx.
    apply matches_IdEq in Hi. congruence.
  - intros H. apply find_none_all. intros x Hx.
    destruct (matches_query [IdEq i] x) eqn:Hm; [|reflexivity].
    apply matches_IdEq in Hm. exfalso. exact (H x Hx Hm).
Qed.

Lemma NoDup_ids_split (before after : list Doc) (old : Doc) :
  NoDup (List.map _id (before ++ old :: after)) ->
  forall x, In x (before ++ after) -> _id x <> _id old.
Proof.
  rewrite map_app. simpl. intros H x Hx Hi.
  apply NoDup_remove_2 in H. apply H. rewrite <- map_app, <- Hi.
  now apply in_map.
Qed.

(** Delete, then Get or Delete again.  In a collection without two
    records of one id, a Delete answered 200 has removed the one record
    with that id and nothing else; a Get with the id then answers 404,
    and so does a second Delete. *)
Theorem delete_then_get_is_not_found id (st st' : Store) :
  NoDup (List.map _id st) ->
  delete_record id st = (Deleted, st') ->
  (exists before old after,
      st = (before ++ old :: after)%list
      /\ ObjectId_new id = Some (_id old)
      /\ st' = (before ++ after)%list)
  /\ get_record id st' = (NotFound, st')
  /\ delete_record id st' = (NotFound, st').
Proof.
  intros Hnd. rewrite delete_record_eq.
  destruct (ObjectId_isValid id) eqn:Hv; cbn [negb]; [|discriminate].
  destruct (ObjectId_new id) as [i|] eqn:Hn; [|discriminate].
  destruct (existsb _ st) eqn:Hex; [|discriminate].
  intros H. injection H as <-.
  destruct (existsb_id_true _ _ Hex) as (b & old & a & -> & <- & Hb & Hrem).
  rewrite Hrem.
  assert (Hnone : forall x, In x (b ++ a) -> _id x <> _id old)
    by now apply NoDup_ids_split.
  split; [exists b, old, a; auto|].
  rewrite get_record_eq, delete_record_eq, Hv, Hn. cbn [negb].
  rewrite (proj2 (find_id_none _ _) Hnone).
  now rewrite (proj2 (existsb_id_false _ _) Hnone).
Qed.

(** On an id that the driver accepts, Get and Delete answer 404 exactly
    when no record of the collection has the id; Delete then leaves the
    collection as it was. *)
Theorem not_found_iff_no_record id (i : ObjectId) (st : Store) :
  ObjectId_isValid id = true -> ObjectId_new id = Some i ->
  ((forall x, In x st -> _id x <> i) <-> get_record id st = (NotFound, st))
  /\ ((forall x, In x st -> _id x <> i)
      <-> delete_record id st = (NotFound, st)).
Proof.
  intros Hv Hn. rewrite get_record_eq, delete_record_eq, Hv, Hn. cbn [negb].
  split.
  - rewrite <- find_id_none. destruct (List.find _ st); split; intros H;
      try reflexivity; discriminate H.
  - rewrite <- existsb_id_false. destruct (existsb _ st); split; intros H;
      try reflexivity; discriminate H.
Qed.


(** Create answers 201 exactly when the payload passes validation, its
    phone and its notes are each undefined, null or a string, no record
    holds its normalised email and the id drawn by the driver is new;
    the collection then gains the normalised record at its end. *)
Theorem create_succeeds_iff
        t_created t_updated fresh (data : Body) (st : Store) :
  (validateStudent data = Some []
   /\ text_or_absent (b_phone data) = true
   /\ text_or_absent (b_notes data) = true
   /\ (forall x, In x st -> email x <> normal_email (b_email data))
   /\ (forall x, In x st -> _id x <> fresh))
  <-> post_records t_created t_updated fresh data st
      = (Created (normalized fresh t_created t_updated data),
         (st ++ [normalized fresh t_created t_updated data])%list).
Proof.
  rewrite post_records_eq. split.
  - intros (Hv & Hp & Ho & He & Hi).
    rewrite Hv, (valid_trimmable data Hv Hp Ho).
    rewrite find_none_all.
    + cbv zeta. destruct (duplicate_key _ st) eqn:Hd; [|reflexivity].
      unfold duplicate_key in Hd. apply existsb_exists in Hd.
      destruct Hd as (x & Hx & Hd). apply orb_true_iff in Hd.
      destruct Hd as [Hd|Hd].
      * apply N.eqb_eq in Hd. exfalso. exact (Hi x Hx Hd).
      * apply String.eqb_eq in Hd. exfalso. exact (He x Hx Hd).
    + intros x Hx. destruct (matches_query _ x) eqn:Hm; [|reflexivity].
      apply matches_EmailEq in Hm. exfalso. exact (He x Hx Hm).
  - destruct (validateStudent data) as [[|]|] eqn:Hv;
      [|discriminate|discriminate].
    destruct (trimmable data) eqn:Ht; [|discriminate].
    rewrite (valid_trimmable_eq data Hv) in Ht.
    apply andb_true_iff in Ht. destruct Ht as [Hp Ho].
    destruct (List.find _ st) eqn:Hf; [discriminate|]. cbv zeta.
    destruct (duplicate_key _ st) eqn:Hd; [discriminate|]. intros _.
    split; [reflexivity|]. split; [exact Hp|]. split; [exact Ho|].
    split; intros x Hx.
    + intros He. apply (find_none _ _ Hf) in Hx.
      apply matches_EmailEq in He. congruence.
    + exact (proj1 (Properties.duplicate_key_false _ _ Hd x Hx)).
Qed.

(** Create is not idempotent.  After a Create answered 201, a Create
    whose payload passes validation and has the same normalised email
    (the same payload, or one that differs in letter case or outer white
    space) is never answered 201 and changes nothing: it is answered 409
    when its phone and its notes are each undefined, null or a string,
    and 500 when one of them is anything else. *)
Theorem create_again_conflicts
        t_created t_updated fresh (data : Body) (st st' : Store) (d : Doc)
        t_created' t_updated' fresh' (data' : Body) :
  post_records t_created t_updated fresh data st = (Created d, st') ->
  validateStudent data' = Some [] ->
  normal_email (b_email data') = normal_email (b_email data) ->
  post_records t_created' t_updated' fresh' data' st'
  = (if text_or_absent (b_phone data') && text_or_absent (b_notes data')
     then Conflict else InternalError, st').
Proof.
  rewrite post_records_eq.
  destruct (validateStudent data) as [[|]|];
    [|discriminate|discriminate].
  destruct (trimmable data); [|discriminate].
  destruct (List.find _ st); [discriminate|]. cbv zeta.
  destruct (duplicate_key _ st); [discriminate|].
  intros [= <- <-] Hv He.
  rewrite post_records_eq, Hv, (valid_trimmable_eq data' Hv).
  destruct (text_or_absent (b_phone data') && text_or_absent (b_notes data'));
    [|reflexivity].
  destruct (List.find _ _) eqn:Hf; [reflexivity|].
  assert (Hin : In (normalized fresh t_created t_updated data)
                   (st ++ [normalized fresh t_created t_updated data]))
    by (apply in_or_app; right; now left).
  apply (find_none _ _ Hf) in Hin.
  assert (matches_query [EmailEq (normal_email (b_email data'))]
            (normalized fresh t_created t_updated data) = true)
    by (apply matches_EmailEq; now rewrite He).
  congruence.
Qed.

(** Update, then Get: whenever Update answers 200, it carries a record,
    and a Get with the same id answers 200 with that record. *)
Theorem update_then_get t_updated id (data : Body) (st st' : Store) x :
  put_record t_updated id data st = (Updated x, st') ->
  exists d, x = Some d /\ get_record id st' = (Found d, st').
Proof.
  rewrite put_record_eq, get_record_eq.
  destruct (ObjectId_isValid id); cbn [negb]; [|discriminate].
  destruct (validateStudent data) as [[|]|];
    [|discriminate|discriminate].
  destruct (trimmable data); [|discriminate].
  destruct (ObjectId_new id) as [i|]; [|discriminate].
  destruct (List.find _ st); [discriminate|].
  destruct (replace_first i _ st) as [st1|] eqn:Hr; [|discriminate].
  destruct (existsb _ _); [discriminate|].
  intros [= <- <-].
  destruct (replace_first_some _ _ _ Hr)
    as (b & old & a & -> & Hid & Hb & -> & _).
  rewrite find_first_id by auto. eauto.
Qed.

(** Update cannot take the email of another record: when the payload
    passes validation and a record with a different id holds its
    normalised email, Update is never answered 200 and changes nothing,
    whether or not the id matches a record: it is answered 409 when the
    phone and the notes of the payload are each undefined, null or a
    string, and 500 when one of them is anything else. *)
Theorem update_to_taken_email_conflicts
        t_updated id (i : ObjectId) (data : Body) (st : Store) (d : Doc) :
  ObjectId_isValid id = true -> ObjectId_new id = Some i ->
  validateStudent data = Some [] ->
  In d st -> _id d <> i -> email d = normal_email (b_email data) ->
  put_record t_updated id data st
  = (if text_or_absent (b_phone data) && text_or_absent (b_notes data)
     then Conflict else InternalError, st).
Proof.
  intros Hv Hn Hval Hd Hi He.
  rewrite put_record_eq, Hv, Hval, (valid_trimmable_eq data Hval), Hn.
  cbn [negb].
  destruct (text_or_absent (b_phone data) && text_or_absent (b_notes data));
    [|reflexivity].
  destruct (List.find _ st) eqn:Hf; [reflexivity|].
  apply (find_none _ _ Hf) in Hd.
  assert (matches_query [EmailEq (normal_email (b_email data)); IdNe i] d
          = true) by (apply matches_other_email; auto).
  congruence.
Qed.

Lemma build_filter_none (search fee : option string) :
  supplied search = None -> supplied fee = None -> build_filter search fee = [].
Proof. intros Hs Hf. unfold build_filter. now rewrite Hs, Hf. Qed.

(** List without filters.  When search and status are absent or empty
    and the route answers 200, the answer holds every record of the
    collection, once each, in the order the store sorted them, and its
    count is the size of the collection. *)
Theorem list_without_filter
        (search fee sortBy sortOrder : option string) (st st' : Store)
        (r : Response) :
  supplied search = None -> supplied fee = None ->
  (forall k dir l l', sort_docs k dir l = Some l' -> Permutation l' l) ->
  get_records search fee sortBy sortOrder st = (r, st') ->
  status r = 200 ->
  st' = st
  /\ exists l, r = Listed (List.length st) l /\ Permutation l st.
Proof.
  intros Hs Hf Hsort. rewrite Properties.get_records_eq. cbv zeta.
  rewrite (build_filter_none _ _ Hs Hf). cbn [forallb].
  destruct (sort_docs _ _ _) as [l|] eqn:Hl;
    [|intros [= <- <-]; discriminate].
  intros [= <- <-] _. split; [reflexivity|]. exists l.
  apply Hsort in Hl. cbn in Hl.
  assert (Hst : List.filter (fun _ : Doc => true) st = st)
    by (clear; induction st as [|a l IH]; simpl; [|rewrite IH]; reflexivity).
  unfold matches_query in Hl. cbn in Hl. rewrite Hst in Hl.
  split; [|exact Hl]. now rewrite (Permutation_length Hl).
Qed.

Lemma build_filter_status (search : option string) (fee : string) :
  supplied search = None -> fee <> "" ->
  build_filter search (Some fee) = [FeeStatusEq fee].
Proof.
  intros Hs Hf. unfold build_filter. rewrite Hs. cbn [supplied].
  apply String.eqb_neq in Hf. now rewrite Hf.
Qed.

Lemma build_filter_search (search : string) (fee : option string) :
  search <> "" -> supplied fee = None ->
  build_filter (Some search) fee
  = [Or [RegexI F_name search; RegexI F_email search; RegexI F_course search]].
Proof.
  intros Hs Hf. unfold build_filter. rewrite Hf. cbn [supplied].
  apply String.eqb_neq in Hs. now rewrite Hs.
Qed.

Lemma matches_status (fee : string) (d : Doc) :
  matches_query [FeeStatusEq fee] d = true <-> feeStatus d = JStr fee.
Proof.
  unfold matches_query; simpl. rewrite andb_true_r.
  destruct (feeStatus d) as [| |b|n|s|l|o];
    try (split; [discriminate | intros H; discriminate H]).
  rewrite String.eqb_eq. split; [now intros -> | intros H; now injection H].
Qed.

Lemma matches_search (search : string) (d : Doc) :
  matches_query [Or [RegexI F_name search; RegexI F_email search;
                     RegexI F_course search]] d = true
  <-> regex_matches search (name d) = true
      \/ regex_matches search (email d) = true
      \/ regex_matches search (course d) = true.
Proof.
  unfold matches_query; simpl.
  now rewrite andb_true_r, orb_false_r, !orb_true_iff.
Qed.

(** List with one filter.  With a status and no search, a 200 answer
    holds exactly the records whose feeStatus is that status; with a
    search term and no status, exactly the records whose name, email or
    course matches the term under the store's case-insensitive [$regex]. *)
Theorem list_with_one_filter
        (x : string) (other sortBy sortOrder : option string)
        (st : Store) :
  x <> "" -> supplied other = None ->
  (forall k dir l l', sort_docs k dir l = Some l' -> Permutation l' l) ->
  (forall r st',
      get_records other (Some x) sortBy sortOrder st = (r, st') ->
      status r = 200 ->
      exists l, r = Listed (List.length l) l
                /\ forall d, In d l <-> In d st /\ feeStatus d = JStr x)
  /\ (forall r st',
         get_records (Some x) other sortBy sortOrder st = (r, st') ->
         status r = 200 ->
         exists l, r = Listed (List.length l) l
                   /\ forall d,
                       In d l <->
                       In d st
                       /\ (regex_matches x (name d) = true
                           \/ regex_matches x (email d) = true
                           \/ regex_matches x (course d) = true)).
Proof.
  intros Hx Ho Hsort. split; intros r st'; rewrite Properties.get_records_eq;
    cbv zeta.
  - rewrite (build_filter_status _ Ho Hx).
    destruct (forallb well_formed _); [|intros [= <- <-]; discriminate].
    destruct (sort_docs _ _ _) as [l|] eqn:Hl;
      [|intros [= <- <-]; discriminate].
    intros [= <- <-] _. exists l. split; [reflexivity|]. intros d.
    rewrite <- matches_status, <- filter_In. apply Hsort in Hl.
    split; intros H.
    + eapply Permutation_in; [exact Hl | exact H].
    + eapply Permutation_in; [symmetry; exact Hl | exact H].
  - rewrite (build_filter_search _ Hx Ho).
    destruct (forallb well_formed _); [|intros [= <- <-]; discriminate].
    destruct (sort_docs _ _ _) as [l|] eqn:Hl;
      [|intros [= <- <-]; discriminate].
    intros [= <- <-] _. exists l. split; [reflexivity|]. intros d.
    rewrite <- matches_search, <- filter_In. apply Hsort in Hl.
    split; intros H.
    + eapply Permutation_in; [exact Hl | exact H].
    + eapply Permutation_in; [symmetry; exact Hl | exact H].
Qed.

Lemma rule_of (data : Body) (r : bool) :
  validateStudent data = Some [] -> In r (rules data) -> r = true.
Proof. intros H. apply validateStudent_empty in H. apply H. Qed.

(** The record that a validated, trimmable payload describes is well
    formed. *)
Lemma normalized_well_formed i t_created t_updated (data : Body) :
  validateStudent data = Some [] -> trimmable data = true ->
  well_formed_record (normalized i t_created t_updated data).
Proof.
  intros Hv Ht.
  assert (Hn : text_rule (b_name data) = true)
    by (apply (@rule_of data _ Hv); unfold rules; simpl; tauto).
  assert (He : email_rule (b_email data) = true)
    by (apply (@rule_of data _ Hv); unfold rules; simpl; tauto).
  assert (Hp : phone_rule (b_phone data) = true)
    by (apply (@rule_of data _ Hv); unfold rules; simpl; tauto).
  assert (Hc : text_rule (b_course data) = true)
    by (apply (@rule_of data _ Hv); unfold rules; simpl; tauto).
  assert (Hf : feeStatus_rule (b_feeStatus data) = true)
    by (apply (@rule_of data _ Hv); unfold rules; simpl; tauto).
  assert (Hj : joinDate_rule (b_joinDate data) = true)
    by (apply (@rule_of data _ Hv); unfold rules; simpl; tauto).
  unfold trimmable in Ht. rewrite !andb_true_iff in Ht.
  destruct Ht as ((((_ & _) & Tp) & _) & To).
  destruct data as [n e p c f j o]; unfold well_formed_record, normalized;
    cbn [b_name b_email b_phone b_course b_feeStatus b_joinDate b_notes
         name email phone course feeStatus joinDate notes] in *.
  destruct n as [| | | |n| |]; try discriminate Hn.
  destruct e as [| | | |e| |]; try discriminate He.
  destruct c as [| | | |c| |]; try discriminate Hc.
  destruct f as [| | | |f| |]; try discriminate Hf.
  cbn [text_rule email_rule normal_text normal_email] in *.
  apply Nat.leb_le in Hn, Hc.
  split; [apply trim_idem|]. split; [exact Hn|].
  rewrite (emailRegex_trim e He).
  split; [now rewrite emailRegex_toLowerCase|].
  split; [apply toLowerCase_idem|].
  split.
  { destruct p as [| | | |p| |]; try discriminate Tp; try (now left).
    cbn [normal_text]. unfold phone_rule in Hp. cbn [truthy ToString] in Hp.
    destruct (String.eqb_spec p "") as [->|Hne]; [now left|].
    cbn [negb] in Hp. right. now rewrite (phoneRegex_trim p Hp). }
  split; [apply trim_idem|]. split; [exact Hc|].
  split.
  { exists f. split; [reflexivity|]. unfold feeStatus_rule in Hf.
    rewrite !orb_true_iff, !String.eqb_eq in Hf. unfold validStatuses.
    simpl. intuition auto. }
  split.
  { unfold joinDate_rule in Hj. apply andb_true_iff in Hj.
    destruct Hj as [_ Hj]. unfold normal_date.
    destruct (Date_new j) as [[t|]|];
      [discriminate | discriminate Hj | discriminate Hj]. }
  destruct o as [| | | |o| |]; try discriminate To; try reflexivity.
  apply trim_idem.
Qed.

Lemma Forall_remove_first (P : Doc -> Prop) (i : ObjectId) (st : Store) :
  Forall P st -> Forall P (remove_first i st).
Proof.
  intros H. apply Forall_forall. intros x Hx.
  apply (proj1 (Forall_forall P st) H).
  now apply (Properties.remove_first_incl i st).
Qed.

(** Every record of the collection stays well formed: if all records
    are as Create and Update write them (trimmed name and course of two
    code units or more, lower-case email of the accepted shape, phone
    empty or an accepted phone number, one of the four fee statuses, a
    valid join date), then so are all records after any Create, Update
    or Delete. *)
Theorem routes_keep_records_well_formed (st : Store) :
  Forall well_formed_record st ->
  (forall t_created t_updated fresh data,
      Forall well_formed_record
             (snd (post_records t_created t_updated fresh data st)))
  /\ (forall t_updated id data,
         Forall well_formed_record (snd (put_record t_updated id data st)))
  /\ (forall id, Forall well_formed_record (snd (delete_record id st))).
Proof.
  intros Hst. split; [|split].
  - intros. rewrite post_records_eq.
    destruct (validateStudent data) as [[|]|] eqn:Hv;
    [|exact Hst|exact Hst].
    destruct (trimmable data) eqn:Ht; [|exact Hst].
    destruct (List.find _ st); [exact Hst|]. cbv zeta.
    destruct (duplicate_key _ st); [exact Hst|]. simpl.
    apply Forall_app. split; [exact Hst|].
    constructor; [now apply normalized_well_formed | constructor].
  - intros. rewrite put_record_eq.
    destruct (ObjectId_isValid id); cbn [negb]; [|exact Hst].
    destruct (validateStudent data) as [[|]|] eqn:Hv;
    [|exact Hst|exact Hst].
    destruct (trimmable data) eqn:Ht; [|exact Hst].
    destruct (ObjectId_new id) as [i|]; [|exact Hst].
    destruct (List.find _ st); [exact Hst|].
    destruct (replace_first i _ st) as [st1|] eqn:Hr; [|exact Hst].
    destruct (existsb _ _); [exact Hst|]. simpl.
    destruct (replace_first_some _ _ _ Hr)
      as (b & old & a & -> & Hid & Hb & -> & _).
    apply Forall_app in Hst. destruct Hst as [Hb' Ha'].
    inversion Ha' as [|? ? _ Ha'']; subst.
    apply Forall_app. split; [exact Hb'|]. constructor; [|exact Ha''].
    change (apply_set (update_of t_updated data) old)
      with (normalized (_id old) (createdAt old) t_updated data).
    now apply normalized_well_formed.
  - intros. rewrite delete_record_eq.
    destruct (ObjectId_isValid id); cbn [negb]; [|exact Hst].
    destruct (ObjectId_new id) as [i|]; [|exact Hst].
    destruct (existsb _ st); [|exact Hst]. simpl.
    now apply Forall_remove_first.
Qed.

(** The statuses of the routes.  Create answers 201, 400, 409 or 500
    and nothing else; Update 200, 400, 404, 409 or 500; Get and Delete
    200, 400, 404 or 500; List 200 or 500. *)
Theorem routes_answer_only_their_statuses (st : Store) :
  (forall t_created t_updated fresh data,
      In (status (fst (post_records t_created t_updated fresh data st)))
         [201; 400; 409; 500])
  /\ (forall t_updated id data,
         In (status (fst (put_record t_updated id data st)))
            [200; 400; 404; 409; 500])
  /\ (forall id, In (status (fst (get_record id st))) [200; 400; 404; 500])
  /\ (forall id, In (status (fst (delete_record id st))) [200; 400; 404; 500])
  /\ (forall search fee sortBy sortOrder,
         In (status (fst (get_records search fee sortBy sortOrder st)))
            [200; 500]).
Proof.
  split; [|split; [|split; [|split]]]; intros.
  - rewrite post_records_eq.
    destruct (validateStudent data) as [[|]|];
    [|simpl; tauto|simpl; tauto].
    destruct (trimmable data); [|simpl; tauto].
    destruct (List.find _ st); [simpl; tauto|]. cbv zeta.
    destruct (duplicate_key _ st); simpl; tauto.
  - rewrite put_record_eq.
    destruct (ObjectId_isValid id); cbn [negb]; [|simpl; tauto].
    destruct (validateStudent data) as [[|]|];
    [|simpl; tauto|simpl; tauto].
    destruct (trimmable data); [|simpl; tauto].
    destruct (ObjectId_new id); [|simpl; tauto].
    destruct (List.find _ st); [simpl; tauto|].
    destruct (replace_first _ _ st); [|simpl; tauto].
    destruct (existsb _ _); simpl; tauto.
  - rewrite get_record_eq.
    destruct (ObjectId_isValid id); cbn [negb]; [|simpl; tauto].
    destruct (ObjectId_new id); [|simpl; tauto].
    destruct (List.find _ st); simpl; tauto.
  - rewrite delete_record_eq.
    destruct (ObjectId_isValid id); cbn [negb]; [|simpl; tauto].
    destruct (ObjectId_new id); [|simpl; tauto].
    destruct (existsb _ st); simpl; tauto.
  - rewrite Properties.get_records_eq. cbv zeta.
    destruct (forallb well_formed _); [|simpl; tauto].
    destruct (sort_docs _ _ _); simpl; tauto.
Qed.

Lemma remove_first_last (i : ObjectId) (st : Store) (d : Doc) :
  (forall x, In x st -> _id x <> i) -> _id d = i ->
  remove_first i (st ++ [d])%list = st.
Proof.
  intros Hst Hd. induction st as [|a l IH]; simpl.
  - apply N.eqb_eq in Hd. now rewrite Hd.
  - destruct (N.eqb_spec (_id a) i) as [Hi|_].
    + exfalso. apply (Hst a); [now left | exact Hi].
    + rewrite IH; [reflexivity|]. intros x Hx. apply Hst. now right.
Qed.

(** Create, then Delete.  After a Create answered 201, a Delete with an
    id string that denotes the assigned id is answered 200 and gives back
    the collection as it was before the Create. *)
Theorem create_then_delete_restores
        t_created t_updated fresh (data : Body) (st st' : Store) (d : Doc) id :
  post_records t_created t_updated fresh data st = (Created d, st') ->
  ObjectId_isValid id = true -> ObjectId_new id = Some (_id d) ->
  delete_record id st' = (Deleted, st).
Proof.
  rewrite post_records_eq.
  destruct (validateStudent data) as [[|]|];
    [|discriminate|discriminate].
  destruct (trimmable data); [|discriminate].
  destruct (List.find _ st); [discriminate|]. cbv zeta.
  destruct (duplicate_key _ st) eqn:Hd; [discriminate|].
  intros [= <- <-] Hv Hn. rewrite delete_record_eq, Hv, Hn. cbn [negb].
  assert (Hex : existsb (fun x => N.eqb (_id x) fresh)
                        (st ++ [normalized fresh t_created t_updated data])%list
                = true).
  { apply existsb_exists. exists (normalized fresh t_created t_updated data).
    split; [apply in_or_app; right; now left | apply N.eqb_refl]. }
  cbn [_id normalized] in *. rewrite Hex. f_equal.
  apply remove_first_last; [|reflexivity].
  intros x Hx. exact (proj1 (Properties.duplicate_key_false _ _ Hd x Hx)).
Qed.

(** Update is idempotent.  After an Update answered 200, the same Update
    again (at any clock reading) is answered as it would have been on the
    collection before the first one, and leaves the collection that it
    would have left: repeated at the same clock reading, it changes
    nothing. *)
Theorem update_again_is_the_same_update
        t_updated t_updated' id (data : Body) (st st' : Store) x :
  put_record t_updated id data st = (Updated x, st') ->
  put_record t_updated' id data st' = put_record t_updated' id data st
  /\ put_record t_updated id data st' = (Updated x, st').
Proof.
  intros H.
  assert (G : forall t, put_record t id data st' = put_record t id data st).
  { intros t. revert H. rewrite !put_record_eq.
    destruct (ObjectId_isValid id); cbn [negb]; [|discriminate].
    destruct (validateStudent data) as [[|]|];
    [|discriminate|discriminate].
    destruct (trimmable data); [|discriminate].
    destruct (ObjectId_new id) as [i|]; [|discriminate].
    destruct (List.find _ st) eqn:Hf; [discriminate|].
    destruct (replace_first i (apply_set (update_of t_updated data)) st)
      as [st1|] eqn:Hr; [|discriminate].
    destruct (existsb _ (remove_first i st)) eqn:Hx; [discriminate|].
    intros [= <- <-].
    destruct (replace_first_some _ _ _ Hr)
      as (b & old & a & -> & Hid & Hb & -> & Hrem).
    remember (apply_set (update_of t_updated data) old) as new eqn:Enew.
    assert (Hnew : _id new = i) by (now rewrite Enew).
    assert (Hf' : List.find (matches_query
                     [EmailEq (normal_email (b_email data)); IdNe i])
                    (b ++ new :: a)%list = None).
    { apply find_none_all. intros y Hy.
      apply in_app_or in Hy. destruct Hy as [Hy|[<-|Hy]].
      - apply (find_none _ _ Hf). apply in_or_app. now left.
      - destruct (matches_query _ new) eqn:Hm; [|reflexivity].
        apply matches_other_email in Hm. destruct Hm as [_ Hm].
        contradiction.
      - apply (find_none _ _ Hf). apply in_or_app. right. now right. }
    rewrite Hf'.
    assert (Hrep : forall g, replace_first i g (b ++ old :: a)%list
                             = Some (b ++ g old :: a)%list).
    { intros g. clear -Hid Hb. induction b as [|y b IH]; simpl.
      - apply N.eqb_eq in Hid. now rewrite Hid.
      - destruct (N.eqb_spec (_id y) i) as [Hy|_].
        + exfalso. apply (Hb y); [now left | exact Hy].
        + rewrite IH; [reflexivity|]. intros z Hz. apply Hb. now right. }
    assert (Hrep' : forall g, replace_first i g (b ++ new :: a)%list
                              = Some (b ++ g new :: a)%list).
    { intros g. clear -Hnew Hb. induction b as [|y b IH]; simpl.
      - apply N.eqb_eq in Hnew. now rewrite Hnew.
      - destruct (N.eqb_spec (_id y) i) as [Hy|_].
        + exfalso. apply (Hb y); [now left | exact Hy].
        + rewrite IH; [reflexivity|]. intros z Hz. apply Hb. now right. }
    assert (Hrem' : remove_first i (b ++ new :: a)%list = (b ++ a)%list).
    { clear -Hnew Hb. induction b as [|y b IH]; simpl.
      - apply N.eqb_eq in Hnew. now rewrite Hnew.
      - destruct (N.eqb_spec (_id y) i) as [Hy|_].
        + exfalso. apply (Hb y); [now left | exact Hy].
        + rewrite IH; [reflexivity|]. intros z Hz. apply Hb. now right. }
    rewrite Hrep, Hrep', Hrem', <- Hrem, Hx. subst new. reflexivity. }
  split; [apply G|]. now rewrite G.
Qed.

End Routes.
End Coverage.

(* ------------------------------------------------------------------ *)
(** ** The client beyond the claims *)

Module ClientCoverage.
Import JsString RegExp Validation Rules Server.
Import JsStringFacts ValidationFacts GatewayFacts RouteFacts.
Import Language LanguageFacts TrimFacts PatternFacts.

(** The flag of [validateForm], condition by condition. *)
Lemma validateForm_flag (f : Form.Inputs) :
  fst (Form.validateForm f)
  = negb (trim (Form.name f) =? "")
    && negb (String.length (trim (Form.name f)) <? 2)%nat
    && negb (trim (Form.email f) =? "")
    && Form.isValidEmail (trim (Form.email f))
    && ((trim (Form.phone f) =? "") || Form.isValidPhone (trim (Form.phone f)))
    && negb (trim (Form.course f) =? "")
    && negb (Form.feeStatus f =? "")
    && negb (Form.joinDate f =? "").
Proof.
  unfold Form.validateForm. cbv zeta.
  destruct (trim (Form.name f) =? "");
    destruct (String.length (trim (Form.name f)) <? 2)%nat;
    destruct (trim (Form.email f) =? "");
    destruct (Form.isValidEmail (trim (Form.email f)));
    destruct (trim (Form.phone f) =? "");
    destruct (Form.isValidPhone (trim (Form.phone f)));
    destruct (trim (Form.course f) =? "");
    destruct (Form.feeStatus f =? "");
    destruct (Form.joinDate f =? ""); reflexivity.
Qed.

Lemma length_two_not_empty (s : string) :
  (2 <=? String.length s)%nat = true -> (s =? "") = false.
Proof. destruct s; [discriminate | reflexivity]. Qed.

Lemma emailRegex_not_empty (s : string) :
  test emailRegex s = true -> (s =? "") = false.
Proof. destruct s; [discriminate | reflexivity]. Qed.

Lemma feeStatus_rule_In {E : JsEngine} (s : string) :
  feeStatus_rule (JStr s) = true <-> In s validStatuses.
Proof.
  unfold feeStatus_rule, validStatuses. simpl.
  rewrite !orb_true_iff, !String.eqb_eq. intuition auto.
Qed.

Section WithEngine.
Context {E : JsEngine}.

(** Client and server validation.  The server accepts the payload that
    the form sends exactly when the form passes [validateForm] and,
    beyond what the client checks, the trimmed course has two code units
    or more, the fee status is one of the four values and the join date
    parses. *)
Theorem server_accepts_form_iff (f : Form.Inputs) :
  validateStudent (Form.studentData f) = Some []
  <-> fst (Form.validateForm f) = true
      /\ 2 <= String.length (trim (Form.course f))
      /\ In (Form.feeStatus f) validStatuses
      /\ Date_parse (Form.joinDate f) <> None.
Proof.
  rewrite validateStudent_empty, validateForm_flag.
  unfold satisfies_every_rule, rules, Form.studentData.
  cbn [b_name b_email b_phone b_course b_feeStatus b_joinDate b_notes].
  rewrite !RouteFacts.or_empty_some.
  unfold text_rule, email_rule, phone_rule, joinDate_rule, notes_rule,
    Form.isValidEmail, Form.isValidPhone.
  cbn [truthy typeof_string ToString Date_new]. rewrite !trim_idem.
  rewrite <- feeStatus_rule_In.
  split.
  - intros H.
    assert (Hn := H _ (or_introl eq_refl)).
    assert (He := H _ (or_intror (or_introl eq_refl))).
    assert (Hp := H _ (or_intror (or_intror (or_introl eq_refl)))).
    assert (Hc := H _ (or_intror (or_intror (or_intror (or_introl eq_refl))))).
    assert (Hf := H _ (or_intror (or_intror (or_intror (or_intror
                         (or_introl eq_refl)))))).
    assert (Hj := H _ (or_intror (or_intror (or_intror (or_intror
                         (or_intror (or_introl eq_refl))))))).
    clear H. apply andb_true_iff in Hj. destruct Hj as [Hj1 Hj2].
    rewrite (length_two_not_empty _ Hn), (length_two_not_empty _ Hc).
    rewrite (emailRegex_not_empty _ He), He, Hj1.
    rewrite Nat.ltb_antisym, Hn.
    assert (Hfe : (Form.feeStatus f =? "") = false).
    { apply feeStatus_rule_In in Hf. apply String.eqb_neq. intros E0.
      rewrite E0 in Hf. simpl in Hf. intuition discriminate. }
    rewrite Hfe. cbn [negb andb].
    split.
    { destruct (trim (Form.phone f) =? ""); [reflexivity|].
      cbn [negb] in Hp. now rewrite Hp. }
    split; [now apply Nat.leb_le|]. split; [exact Hf|].
    destruct (Date_parse (Form.joinDate f)); [discriminate | discriminate Hj2].
  - intros (Hflag & Hc & Hf & Hj).
    rewrite !andb_true_iff, !negb_true_iff in Hflag.
    destruct Hflag as (((((((Hn0 & Hn) & He0) & He) & Hp) & Hc0) & Hf0) & Hj0).
    rewrite Nat.ltb_antisym in Hn. apply negb_false_iff in Hn.
    intros r [<-|[<-|[<-|[<-|[<-|[<-|[<-|[]]]]]]]].
    + exact Hn.
    + exact He.
    + destruct (trim (Form.phone f) =? ""); [reflexivity|].
      cbn [negb]. exact Hp.
    + now apply Nat.leb_le.
    + exact Hf.
    + rewrite Hj0. cbn [negb andb].
      destruct (Date_parse (Form.joinDate f)); [reflexivity | contradiction].
    + now destruct (negb _).
Qed.

End WithEngine.

Section WithDriver.
Context {E : JsEngine} {D : MongoDriver}.

Lemma studentData_trimmable (f : Form.Inputs) :
  trimmable (Form.studentData f) = true.
Proof. reflexivity. Qed.



(** From the form to the collection.  When the server accepts the
    payload of the form, no record holds its email and the id drawn by
    the driver is new, Create stores, at the end of the collection, the
    record with the trimmed name, course, phone and notes of the form,
    its trimmed and lower-cased email, its fee status and its parsed join
    date, and answers 201 with it. *)
Theorem form_creates_record
        t_created t_updated fresh (f : Form.Inputs) (st : Store) :
  validateStudent (Form.studentData f) = Some [] ->
  (forall x, In x st -> email x <> toLowerCase (trim (Form.email f))) ->
  (forall x, In x st -> _id x <> fresh) ->
  let d := mkDoc fresh (trim (Form.name f))
                 (toLowerCase (trim (Form.email f)))
                 (trim (Form.phone f)) (trim (Form.course f))
                 (JStr (Form.feeStatus f)) (Date_parse (Form.joinDate f))
                 (trim (Form.notes f)) t_created t_updated in
  post_records t_created t_updated fresh (Form.studentData f) st
  = (Created d, (st ++ [d])%list).
Proof.
  intros Hv He Hi d.
  assert (Hd : normalized fresh t_created t_updated (Form.studentData f) = d).
  { unfold normalized, Form.studentData, d.
    cbn [b_name b_email b_phone b_course b_feeStatus b_joinDate b_notes
         normal_text normal_email Date_new].
    now rewrite !RouteFacts.or_empty_some, !trim_idem. }
  assert (Hem : normal_email (b_email (Form.studentData f))
                = toLowerCase (trim (Form.email f))).
  { unfold Form.studentData. cbn [b_email normal_email]. now rewrite trim_idem. }
  rewrite post_records_eq, Hv, studentData_trimmable, Hem.
  rewrite Coverage.find_none_all.
  - cbv zeta. rewrite Hd.
    destruct (duplicate_key d st) eqn:Hk; [|reflexivity].
    unfold duplicate_key in Hk. apply existsb_exists in Hk.
    destruct Hk as (x & Hx & Hk). apply orb_true_iff in Hk.
    destruct Hk as [Hk|Hk].
    + apply N.eqb_eq in Hk. exfalso. exact (Hi x Hx Hk).
    + apply String.eqb_eq in Hk. exfalso. exact (He x Hx Hk).
  - intros x Hx. destruct (matches_query _ x) eqn:Hm; [|reflexivity].
    apply matches_EmailEq in Hm. exfalso. exact (He x Hx Hm).
Qed.

End WithDriver.

(** The badge class.  [getStatusClass] always gives one of the four
    class names; a status that is one of the four names in any letter
    case gets that name in lower case, and every other status, or none,
    gets pending. *)
Theorem status_class_is_one_of_four (status : option string) :
  In (Form.getStatusClass status) ["paid"; "pending"; "partial"; "scholarship"]
  /\ (forall s c,
         status = Some s ->
         In c ["paid"; "pending"; "partial"; "scholarship"] ->
         toLowerCase s = c -> Form.getStatusClass status = c)
  /\ (forall s,
         status = Some s ->
         ~ In (toLowerCase s) ["paid"; "pending"; "partial"; "scholarship"] ->
         Form.getStatusClass status = "pending")
  /\ (status = None -> Form.getStatusClass status = "pending").
Proof.
  unfold Form.getStatusClass. split; [|split; [|split]].
  - destruct status as [s|]; cbn [option_map]; [|simpl; tauto].
    destruct (toLowerCase s =? "paid"); [simpl; tauto|].
    destruct (toLowerCase s =? "pending"); [simpl; tauto|].
    destruct (toLowerCase s =? "partial"); [simpl; tauto|].
    destruct (toLowerCase s =? "scholarship"); simpl; tauto.
  - intros s c -> Hc <-. cbn [option_map].
    destruct Hc as [H|[H|[H|[H|[]]]]]; rewrite <- H; reflexivity.
  - intros s -> Hn. cbn [option_map].
    destruct (String.eqb_spec (toLowerCase s) "paid") as [H|_];
      [exfalso; apply Hn; rewrite H; simpl; tauto|].
    destruct (String.eqb_spec (toLowerCase s) "pending") as [H|_];
      [exfalso; apply Hn; rewrite H; simpl; tauto|].
    destruct (String.eqb_spec (toLowerCase s) "partial") as [H|_];
      [exfalso; apply Hn; rewrite H; simpl; tauto|].
    destruct (String.eqb_spec (toLowerCase s) "scholarship") as [H|_];
      [exfalso; apply Hn; rewrite H; simpl; tauto|].
    reflexivity.
  - now intros ->.
Qed.

(** A blank search and no status.  When the search box holds nothing but
    white space and no status is chosen, the table shows every loaded
    record, in the loaded order. *)
Theorem filter_without_criteria_shows_all (p : Client.Page) :
  trim (toLowerCase (Client.searchInput p)) = "" ->
  Client.filterStatus p = "" ->
  Client.shown (Client.tableBody (Client.filterStudents p))
  = Client.currentStudents p.
Proof.
  intros Hs Hf. unfold Client.filterStudents.
  rewrite Properties.shown_renderTable, Hs, Hf.
  induction (Client.currentStudents p) as [|a l IH]; simpl;
    [reflexivity | now rewrite IH].
Qed.

End ClientCoverage.

(* ------------------------------------------------------------------ *)
(** ** The client's list and delete confirmation *)

Module SessionFacts.
Import Session.

(** Loading the list.  [loadStudents] sends one GET for the records and
    leaves the delete confirmation alone.  When the request succeeds,
    the loaded list replaces the current one and the table shows it (or
    'No students found'); when it fails in any way, the current list is
    kept as it was and the table shows the error row. *)
Theorem load_replaces_list_only_on_success
        (answer : Fetched (list Client.Student)) (ui : UI) :
  let ui' := loadStudents answer ui in
  requests ui' = (requests ui ++ [("GET", "http://localhost:3000/api/records")])%list
  /\ deleteId ui' = deleteId ui /\ modalShown ui' = modalShown ui
  /\ (succeeded answer = true ->
      currentStudents ui' = loaded answer
      /\ tableBody ui' = match loaded answer with
                         | [] => NoResults
                         | l => Rows l
                         end)
  /\ (succeeded answer = false ->
      currentStudents ui' = currentStudents ui /\ tableBody ui' = LoadError).
Proof.
  destruct answer as [|[] [[[] [[|x l]|]]|]]; cbn;
    (split; [reflexivity|]); (split; [reflexivity|]);
    (split; [reflexivity|]); split; intros H;
    try discriminate H; split; reflexivity.
Qed.

(** The delete confirmation.  With no id pending, [handleDelete] does
    nothing and sends nothing.  With an id pending, it sends the DELETE
    for that id and, however the request ends, the id is no longer
    pending and the dialog is closed; the list is reloaded exactly when
    the deletion succeeded, and is otherwise left as it was. *)
Theorem delete_confirmation_is_always_cleared
        (answer : Fetched unit) (reload : Fetched (list Client.Student))
        (ui : UI) :
  let ui' := handleDelete answer reload ui in
  (nothing_pending ui = true -> ui' = ui)
  /\ (nothing_pending ui = false ->
      deleteId ui' = None /\ modalShown ui' = false
      /\ deleteStudentName ui' = ""
      /\ exists id,
          deleteId ui = Some id
          /\ (succeeded answer = false ->
              requests ui'
              = (requests ui
                 ++ [("DELETE", ("http://localhost:3000/api/records/" ++ id)%string)])%list
              /\ currentStudents ui' = currentStudents ui
              /\ tableBody ui' = tableBody ui)
          /\ (succeeded answer = true ->
              requests ui'
              = (requests ui
                 ++ [("DELETE", ("http://localhost:3000/api/records/" ++ id)%string);
                     ("GET", "http://localhost:3000/api/records")])%list)).
Proof.
  unfold handleDelete, nothing_pending. cbv zeta.
  destruct (deleteId ui) as [id|] eqn:Hid; [|split; [reflexivity|discriminate]].
  destruct (id =? "")%string; [split; [reflexivity|discriminate]|].
  split; [discriminate|]. intros _.
  destruct answer as [|[] [[[] d]|]];
    destruct reload as [|[] [[[] [[|x l]|]]|]]; cbn;
    (split; [reflexivity|]); (split; [reflexivity|]);
    (split; [reflexivity|]); exists id; (split; [reflexivity|]);
    split; intros H; try discriminate H;
    rewrite <- ?app_assoc; repeat split; reflexivity.
Qed.

(** The dialog.  A confirmation that is opened and then closed leaves
    nothing pending: a click on the confirm button then sends nothing and
    changes nothing.  A confirmation that is opened for an id that is not
    empty and then confirmed sends, first of all, the DELETE for that
    id. *)
Theorem confirmation_targets_the_chosen_record
        (id name : string) (answer : Fetched unit)
        (reload : Fetched (list Client.Student)) (ui : UI) :
  (handleDelete answer reload (closeDeleteModal (showDeleteModal id name ui))
   = closeDeleteModal (showDeleteModal id name ui)
   /\ requests (closeDeleteModal (showDeleteModal id name ui)) = requests ui
   /\ currentStudents (closeDeleteModal (showDeleteModal id name ui))
      = currentStudents ui)
  /\ (id <> "" ->
      exists rest,
        requests (handleDelete answer reload (showDeleteModal id name ui))
        = (requests ui
           ++ ("DELETE", ("http://localhost:3000/api/records/" ++ id)%string)
              :: rest)%list).
Proof.
  split; [repeat split; reflexivity|].
  intros Hne. unfold handleDelete, showDeleteModal. cbn [deleteId].
  destruct (id =? "")%string eqn:He;
    [apply String.eqb_eq in He; contradiction|].
  destruct answer as [|[] [[[] d]|]];
    try (exists []; reflexivity).
  exists [("GET", "http://localhost:3000/api/records")].
  destruct reload as [|[] [[[] [[|x l]|]]|]]; cbn;
    rewrite <- ?app_assoc; reflexivity.
Qed.

End SessionFacts.


(* ------------------------------------------------------------------ *)
(** ** More runs on the reference platform *)

Module CoverageRuns.
Import JsString RegExp Validation Rules Server Records Reference Scenario.
Import Samples ReferenceFacts Language PatternFacts.
Import Coverage ClientCoverage SessionFacts.

Lemma jo_doc_well_formed : Forall well_formed_record [jo_doc].
Proof.
  constructor; [|constructor]. unfold well_formed_record.
  repeat split; try reflexivity; try (simpl; lia); try discriminate.
  - now left.
  - exists "Pending". split; [reflexivity | simpl; tauto].
Qed.

Lemma jo_doc_consistent : consistent [jo_doc].
Proof.
  split; simpl; (constructor; [intros [] | constructor]).
Qed.

(** A phone number of ten digits. *)
Lemma phone_pattern_bounds_witness :
  test phoneRegex "5551234567" = true
  /\ 10 <= String.length "5551234567" <= 17
  /\ trim "5551234567" = "5551234567".
Proof.
  assert (Hd : every digit "5551234567" = true) by reflexivity.
  assert (Hl : 10 <= String.length "5551234567" <= 12) by (simpl; lia).
  pose proof (proj2 (phone_pattern_bounds "5551234567") Hd Hl) as Ht.
  destruct (proj1 (phone_pattern_bounds "5551234567") Ht) as (Hb & _ & Hs).
  split; [exact Ht|]. split; [exact Hb | exact Hs].
Defined.

(** Jo Lee is deleted, then looked up. *)
Lemma delete_then_get_is_not_found_witness :
  NoDup (List.map _id [jo_doc])
  /\ delete_record jo_id [jo_doc] = (Deleted, [])
  /\ get_record jo_id [] = (NotFound, [])
  /\ delete_record jo_id [] = (NotFound, []).
Proof.
  assert (Hn : NoDup (List.map _id [jo_doc])) by exact (proj1 jo_doc_consistent).
  assert (H : delete_record jo_id [jo_doc] = (Deleted, [])) by reflexivity.
  destruct (@delete_then_get_is_not_found _ _ jo_id [jo_doc] [] Hn H)
    as (_ & Hg & Hd).
  split; [exact Hn|]. split; [exact H|]. split; [exact Hg | exact Hd].
Defined.

(** An id that no record has. *)
Lemma not_found_iff_no_record_witness :
  ObjectId_isValid other_id = true
  /\ ObjectId_new other_id = Some ann_oid
  /\ (forall x, In x [jo_doc] -> _id x <> ann_oid)
  /\ get_record other_id [jo_doc] = (NotFound, [jo_doc])
  /\ delete_record other_id [jo_doc] = (NotFound, [jo_doc]).
Proof.
  assert (Hv : ObjectId_isValid other_id = true) by reflexivity.
  assert (Hn : ObjectId_new other_id = Some ann_oid) by reflexivity.
  assert (Hx : forall x, In x [jo_doc] -> _id x <> ann_oid)
    by (intros x [<-|[]]; discriminate).
  destruct (@not_found_iff_no_record _ _ other_id ann_oid [jo_doc] Hv Hn)
    as [Hg Hd].
  split; [exact Hv|]. split; [exact Hn|]. split; [exact Hx|].
  split; [exact (proj1 Hg Hx) | exact (proj1 Hd Hx)].
Defined.


(** Ann Roe is created beside Jo Lee. *)
Lemma create_succeeds_iff_witness :
  validateStudent ann = Some []
  /\ text_or_absent (b_phone ann) = true
  /\ text_or_absent (b_notes ann) = true
  /\ (forall x, In x [jo_doc] -> email x <> normal_email (b_email ann))
  /\ (forall x, In x [jo_doc] -> _id x <> ann_oid)
  /\ post_records 110 111 ann_oid ann [jo_doc]
     = (Created (normalized ann_oid 110 111 ann),
        [jo_doc; normalized ann_oid 110 111 ann]).
Proof.
  assert (H1 : validateStudent ann = Some []) by reflexivity.
  assert (H2 : text_or_absent (b_phone ann) = true) by reflexivity.
  assert (H2' : text_or_absent (b_notes ann) = true) by reflexivity.
  assert (H3 : forall x, In x [jo_doc] -> email x <> normal_email (b_email ann))
    by (intros x [<-|[]]; discriminate).
  assert (H4 : forall x, In x [jo_doc] -> _id x <> ann_oid)
    by (intros x [<-|[]]; discriminate).
  split; [exact H1|]. split; [exact H2|]. split; [exact H2'|].
  split; [exact H3|]. split; [exact H4|].
  exact (proj1 (@create_succeeds_iff _ _ 110%Z 111%Z ann_oid ann [jo_doc])
               (conj H1 (conj H2 (conj H2' (conj H3 H4))))).
Defined.

(** Jo Lee is created, then created again with her email in capitals,
    and once more with a number for her phone. *)
Lemma create_again_conflicts_witness :
  post_records 100 101 jo_oid jo [] = (Created jo_doc, [jo_doc])
  /\ validateStudent (with_email jo "JO@X.COM") = Some []
  /\ normal_email (b_email (with_email jo "JO@X.COM"))
     = normal_email (b_email jo)
  /\ post_records 110 111 ann_oid (with_email jo "JO@X.COM") [jo_doc]
     = (Conflict, [jo_doc])
  /\ validateStudent jo_phone_number = Some []
  /\ post_records 110 111 ann_oid jo_phone_number [jo_doc]
     = (InternalError, [jo_doc]).
Proof.
  assert (H : post_records 100 101 jo_oid jo [] = (Created jo_doc, [jo_doc]))
    by reflexivity.
  assert (H1 : validateStudent (with_email jo "JO@X.COM") = Some [])
    by reflexivity.
  assert (H3 : normal_email (b_email (with_email jo "JO@X.COM"))
               = normal_email (b_email jo)) by reflexivity.
  assert (H4 : validateStudent jo_phone_number = Some []) by reflexivity.
  split; [exact H|]. split; [exact H1|]. split; [exact H3|].
  split; [|split; [exact H4|]].
  - exact (@create_again_conflicts _ _ 100%Z 101%Z jo_oid jo [] [jo_doc] jo_doc
             110%Z 111%Z ann_oid (with_email jo "JO@X.COM") H H1 H3).
  - exact (@create_again_conflicts _ _ 100%Z 101%Z jo_oid jo [] [jo_doc] jo_doc
             110%Z 111%Z ann_oid jo_phone_number H H4 eq_refl).
Defined.

(** Jo Lee's fee status is updated, then she is looked up. *)
Lemma update_then_get_witness :
  put_record 300 jo_id jo_paid [jo_doc]
  = (Updated (Some jo_paid_doc), [jo_paid_doc])
  /\ exists d, Some jo_paid_doc = Some d
               /\ get_record jo_id [jo_paid_doc] = (Found d, [jo_paid_doc]).
Proof.
  assert (H : put_record 300 jo_id jo_paid [jo_doc]
              = (Updated (Some jo_paid_doc), [jo_paid_doc])) by reflexivity.
  split; [exact H|].
  exact (@update_then_get _ _ 300%Z jo_id jo_paid [jo_doc] [jo_paid_doc]
           (Some jo_paid_doc) H).
Defined.

(** Jo Lee is updated to the email of Ann Roe, with her phone missing
    and with a number for her phone. *)
Lemma update_to_taken_email_conflicts_witness :
  In ann_doc [jo_doc; ann_doc] /\ _id ann_doc <> jo_oid
  /\ validateStudent (with_email jo "Ann@Acme.org") = Some []
  /\ put_record 300 jo_id (with_email jo "Ann@Acme.org") [jo_doc; ann_doc]
     = (Conflict, [jo_doc; ann_doc])
  /\ validateStudent (with_email jo_phone_number "Ann@Acme.org") = Some []
  /\ put_record 300 jo_id (with_email jo_phone_number "Ann@Acme.org")
                [jo_doc; ann_doc]
     = (InternalError, [jo_doc; ann_doc]).
Proof.
  assert (Hin : In ann_doc [jo_doc; ann_doc]) by (right; left; reflexivity).
  assert (Hid : _id ann_doc <> jo_oid) by discriminate.
  assert (H1 : validateStudent (with_email jo "Ann@Acme.org") = Some [])
    by reflexivity.
  assert (H2 : validateStudent (with_email jo_phone_number "Ann@Acme.org")
               = Some []) by reflexivity.
  split; [exact Hin|]. split; [exact Hid|]. split; [exact H1|].
  split; [|split; [exact H2|]].
  - exact (@update_to_taken_email_conflicts _ _ 300%Z jo_id jo_oid
             (with_email jo "Ann@Acme.org") [jo_doc; ann_doc] ann_doc
             eq_refl eq_refl H1 Hin Hid eq_refl).
  - exact (@update_to_taken_email_conflicts _ _ 300%Z jo_id jo_oid
             (with_email jo_phone_number "Ann@Acme.org") [jo_doc; ann_doc]
             ann_doc eq_refl eq_refl H2 Hin Hid eq_refl).
Defined.

(** The whole list, with an empty [status] parameter. *)
Lemma list_without_filter_witness :
  get_records None (Some "") None None [jo_doc; ann_doc]
  = (Listed 2 [ann_doc; jo_doc], [jo_doc; ann_doc])
  /\ exists l, Listed 2 [ann_doc; jo_doc]
               = Listed (List.length [jo_doc; ann_doc]) l
               /\ Permutation l [jo_doc; ann_doc].
Proof.
  assert (H : get_records None (Some "") None None [jo_doc; ann_doc]
              = (Listed 2 [ann_doc; jo_doc], [jo_doc; ann_doc]))
    by reflexivity.
  split; [exact H|].
  exact (proj2 (@list_without_filter _ _ None (Some "") None None
                  [jo_doc; ann_doc] [jo_doc; ann_doc]
                  (Listed 2 [ann_doc; jo_doc])
                  eq_refl eq_refl sort_docs_perm H eq_refl)).
Defined.

(** The list of the students who have paid. *)
Lemma list_with_one_filter_witness :
  get_records None (Some "Paid") None None [jo_doc; ann_doc]
  = (Listed 1 [ann_doc], [jo_doc; ann_doc])
  /\ exists l, Listed 1 [ann_doc] = Listed (List.length l) l
               /\ forall d, In d l
                            <-> In d [jo_doc; ann_doc]
                                /\ feeStatus d = JStr "Paid".
Proof.
  assert (H : get_records None (Some "Paid") None None [jo_doc; ann_doc]
              = (Listed 1 [ann_doc], [jo_doc; ann_doc])) by reflexivity.
  assert (Hne : "Paid" <> "") by discriminate.
  split; [exact H|].
  exact (proj1 (@list_with_one_filter _ _ "Paid" None None None
                  [jo_doc; ann_doc] Hne eq_refl sort_docs_perm)
               (Listed 1 [ann_doc]) [jo_doc; ann_doc] H eq_refl).
Defined.

(** The records stay well formed when Ann Roe is created. *)
Lemma routes_keep_records_well_formed_witness :
  Forall well_formed_record [jo_doc]
  /\ Forall well_formed_record (snd (post_records 110 111 ann_oid ann [jo_doc])).
Proof.
  split; [exact jo_doc_well_formed|].
  exact (proj1 (@routes_keep_records_well_formed _ _ [jo_doc]
                  jo_doc_well_formed) 110%Z 111%Z ann_oid ann).
Defined.

(** Ids and emails stay unique when Ann Roe is created. *)
Lemma routes_keep_consistent_witness :
  consistent [jo_doc]
  /\ consistent (snd (post_records 110 111 ann_oid ann [jo_doc])).
Proof.
  split; [exact jo_doc_consistent|].
  exact (proj1 (@Properties.routes_keep_consistent _ _ [jo_doc]
                  jo_doc_consistent) 110%Z 111%Z ann_oid ann).
Defined.

(** Ann Roe is created, then deleted. *)
Lemma create_then_delete_restores_witness :
  post_records 110 111 ann_oid ann [jo_doc] = (Created ann_doc, [jo_doc; ann_doc])
  /\ delete_record other_id [jo_doc; ann_doc] = (Deleted, [jo_doc]).
Proof.
  assert (H : post_records 110 111 ann_oid ann [jo_doc]
              = (Created ann_doc, [jo_doc; ann_doc])) by reflexivity.
  split; [exact H|].
  exact (@create_then_delete_restores _ _ 110%Z 111%Z ann_oid ann [jo_doc]
           [jo_doc; ann_doc] ann_doc other_id H eq_refl eq_refl).
Defined.

(** The update of Jo Lee's fee status is sent twice. *)
Lemma update_again_is_the_same_update_witness :
  put_record 300 jo_id jo_paid [jo_doc]
  = (Updated (Some jo_paid_doc), [jo_paid_doc])
  /\ put_record 400 jo_id jo_paid [jo_paid_doc]
     = put_record 400 jo_id jo_paid [jo_doc]
  /\ put_record 300 jo_id jo_paid [jo_paid_doc]
     = (Updated (Some jo_paid_doc), [jo_paid_doc]).
Proof.
  assert (H : put_record 300 jo_id jo_paid [jo_doc]
              = (Updated (Some jo_paid_doc), [jo_paid_doc])) by reflexivity.
  split; [exact H|].
  exact (@update_again_is_the_same_update _ _ 300%Z 400%Z jo_id jo_paid
           [jo_doc] [jo_paid_doc] (Some jo_paid_doc) H).
Defined.

(** The form for Jo Lee is accepted by the server; with a course of one
    letter it passes [validateForm] and the server refuses it. *)
Lemma server_accepts_form_iff_witness :
  validateStudent (Form.studentData jo_form) = Some []
  /\ fst (Form.validateForm short_course_form) = true
  /\ validateStudent (Form.studentData short_course_form) <> Some [].
Proof.
  split; [|split; [reflexivity|]].
  - apply (proj2 (@server_accepts_form_iff _ jo_form)).
    split; [reflexivity|]. split; [simpl; lia|].
    split; [simpl; tauto | discriminate].
  - intros H.
    destruct (proj1 (@server_accepts_form_iff _ short_course_form) H)
      as (_ & Hc & _).
    simpl in Hc. lia.
Defined.


(** The form for Jo Lee, sent to an empty collection. *)
Lemma form_creates_record_witness :
  validateStudent (Form.studentData jo_form) = Some []
  /\ post_records 100 101 jo_oid (Form.studentData jo_form) []
     = (Created jo_doc, [jo_doc]).
Proof.
  assert (H : validateStudent (Form.studentData jo_form) = Some []) by reflexivity.
  split; [exact H|].
  exact (@form_creates_record _ _ 100%Z 101%Z jo_oid jo_form [] H
           (fun x (F : In x []) => match F with end)
           (fun x (F : In x []) => match F with end)).
Defined.

(** The badge of a status in capitals, and of an unknown one. *)
Lemma status_class_is_one_of_four_witness :
  Form.getStatusClass (Some "PAID") = "paid"
  /\ Form.getStatusClass (Some "Overdue") = "pending".
Proof.
  split.
  - apply (proj1 (proj2 (status_class_is_one_of_four (Some "PAID"))) "PAID");
      [reflexivity | simpl; tauto | reflexivity].
  - apply (proj1 (proj2 (proj2 (status_class_is_one_of_four (Some "Overdue"))))
                 "Overdue"); [reflexivity|].
    simpl. intros [H|[H|[H|[H|[]]]]]; discriminate.
Defined.

(** White space in the search box and no status chosen. *)
Lemma filter_without_criteria_shows_all_witness :
  trim (toLowerCase (Client.searchInput blank_page)) = ""
  /\ Client.filterStatus blank_page = ""
  /\ Client.shown (Client.tableBody (Client.filterStudents blank_page))
     = [jo_row; ann_row].
Proof.
  split; [reflexivity|]. split; [reflexivity|].
  exact (filter_without_criteria_shows_all blank_page eq_refl eq_refl).
Defined.

(** A load that is answered with one student, and one that is rejected. *)
Lemma load_replaces_list_only_on_success_witness :
  Session.currentStudents
    (Session.loadStudents
       (Session.Answered true
          (Some (Session.mkEnvelope true (Some [ann_row])))) pending_ui)
  = [ann_row]
  /\ Session.currentStudents (Session.loadStudents Session.Rejected pending_ui)
     = [jo_row]
  /\ Session.tableBody (Session.loadStudents Session.Rejected pending_ui)
     = Session.LoadError.
Proof.
  split.
  - exact (proj1 (proj1 (proj2 (proj2 (proj2
      (load_replaces_list_only_on_success
         (Session.Answered true
            (Some (Session.mkEnvelope true (Some [ann_row])))) pending_ui))))
      eq_refl)).
  - exact (proj2 (proj2 (proj2 (proj2
      (load_replaces_list_only_on_success Session.Rejected pending_ui)))) eq_refl).
Defined.

(** The deletion of Jo Lee is confirmed and the request is rejected. *)
Lemma delete_confirmation_is_always_cleared_witness :
  Session.nothing_pending pending_ui = false
  /\ Session.deleteId
       (Session.handleDelete Session.Rejected Session.Rejected pending_ui)
     = None
  /\ Session.modalShown
       (Session.handleDelete Session.Rejected Session.Rejected pending_ui)
     = false.
Proof.
  assert (H : Session.nothing_pending pending_ui = false) by reflexivity.
  destruct (proj2 (delete_confirmation_is_always_cleared
                     Session.Rejected Session.Rejected pending_ui) H)
    as (Hd & Hm & _).
  split; [exact H|]. split; [exact Hd | exact Hm].
Defined.

(** The deletion of Jo Lee is asked for and confirmed. *)
Lemma confirmation_targets_the_chosen_record_witness :
  jo_id <> ""
  /\ exists rest,
      Session.requests
        (Session.handleDelete Session.Rejected Session.Rejected
           (Session.showDeleteModal jo_id "Jo Lee" pending_ui))
      = (Session.requests pending_ui
         ++ ("DELETE",
             ("http://localhost:3000/api/records/" ++ jo_id)%string) :: rest)%list.
Proof.
  assert (H : jo_id <> "") by discriminate.
  split; [exact H|].
  exact (proj2 (confirmation_targets_the_chosen_record
                  jo_id "Jo Lee" Session.Rejected Session.Rejected pending_ui) H).
Defined.

End CoverageRuns.
